(** * Honda OBD1 bridge: transaction engine, decoders and host framing

    A shallow embedding of [src/src/hobd_uni2.cpp], [src/include/hobd_uni2.hpp]
    and the framing routine of [src/src/main.cpp], followed by the properties
    of the protocol engine that the specification states about them.

    Conventions of the embedding.
    - [uint8_t], [uint16_t] and [size_t] values are integers of [Z]; every
      narrowing store is written out with [u8] or [u16].
    - [int] is taken to be at least 32 bits wide: all the [int] values that
      the decoders produce stay far inside that range, so [int] arithmetic is
      plain arithmetic of [Z], with C's division truncating toward zero
      ([Z.quot]).
    - [float] is IEEE-754 binary32 and [double] binary64, every operation
      rounded to nearest with ties to even.  A floating-point value is the
      rational number it denotes (module [FP]).
    - C arrays are lists of their declared length.  An access behind the
      end of an array has no defined behaviour in C++; the embedding stops
      there with the outcome [Fault].
    - The half-duplex link is a [world]: the polls that the receive loop will
      see, the clock, and the trace of what the program did on the wire. *)

From Stdlib Require Import ZArith QArith Lia ZifyBool List Bool.
From stdpp Require Import base tactics option list.
Import ListNotations.
Local Open Scope Z_scope.

(** ** Machine integers *)

Definition u8 (z : Z) : Z := z mod 256.
Definition u16 (z : Z) : Z := z mod 65536.
Definition is_byte (z : Z) : Prop := 0 <= z < 256.

(** ** Floating point: values as rationals, operations as exact operation
       followed by rounding *)

Module FP.

Record format : Type := mkFormat { prec : Z; emin : Z }.

Definition binary32 : format := mkFormat 24 (-149).
Definition binary64 : format := mkFormat 53 (-1074).

(** Nearest integer to [n / d] for [d > 0], ties to the even neighbour. *)
Definition rne (n d : Z) : Z :=
  let q := n / d in
  let r := n mod d in
  if 2 * r <? d then q
  else if d <? 2 * r then q + 1
  else if Z.even q then q else q + 1.

(** [floor (log2 (a / b))] for positive [a] and [b]. *)
Definition ilog2 (a b : Z) : Z :=
  let k := Z.log2 a - Z.log2 b in
  let ge := if 0 <=? k then b * 2 ^ k <=? a else b <=? a * 2 ^ (- k) in
  if ge then k else k - 1.

(** Rounding of a rational to the format: the significand has [prec]
    bits, the exponent of the last place is at least [emin].  The values
    met here are far below the overflow threshold. *)
Definition round (f : format) (x : Q) : Q :=
  let n := Qnum x in
  let d := Zpos (Qden x) in
  if n =? 0 then 0%Q
  else
    let a := Z.abs n in
    let e := Z.max (ilog2 a d - (prec f - 1)) (emin f) in
    let m := if 0 <=? e then rne a (d * 2 ^ e) else rne (a * 2 ^ (- e)) d in
    let r := if 0 <=? e then inject_Z (m * 2 ^ e)
             else Qred (Qmake m (Z.to_pos (2 ^ (- e)))) in
    if n <? 0 then Qopp r else r.

(** [float] arithmetic *)
Definition lit32 (x : Q) : Q := round binary32 x.
Definition of_int32 (z : Z) : Q := round binary32 (inject_Z z).
Definition add32 (x y : Q) : Q := round binary32 (x + y).
Definition sub32 (x y : Q) : Q := round binary32 (x - y).
Definition mul32 (x y : Q) : Q := round binary32 (x * y).
Definition div32 (x y : Q) : Q := round binary32 (x / y).

(** [double] arithmetic *)
Definition lit64 (x : Q) : Q := round binary64 x.
Definition of_int64 (z : Z) : Q := round binary64 (inject_Z z).
Definition add64 (x y : Q) : Q := round binary64 (x + y).
Definition sub64 (x y : Q) : Q := round binary64 (x - y).
Definition mul64 (x y : Q) : Q := round binary64 (x * y).
Definition div64 (x y : Q) : Q := round binary64 (x / y).
Definition pow64 (x : Q) (k : Z) : Q := round binary64 (x ^ k).

(** Conversions: [double] to [float] rounds, a floating value to [int]
    drops the fraction. *)
Definition to_float (x : Q) : Q := round binary32 x.
Definition to_int (x : Q) : Z := Z.quot (Qnum x) (Zpos (Qden x)).

End FP.

(** ** Constants of [hobd_uni2.hpp] *)

Definition MSG_OFFSET : Z := 3.
Definition RPL_OFFSET : Z := 2.

Definition HOBD_CMD : Z := 0x20.
Definition HOBD_RST : Z := 0x21.

Definition HOBD_OFF_RPM : Z := 0x00.
Definition HOBD_OFF_VSS : Z := 0x02.
Definition HOBD_OFF_FLAG_08 : Z := 0x08.
Definition HOBD_OFF_FLAG_0B : Z := 0x0B.
Definition HOBD_OFF_ECT : Z := 0x10.
Definition HOBD_OFF_IAT : Z := 0x11.
Definition HOBD_OFF_MAP : Z := 0x12.
Definition HOBD_OFF_TPS : Z := 0x14.
Definition HOBD_OFF_O2 : Z := 0x15.
Definition HOBD_OFF_VOLT : Z := 0x15.
Definition HOBD_OFF_ALTF : Z := 0x18.
Definition HOBD_OFF_EL : Z := 0x19.
Definition HOBD_OFF_ERRORS1 : Z := 0x40.

Definition HOBD_FLG_STARTER : Z := Z.shiftl 1 0.
Definition HOBD_FLG_AC_SWITCH : Z := Z.shiftl 1 1.
Definition HOBD_FLG_BRAKE : Z := Z.shiftl 1 3.
Definition HOBD_FLG_VTEC_PRESS : Z := Z.shiftl 1 7.
Definition HOBD_FLG_MAIN_RELAY : Z := Z.shiftl 1 0.
Definition HOBD_FLG_CEL : Z := Z.shiftl 1 5.

Definition ErrLen : nat := 14.
Definition DataLen : nat := 20.

(** ** Data model *)

Record EcuCmd : Type := mkEcuCmd {
  cmd : Z;
  txlen : Z;
  reg : Z;
  rxlen : Z;
  crc : Z
}.

Definition set_crc (v : Z) (c : EcuCmd) : EcuCmd :=
  mkEcuCmd (cmd c) (txlen c) (reg c) (rxlen c) v.

Inductive ErrCodes : Type := ChecksumErr | TimeoutErr | DTCErr.

(** The members of [class ECUData] that some function of the sources reads
    or writes.  The remaining members (external sensors, peak values,
    run-time counters, display settings) are touched by no code of the
    repository and are left out. *)
Record ECUData : Type := mkECUData {
  dlcData : list Z;
  dtcErrs : list Z;
  Errs : list ErrCodes;
  errLen : Z;
  dtcLen : Z;
  dlctmo : Z;
  rpm : Z;
  ect : Z;
  iat : Z;
  maps : Z;
  baro : Z;
  tps : Z;
  sft : Z;
  lft : Z;
  inj : Z;
  ign : Z;
  lmt : Z;
  iacv : Z;
  knoc : Z;
  volt : Q;
  o2 : Q;
  vss : Z;
  alt_fr : Q;
  eld : Q;
  main_relay : bool;
  cel : bool;
  sw_aircon : bool;
  sw_brake : bool;
  sw_vtec : bool;
  sw_starter : bool;
  maf : Z;
  obd_sel : Z
}.

Definition set_dlcData (v : list Z) (e : ECUData) : ECUData :=
  mkECUData v (dtcErrs e) (Errs e) (errLen e) (dtcLen e) (dlctmo e) (rpm e)
    (ect e) (iat e) (maps e) (baro e) (tps e) (sft e) (lft e) (inj e) (ign e)
    (lmt e) (iacv e) (knoc e) (volt e) (o2 e) (vss e) (alt_fr e) (eld e)
    (main_relay e) (cel e) (sw_aircon e) (sw_brake e) (sw_vtec e) (sw_starter e)
    (maf e) (obd_sel e).

Definition set_dtcErrs (v : list Z) (e : ECUData) : ECUData :=
  mkECUData (dlcData e) v (Errs e) (errLen e) (dtcLen e) (dlctmo e) (rpm e)
    (ect e) (iat e) (maps e) (baro e) (tps e) (sft e) (lft e) (inj e) (ign e)
    (lmt e) (iacv e) (knoc e) (volt e) (o2 e) (vss e) (alt_fr e) (eld e)
    (main_relay e) (cel e) (sw_aircon e) (sw_brake e) (sw_vtec e) (sw_starter e)
    (maf e) (obd_sel e).

Definition set_Errs (v : list ErrCodes) (e : ECUData) : ECUData :=
  mkECUData (dlcData e) (dtcErrs e) v (errLen e) (dtcLen e) (dlctmo e) (rpm e)
    (ect e) (iat e) (maps e) (baro e) (tps e) (sft e) (lft e) (inj e) (ign e)
    (lmt e) (iacv e) (knoc e) (volt e) (o2 e) (vss e) (alt_fr e) (eld e)
    (main_relay e) (cel e) (sw_aircon e) (sw_brake e) (sw_vtec e) (sw_starter e)
    (maf e) (obd_sel e).

Definition set_errLen (v : Z) (e : ECUData) : ECUData :=
  mkECUData (dlcData e) (dtcErrs e) (Errs e) v (dtcLen e) (dlctmo e) (rpm e)
    (ect e) (iat e) (maps e) (baro e) (tps e) (sft e) (lft e) (inj e) (ign e)
    (lmt e) (iacv e) (knoc e) (volt e) (o2 e) (vss e) (alt_fr e) (eld e)
    (main_relay e) (cel e) (sw_aircon e) (sw_brake e) (sw_vtec e) (sw_starter e)
    (maf e) (obd_sel e).

Definition set_dtcLen (v : Z) (e : ECUData) : ECUData :=
  mkECUData (dlcData e) (dtcErrs e) (Errs e) (errLen e) v (dlctmo e) (rpm e)
    (ect e) (iat e) (maps e) (baro e) (tps e) (sft e) (lft e) (inj e) (ign e)
    (lmt e) (iacv e) (knoc e) (volt e) (o2 e) (vss e) (alt_fr e) (eld e)
    (main_relay e) (cel e) (sw_aircon e) (sw_brake e) (sw_vtec e) (sw_starter e)
    (maf e) (obd_sel e).

Definition set_dlctmo (v : Z) (e : ECUData) : ECUData :=
  mkECUData (dlcData e) (dtcErrs e) (Errs e) (errLen e) (dtcLen e) v (rpm e)
    (ect e) (iat e) (maps e) (baro e) (tps e) (sft e) (lft e) (inj e) (ign e)
    (lmt e) (iacv e) (knoc e) (volt e) (o2 e) (vss e) (alt_fr e) (eld e)
    (main_relay e) (cel e) (sw_aircon e) (sw_brake e) (sw_vtec e) (sw_starter e)
    (maf e) (obd_sel e).

Definition set_rpm (v : Z) (e : ECUData) : ECUData :=
  mkECUData (dlcData e) (dtcErrs e) (Errs e) (errLen e) (dtcLen e) (dlctmo e)
    v (ect e) (iat e) (maps e) (baro e) (tps e) (sft e) (lft e) (inj e) (ign e)
    (lmt e) (iacv e) (knoc e) (volt e) (o2 e) (vss e) (alt_fr e) (eld e)
    (main_relay e) (cel e) (sw_aircon e) (sw_brake e) (sw_vtec e) (sw_starter e)
    (maf e) (obd_sel e).

Definition set_ect (v : Z) (e : ECUData) : ECUData :=
  mkECUData (dlcData e) (dtcErrs e) (Errs e) (errLen e) (dtcLen e) (dlctmo e)
    (rpm e) v (iat e) (maps e) (baro e) (tps e) (sft e) (lft e) (inj e) (ign e)
    (lmt e) (iacv e) (knoc e) (volt e) (o2 e) (vss e) (alt_fr e) (eld e)
    (main_relay e) (cel e) (sw_aircon e) (sw_brake e) (sw_vtec e) (sw_starter e)
    (maf e) (obd_sel e).

Definition set_iat (v : Z) (e : ECUData) : ECUData :=
  mkECUData (dlcData e) (dtcErrs e) (Errs e) (errLen e) (dtcLen e) (dlctmo e)
    (rpm e) (ect e) v (maps e) (baro e) (tps e) (sft e) (lft e) (inj e) (ign e)
    (lmt e) (iacv e) (knoc e) (volt e) (o2 e) (vss e) (alt_fr e) (eld e)
    (main_relay e) (cel e) (sw_aircon e) (sw_brake e) (sw_vtec e) (sw_starter e)
    (maf e) (obd_sel e).

Definition set_maps (v : Z) (e : ECUData) : ECUData :=
  mkECUData (dlcData e) (dtcErrs e) (Errs e) (errLen e) (dtcLen e) (dlctmo e)
    (rpm e) (ect e) (iat e) v (baro e) (tps e) (sft e) (lft e) (inj e) (ign e)
    (lmt e) (iacv e) (knoc e) (volt e) (o2 e) (vss e) (alt_fr e) (eld e)
    (main_relay e) (cel e) (sw_aircon e) (sw_brake e) (sw_vtec e) (sw_starter e)
    (maf e) (obd_sel e).

Definition set_baro (v : Z) (e : ECUData) : ECUData :=
  mkECUData (dlcData e) (dtcErrs e) (Errs e) (errLen e) (dtcLen e) (dlctmo e)
    (rpm e) (ect e) (iat e) (maps e) v (tps e) (sft e) (lft e) (inj e) (ign e)
    (lmt e) (iacv e) (knoc e) (volt e) (o2 e) (vss e) (alt_fr e) (eld e)
    (main_relay e) (cel e) (sw_aircon e) (sw_brake e) (sw_vtec e) (sw_starter e)
    (maf e) (obd_sel e).

Definition set_tps (v : Z) (e : ECUData) : ECUData :=
  mkECUData (dlcData e) (dtcErrs e) (Errs e) (errLen e) (dtcLen e) (dlctmo e)
    (rpm e) (ect e) (iat e) (maps e) (baro e) v (sft e) (lft e) (inj e) (ign e)
    (lmt e) (iacv e) (knoc e) (volt e) (o2 e) (vss e) (alt_fr e) (eld e)
    (main_relay e) (cel e) (sw_aircon e) (sw_brake e) (sw_vtec e) (sw_starter e)
    (maf e) (obd_sel e).

Definition set_sft (v : Z) (e : ECUData) : ECUData :=
  mkECUData (dlcData e) (dtcErrs e) (Errs e) (errLen e) (dtcLen e) (dlctmo e)
    (rpm e) (ect e) (iat e) (maps e) (baro e) (tps e) v (lft e) (inj e) (ign e)
    (lmt e) (iacv e) (knoc e) (volt e) (o2 e) (vss e) (alt_fr e) (eld e)
    (main_relay e) (cel e) (sw_aircon e) (sw_brake e) (sw_vtec e) (sw_starter e)
    (maf e) (obd_sel e).

Definition set_lft (v : Z) (e : ECUData) : ECUData :=
  mkECUData (dlcData e) (dtcErrs e) (Errs e) (errLen e) (dtcLen e) (dlctmo e)
    (rpm e) (ect e) (iat e) (maps e) (baro e) (tps e) (sft e) v (inj e) (ign e)
    (lmt e) (iacv e) (knoc e) (volt e) (o2 e) (vss e) (alt_fr e) (eld e)
    (main_relay e) (cel e) (sw_aircon e) (sw_brake e) (sw_vtec e) (sw_starter e)
    (maf e) (obd_sel e).

Definition set_inj (v : Z) (e : ECUData) : ECUData :=
  mkECUData (dlcData e) (dtcErrs e) (Errs e) (errLen e) (dtcLen e) (dlctmo e)
    (rpm e) (ect e) (iat e) (maps e) (baro e) (tps e) (sft e) (lft e) v (ign e)
    (lmt e) (iacv e) (knoc e) (volt e) (o2 e) (vss e) (alt_fr e) (eld e)
    (main_relay e) (cel e) (sw_aircon e) (sw_brake e) (sw_vtec e) (sw_starter e)
    (maf e) (obd_sel e).

Definition set_ign (v : Z) (e : ECUData) : ECUData :=
  mkECUData (dlcData e) (dtcErrs e) (Errs e) (errLen e) (dtcLen e) (dlctmo e)
    (rpm e) (ect e) (iat e) (maps e) (baro e) (tps e) (sft e) (lft e) (inj e) v
    (lmt e) (iacv e) (knoc e) (volt e) (o2 e) (vss e) (alt_fr e) (eld e)
    (main_relay e) (cel e) (sw_aircon e) (sw_brake e) (sw_vtec e) (sw_starter e)
    (maf e) (obd_sel e).

Definition set_lmt (v : Z) (e : ECUData) : ECUData :=
  mkECUData (dlcData e) (dtcErrs e) (Errs e) (errLen e) (dtcLen e) (dlctmo e)
    (rpm e) (ect e) (iat e) (maps e) (baro e) (tps e) (sft e) (lft e) (inj e)
    (ign e) v (iacv e) (knoc e) (volt e) (o2 e) (vss e) (alt_fr e) (eld e)
    (main_relay e) (cel e) (sw_aircon e) (sw_brake e) (sw_vtec e) (sw_starter e)
    (maf e) (obd_sel e).

Definition set_iacv (v : Z) (e : ECUData) : ECUData :=
  mkECUData (dlcData e) (dtcErrs e) (Errs e) (errLen e) (dtcLen e) (dlctmo e)
    (rpm e) (ect e) (iat e) (maps e) (baro e) (tps e) (sft e) (lft e) (inj e)
    (ign e) (lmt e) v (knoc e) (volt e) (o2 e) (vss e) (alt_fr e) (eld e)
    (main_relay e) (cel e) (sw_aircon e) (sw_brake e) (sw_vtec e) (sw_starter e)
    (maf e) (obd_sel e).

Definition set_knoc (v : Z) (e : ECUData) : ECUData :=
  mkECUData (dlcData e) (dtcErrs e) (Errs e) (errLen e) (dtcLen e) (dlctmo e)
    (rpm e) (ect e) (iat e) (maps e) (baro e) (tps e) (sft e) (lft e) (inj e)
    (ign e) (lmt e) (iacv e) v (volt e) (o2 e) (vss e) (alt_fr e) (eld e)
    (main_relay e) (cel e) (sw_aircon e) (sw_brake e) (sw_vtec e) (sw_starter e)
    (maf e) (obd_sel e).

Definition set_volt (v : Q) (e : ECUData) : ECUData :=
  mkECUData (dlcData e) (dtcErrs e) (Errs e) (errLen e) (dtcLen e) (dlctmo e)
    (rpm e) (ect e) (iat e) (maps e) (baro e) (tps e) (sft e) (lft e) (inj e)
    (ign e) (lmt e) (iacv e) (knoc e) v (o2 e) (vss e) (alt_fr e) (eld e)
    (main_relay e) (cel e) (sw_aircon e) (sw_brake e) (sw_vtec e) (sw_starter e)
    (maf e) (obd_sel e).

Definition set_o2 (v : Q) (e : ECUData) : ECUData :=
  mkECUData (dlcData e) (dtcErrs e) (Errs e) (errLen e) (dtcLen e) (dlctmo e)
    (rpm e) (ect e) (iat e) (maps e) (baro e) (tps e) (sft e) (lft e) (inj e)
    (ign e) (lmt e) (iacv e) (knoc e) (volt e) v (vss e) (alt_fr e) (eld e)
    (main_relay e) (cel e) (sw_aircon e) (sw_brake e) (sw_vtec e) (sw_starter e)
    (maf e) (obd_sel e).

Definition set_vss (v : Z) (e : ECUData) : ECUData :=
  mkECUData (dlcData e) (dtcErrs e) (Errs e) (errLen e) (dtcLen e) (dlctmo e)
    (rpm e) (ect e) (iat e) (maps e) (baro e) (tps e) (sft e) (lft e) (inj e)
    (ign e) (lmt e) (iacv e) (knoc e) (volt e) (o2 e) v (alt_fr e) (eld e)
    (main_relay e) (cel e) (sw_aircon e) (sw_brake e) (sw_vtec e) (sw_starter e)
    (maf e) (obd_sel e).

Definition set_alt_fr (v : Q) (e : ECUData) : ECUData :=
  mkECUData (dlcData e) (dtcErrs e) (Errs e) (errLen e) (dtcLen e) (dlctmo e)
    (rpm e) (ect e) (iat e) (maps e) (baro e) (tps e) (sft e) (lft e) (inj e)
    (ign e) (lmt e) (iacv e) (knoc e) (volt e) (o2 e) (vss e) v (eld e)
    (main_relay e) (cel e) (sw_aircon e) (sw_brake e) (sw_vtec e) (sw_starter e)
    (maf e) (obd_sel e).

Definition set_eld (v : Q) (e : ECUData) : ECUData :=
  mkECUData (dlcData e) (dtcErrs e) (Errs e) (errLen e) (dtcLen e) (dlctmo e)
    (rpm e) (ect e) (iat e) (maps e) (baro e) (tps e) (sft e) (lft e) (inj e)
    (ign e) (lmt e) (iacv e) (knoc e) (volt e) (o2 e) (vss e) (alt_fr e) v
    (main_relay e) (cel e) (sw_aircon e) (sw_brake e) (sw_vtec e) (sw_starter e)
    (maf e) (obd_sel e).

Definition set_main_relay (v : bool) (e : ECUData) : ECUData :=
  mkECUData (dlcData e) (dtcErrs e) (Errs e) (errLen e) (dtcLen e) (dlctmo e)
    (rpm e) (ect e) (iat e) (maps e) (baro e) (tps e) (sft e) (lft e) (inj e)
    (ign e) (lmt e) (iacv e) (knoc e) (volt e) (o2 e) (vss e) (alt_fr e) (eld e)
    v (cel e) (sw_aircon e) (sw_brake e) (sw_vtec e) (sw_starter e) (maf e)
    (obd_sel e).

Definition set_cel (v : bool) (e : ECUData) : ECUData :=
  mkECUData (dlcData e) (dtcErrs e) (Errs e) (errLen e) (dtcLen e) (dlctmo e)
    (rpm e) (ect e) (iat e) (maps e) (baro e) (tps e) (sft e) (lft e) (inj e)
    (ign e) (lmt e) (iacv e) (knoc e) (volt e) (o2 e) (vss e) (alt_fr e) (eld e)
    (main_relay e) v (sw_aircon e) (sw_brake e) (sw_vtec e) (sw_starter e) (maf
    e) (obd_sel e).

Definition set_sw_aircon (v : bool) (e : ECUData) : ECUData :=
  mkECUData (dlcData e) (dtcErrs e) (Errs e) (errLen e) (dtcLen e) (dlctmo e)
    (rpm e) (ect e) (iat e) (maps e) (baro e) (tps e) (sft e) (lft e) (inj e)
    (ign e) (lmt e) (iacv e) (knoc e) (volt e) (o2 e) (vss e) (alt_fr e) (eld e)
    (main_relay e) (cel e) v (sw_brake e) (sw_vtec e) (sw_starter e) (maf e)
    (obd_sel e).

Definition set_sw_brake (v : bool) (e : ECUData) : ECUData :=
  mkECUData (dlcData e) (dtcErrs e) (Errs e) (errLen e) (dtcLen e) (dlctmo e)
    (rpm e) (ect e) (iat e) (maps e) (baro e) (tps e) (sft e) (lft e) (inj e)
    (ign e) (lmt e) (iacv e) (knoc e) (volt e) (o2 e) (vss e) (alt_fr e) (eld e)
    (main_relay e) (cel e) (sw_aircon e) v (sw_vtec e) (sw_starter e) (maf e)
    (obd_sel e).

Definition set_sw_vtec (v : bool) (e : ECUData) : ECUData :=
  mkECUData (dlcData e) (dtcErrs e) (Errs e) (errLen e) (dtcLen e) (dlctmo e)
    (rpm e) (ect e) (iat e) (maps e) (baro e) (tps e) (sft e) (lft e) (inj e)
    (ign e) (lmt e) (iacv e) (knoc e) (volt e) (o2 e) (vss e) (alt_fr e) (eld e)
    (main_relay e) (cel e) (sw_aircon e) (sw_brake e) v (sw_starter e) (maf e)
    (obd_sel e).

Definition set_sw_starter (v : bool) (e : ECUData) : ECUData :=
  mkECUData (dlcData e) (dtcErrs e) (Errs e) (errLen e) (dtcLen e) (dlctmo e)
    (rpm e) (ect e) (iat e) (maps e) (baro e) (tps e) (sft e) (lft e) (inj e)
    (ign e) (lmt e) (iacv e) (knoc e) (volt e) (o2 e) (vss e) (alt_fr e) (eld e)
    (main_relay e) (cel e) (sw_aircon e) (sw_brake e) (sw_vtec e) v (maf e)
    (obd_sel e).

Definition set_maf (v : Z) (e : ECUData) : ECUData :=
  mkECUData (dlcData e) (dtcErrs e) (Errs e) (errLen e) (dtcLen e) (dlctmo e)
    (rpm e) (ect e) (iat e) (maps e) (baro e) (tps e) (sft e) (lft e) (inj e)
    (ign e) (lmt e) (iacv e) (knoc e) (volt e) (o2 e) (vss e) (alt_fr e) (eld e)
    (main_relay e) (cel e) (sw_aircon e) (sw_brake e) (sw_vtec e) (sw_starter e)
    v (obd_sel e).

Definition set_obd_sel (v : Z) (e : ECUData) : ECUData :=
  mkECUData (dlcData e) (dtcErrs e) (Errs e) (errLen e) (dtcLen e) (dlctmo e)
    (rpm e) (ect e) (iat e) (maps e) (baro e) (tps e) (sft e) (lft e) (inj e)
    (ign e) (lmt e) (iacv e) (knoc e) (volt e) (o2 e) (vss e) (alt_fr e) (eld e)
    (main_relay e) (cel e) (sw_aircon e) (sw_brake e) (sw_vtec e) (sw_starter e)
    (maf e) v.

(** ** The link to the ECU *)

Inductive io_event : Type :=
| Listen
| Write (b : Z)
| Delay (ms : Z).

(** [polls]: what the successive calls of [dlc.available()] in the receive
    loop will find, [None] for "nothing yet", [Some b] for a byte that
    [dlc.read()] then returns.  [clock]: the value [millis()] returns.
    [wire]: what the program has done so far, oldest first. *)
Record world : Type := mkWorld {
  polls : list (option Z);
  clock : Z;
  wire : list io_event
}.

Definition set_polls (ps : list (option Z)) (w : world) : world :=
  mkWorld ps (clock w) (wire w).

Definition emit (ev : io_event) (w : world) : world :=
  mkWorld (polls w) (clock w) (wire w ++ [ev]).

Definition delay (ms : Z) (w : world) : world := emit (Delay ms) w.

(** ** Outcomes of a run

    [Spin]: the receive loop is still polling when the schedule of the
    [world] ends; nothing makes it leave.  [Fault]: an array was accessed
    behind its end. *)

Inductive outcome (A : Type) : Type :=
| Ret (a : A)
| Spin
| Fault.

Arguments Ret {A} a.
Arguments Spin {A}.
Arguments Fault {A}.

#[global] Instance outcome_ret : MRet outcome := fun A a => Ret a.
#[global] Instance outcome_bind : MBind outcome := fun A B f m =>
  match m with
  | Ret a => f a
  | Spin => Spin
  | Fault => Fault
  end.

Definition returns {A} (m : outcome A) : bool :=
  match m with Ret _ => true | _ => false end.

(** Array cells addressed by a computed index. *)
Definition arr_get {A} (a : list A) (i : Z) : outcome A :=
  if 0 <=? i then
    match a !! Z.to_nat i with
    | Some x => Ret x
    | None => Fault
    end
  else Fault.

Definition arr_set {A} (a : list A) (i : Z) (v : A) : outcome (list A) :=
  if (0 <=? i) && (i <? Z.of_nat (length a)) then Ret (<[Z.to_nat i := v]> a)
  else Fault.

(** Array cells addressed by a constant inside the declared length. *)
Definition cell (a : list Z) (i : Z) : Z := a !!! Z.to_nat i.

(** ** [ECUData::mkcrc] *)

Fixpoint mkcrc_loop (buf : list Z) (n : nat) (i : Z) (crc : Z) : outcome Z :=
  match n with
  | O => Ret crc
  | S n' =>
      b ← arr_get buf i;
      mkcrc_loop buf n' (u8 (i + 1)) (u8 (crc + b))
  end.

Definition mkcrc (buf : list Z) (len : Z) : outcome Z :=
  crc ← mkcrc_loop buf (Z.to_nat len) 0 0;
  Ret (u8 (0xFF - (crc - 1))).

(** The formula of the specification: sum the bytes modulo 256 into [s],
    return [0xFF - (s - 1)] modulo 256. *)
Definition byte_sum (bs : list Z) : Z := fold_right Z.add 0 bs.
Definition checksum (bs : list Z) : Z := (0xFF - (byte_sum bs mod 256 - 1)) mod 256.

(** ** [ECUData::sendcmd] *)

(** The five bytes [tx[0..4]]; the last one is the inline checksum
    expression, computed in [int] and stored into a [uint8_t]. *)
Definition tx_frame (ecmd : EcuCmd) : list Z :=
  let crc := u8 (0xFF - (cmd ecmd + txlen ecmd + reg ecmd + rxlen ecmd - 0x01)) in
  [cmd ecmd; txlen ecmd; reg ecmd; rxlen ecmd; crc].

(** [while (i < expected) if (dlc.available()) dlcData[i++] = dlc.read();]
    Each turn of the loop takes one poll from the schedule. *)
Fixpoint recv_loop (expected : Z) (ps : list (option Z)) (i : Z) (buf : list Z)
  : outcome (Z * list Z * list (option Z)) :=
  if i <? expected then
    match ps with
    | [] => Spin
    | None :: ps' => recv_loop expected ps' i buf
    | Some b :: ps' =>
        buf' ← arr_set buf i (u8 b);
        recv_loop expected ps' (u16 (i + 1)) buf'
    end
  else Ret (i, buf, ps).

(** [Errs[errLen++] = e;] *)
Definition log_err (e : ErrCodes) (s : ECUData) : outcome ECUData :=
  errs ← arr_set (Errs s) (errLen s) e;
  Ret (set_errLen (errLen s + 1) (set_Errs errs s)).

Definition sendcmd (s : ECUData) (ecmd : EcuCmd) (w : world)
  : outcome (bool * ECUData * EcuCmd * world) :=
  let s := set_dlcData (replicate DataLen 0) s in
  let tx := tx_frame ecmd in
  let ecmd := set_crc (cell tx 4) ecmd in
  let w := emit Listen w in
  let s := set_dlcData (replicate DataLen 0) s in
  let w := fold_left (fun w b => emit (Write b) w) tx w in
  let expected := u16 (rxlen ecmd + MSG_OFFSET) in
  let tStart := clock w in
  let timeoutMs := 200 in
  '(i, buf, ps) ← recv_loop expected (polls w) 0 (dlcData s);
  let s := set_dlcData buf s in
  let w := set_polls ps w in
  if i <? expected then
    let s := set_dlctmo (u16 (dlctmo s + 1)) s in
    s ← log_err TimeoutErr s;
    Ret (false, s, ecmd, w)
  else
    rxCrc ← arr_get (dlcData s) (expected - 1);
    calc ← mkcrc (dlcData s) (u8 (expected - 1));
    if negb (calc =? rxCrc) then
      s ← log_err ChecksumErr s;
      Ret (false, s, ecmd, w)
    else Ret (true, s, ecmd, w).

(** ** [ECUData::scanDtc] *)

(** One turn of [for (i = 0; i < 14; i++)], on [dtcErrs] and [dtcLen]. *)
Definition scan_byte (d : list Z) (i : Z) (st : list Z * Z) : list Z * Z :=
  let '(errs, len) := st in
  let '(errs, len) :=
    if negb (Z.shiftr (cell d (i + 2)) 4 =? 0) then
      (<[Z.to_nat i := u8 (i * 2)]> errs, len + 1)
    else (errs, len) in
  if negb (Z.land (cell d (i + 2)) 0xf =? 0) then
    let errs := <[Z.to_nat i := u8 (i * 2 + 1)]> errs in
    let errs := if cell errs i =? 23 then <[Z.to_nat i := 22]> errs else errs in
    let errs := if cell errs i =? 24 then <[Z.to_nat i := 23]> errs else errs in
    (errs, len + 1)
  else (errs, len).

Fixpoint scan_loop (d : list Z) (n : nat) (i : Z) (st : list Z * Z) : list Z * Z :=
  match n with
  | O => st
  | S n' => scan_loop d n' (i + 1) (scan_byte d i st)
  end.

Definition dtc_cmd : EcuCmd := mkEcuCmd HOBD_CMD 0x05 HOBD_OFF_ERRORS1 0x10 0.

Definition scanDtc (s : ECUData) (w : world) : outcome (bool * ECUData * world) :=
  let s := set_dtcLen 0 s in
  '(ok, s, _, w) ← sendcmd s dtc_cmd w;
  if negb ok then Ret (false, s, w)
  else
    let '(errs, len) := scan_loop (dlcData s) 14 0 (dtcErrs s, dtcLen s) in
    Ret (true, set_dtcLen len (set_dtcErrs errs s), w).

(** ** [ECUData::resetEcu] *)

Definition reset_cmd : EcuCmd := mkEcuCmd HOBD_RST 0x04 0x01 0x0 0.

Definition resetEcu (s : ECUData) (w : world) : outcome (bool * ECUData * world) :=
  '(ok, s, _, w) ← sendcmd s reset_cmd w;
  if negb ok then Ret (false, s, w) else Ret (true, s, w).

(** ** [rx_u16], [cnvt_tmp] and [ECUData::readLiveData] *)

Definition rx_u16 (buffer : list Z) (offset : Z) : Z :=
  u16 (Z.lor (Z.shiftl (cell buffer offset) 8) (cell buffer (offset + 1))).

Definition cnvt_tmp (f : Q) : Q :=
  let t0 := FP.lit64 55.04149 in
  let t1 := FP.mul64 f (FP.lit64 3.0414878) in
  let t2 := FP.mul64 (FP.pow64 f 2) (FP.lit64 0.03952185) in
  let t3 := FP.mul64 (FP.pow64 f 3) (FP.lit64 0.00029383913) in
  let t4 := FP.mul64 (FP.pow64 f 4) (FP.lit64 0.0000010792568) in
  let t5 := FP.mul64 (FP.pow64 f 5) (FP.lit64 0.0000000015618437) in
  FP.to_float
    (FP.sub64 (FP.add64 (FP.sub64 (FP.add64 (FP.sub64 t0 t1) t2) t3) t4) t5).

Definition conv_kpa (v : Z) : Q :=
  FP.sub32 (FP.mul32 (FP.of_int32 v) (FP.lit32 0.716)) (FP.lit32 5.0).

Definition row_cmd (r : Z) : EcuCmd := mkEcuCmd HOBD_CMD 0x05 r 0x10 0.

Definition flag (byte mask : Z) : bool := negb (Z.land byte mask =? 0).

(** [1875000.0f / ((float)rawRpm + 1.0f)], stored into the [int] member. *)
Definition rpm_obd1 (rawRpm : Z) : Z :=
  FP.to_int (FP.div32 (FP.lit32 1875000.0)
               (FP.add32 (FP.of_int32 rawRpm) (FP.lit32 1.0))).

(** Row 1 of the source: register 0x00. *)
Definition decode_row0 (s : ECUData) : ECUData :=
  let d := dlcData s in
  let rawRpm := rx_u16 d (RPL_OFFSET + HOBD_OFF_RPM) in
  let s := if obd_sel s =? 1 then set_rpm (rpm_obd1 rawRpm) s else s in
  let s := if rpm s <? 0 then set_rpm 0 s else s in
  let s := set_vss (cell d (RPL_OFFSET + HOBD_OFF_VSS)) s in
  let f08 := cell d (RPL_OFFSET + HOBD_OFF_FLAG_08) in
  let f0B := cell d (RPL_OFFSET + HOBD_OFF_FLAG_0B) in
  let s := set_sw_aircon (flag f08 HOBD_FLG_AC_SWITCH) s in
  let s := set_sw_brake (flag f08 HOBD_FLG_BRAKE) s in
  let s := set_sw_starter (flag f08 HOBD_FLG_STARTER) s in
  let s := set_sw_vtec (flag f08 HOBD_FLG_VTEC_PRESS) s in
  let s := set_main_relay (flag f0B HOBD_FLG_MAIN_RELAY) s in
  set_cel (flag f0B HOBD_FLG_CEL) s.

(** Row 2 of the source: register 0x10. *)
Definition decode_row1 (s : ECUData) : ECUData :=
  let d := dlcData s in
  let s := set_ect (FP.to_int (cnvt_tmp (FP.of_int32 (cell d RPL_OFFSET)))) s in
  let s := set_iat (FP.to_int (cnvt_tmp (FP.of_int32
             (cell d (RPL_OFFSET + HOBD_OFF_IAT - HOBD_OFF_ECT))))) s in
  let s := set_maps (FP.to_int
             (conv_kpa (cell d (RPL_OFFSET + HOBD_OFF_MAP - HOBD_OFF_ECT)))) s in
  let s := set_baro (FP.to_int
             (conv_kpa (cell d (RPL_OFFSET + HOBD_OFF_MAP + 1 - HOBD_OFF_ECT)))) s in
  let s := set_tps
             (Z.quot (cell d (RPL_OFFSET + HOBD_OFF_TPS - HOBD_OFF_ECT) - 24) 2) s in
  let f := FP.of_int32 (cell d (RPL_OFFSET + HOBD_OFF_O2 - HOBD_OFF_ECT)) in
  let s := set_o2 (FP.div32 f (FP.lit32 51.3)) s in
  let f := FP.of_int32 (cell d (RPL_OFFSET + HOBD_OFF_VOLT - HOBD_OFF_ECT)) in
  let s := set_volt (FP.div32 f (FP.lit32 10.45)) s in
  let f := FP.of_int32 (cell d (RPL_OFFSET + HOBD_OFF_ALTF - HOBD_OFF_ECT)) in
  let s := set_alt_fr (FP.to_float (FP.div64 f (FP.lit64 2.55))) s in
  let f := FP.of_int32 (cell d (RPL_OFFSET + HOBD_OFF_EL - HOBD_OFF_ECT)) in
  set_eld (FP.to_float (FP.sub64 (FP.lit64 77.06) (FP.div64 f (FP.lit64 2.5371)))) s.

(** Row 3 of the source: register 0x20. *)
Definition decode_row2 (s : ECUData) : ECUData :=
  let d := dlcData s in
  let sft_raw := cell d RPL_OFFSET in
  let lft_raw := cell d (RPL_OFFSET + 1) in
  let trim raw :=
    FP.to_int (FP.mul32 (FP.sub32 (FP.div32 (FP.of_int32 raw) (FP.lit32 128.0))
                                  (FP.lit32 1.0)) (FP.lit32 100.0)) in
  let s := set_sft (trim sft_raw) s in
  let s := set_lft (trim lft_raw) s in
  let injRaw := rx_u16 d (RPL_OFFSET + 4) in
  let s := set_inj (FP.to_int (FP.div32 (FP.of_int32 injRaw) (FP.lit32 250.0))) s in
  let f := FP.of_int32 (cell d 8) in
  let s := set_ign (FP.to_int (FP.div32 (FP.sub32 f (FP.of_int32 24))
                                        (FP.of_int32 4))) s in
  let f := FP.of_int32 (cell d 9) in
  let s := set_lmt (FP.to_int (FP.div32 (FP.sub32 f (FP.of_int32 24))
                                        (FP.of_int32 4))) s in
  set_iacv (FP.to_int (FP.div32 (FP.of_int32 (cell d 10)) (FP.lit32 2.55))) s.

(** Row 4 of the source: register 0x30. *)
Definition decode_row3 (s : ECUData) : ECUData :=
  set_knoc (Z.quot (cell (dlcData s) 14) 51) s.

(** The two statements after the fourth row.  [iat + 273] is a divisor. *)
Definition derive_maf (s : ECUData) : outcome ECUData :=
  if iat s + 273 =? 0 then Fault
  else
    let imap := Z.quot (Z.quot (rpm s * maps s) (iat s + 273)) 2 in
    let k := Z.quot imap 60 * Z.quot 80 100 in
    Ret (set_maf (FP.to_int
           (FP.div64 (FP.mul64 (FP.mul64 (FP.of_int64 k) (FP.lit64 1.595))
                               (FP.lit64 28.9644)) (FP.lit64 8.314472))) s).

Definition readLiveData (s : ECUData) (w : world) : outcome (bool * ECUData * world) :=
  '(ok, s, _, w) ← sendcmd s (row_cmd HOBD_OFF_RPM) w;
  if negb ok then Ret (false, s, w)
  else
  let s := decode_row0 s in
  let w := delay 1 w in
  '(ok, s, _, w) ← sendcmd s (row_cmd HOBD_OFF_ECT) w;
  if negb ok then Ret (false, s, w)
  else
  let s := decode_row1 s in
  let w := delay 1 w in
  '(ok, s, _, w) ← sendcmd s (row_cmd 0x20) w;
  if negb ok then Ret (false, s, w)
  else
  let s := decode_row2 s in
  let w := delay 1 w in
  '(ok, s, _, w) ← sendcmd s (row_cmd 0x30) w;
  if negb ok then Ret (false, s, w)
  else
  let s := decode_row3 s in
  s ← derive_maf s;
  Ret (true, s, w).

(** ** [sendFrame] of [main.cpp] *)

Definition SOF1 : Z := 0xAA.
Definition SOF2 : Z := 0x55.

Definition MSG_LIVE : Z := 0x81.
Definition MSG_DTC : Z := 0x82.
Definition MSG_ACK : Z := 0x83.
Definition MSG_ERR : Z := 0x84.

(** [out] is what has been written to the host link so far. *)
Definition sendFrame (out : list Z) (type : Z) (payload : list Z) (len : Z)
  : outcome (list Z) :=
  let header := [SOF1; SOF2; type; len] in
  let crc := 0 in
  c ← mkcrc header 4;
  let crc := u8 (crc + c) in
  c ← mkcrc payload len;
  let crc := u8 (crc + c) in
  let out := out ++ header in
  let out := if negb (len =? 0) then out ++ take (Z.to_nat len) payload else out in
  Ret (out ++ [u8 (Z.land crc 0xFF)]).

(** ** The session as the program starts it: [ECUData ecu(1, dlcSerial)],
       a global object, so every member without initialiser is zero. *)

Definition ecu0 : ECUData :=
  mkECUData (replicate DataLen 0) (replicate ErrLen 0) (replicate ErrLen ChecksumErr)
    0 0 0  0 0 0 0 0 0 0 0 0 0 0 0 0  0%Q 0%Q 0 0%Q 0%Q
    false false false false false false  0 1.

Definition well_formed (s : ECUData) : Prop :=
  length (dtcErrs s) = ErrLen /\ length (Errs s) = ErrLen.

(** A link on which the ECU answers with the bytes [reply], no gaps. *)
Definition answering (reply : list Z) : world :=
  mkWorld (map Some reply) 0 [].

(** Number of bytes that a schedule delivers. *)
Definition delivered (ps : list (option Z)) : Z :=
  Z.of_nat (length (filter is_Some ps)).

Definition reply_of (hdr payload : list Z) : list Z :=
  let body := hdr ++ payload in body ++ [checksum body].

(** World after the transmit phase of [sendcmd]. *)
Definition transmitted (ecmd : EcuCmd) (w : world) : world :=
  fold_left (fun w b => emit (Write b) w) (tx_frame ecmd) (emit Listen w).

(** The statements of [sendcmd] that follow the receive loop, as a function
    of what the loop left in [i], [dlcData] and the schedule. *)
Definition after_recv (s : ECUData) (ecmd : EcuCmd) (w : world)
    (r : Z * list Z * list (option Z)) : outcome (bool * ECUData * EcuCmd * world) :=
  let '(i, buf, ps) := r in
  let expected := u16 (rxlen ecmd + MSG_OFFSET) in
  let ecmd := set_crc (cell (tx_frame ecmd) 4) ecmd in
  let s := set_dlcData buf s in
  let w := set_polls ps (transmitted ecmd w) in
  if i <? expected then
    let s := set_dlctmo (u16 (dlctmo s + 1)) s in
    s ← log_err TimeoutErr s;
    Ret (false, s, ecmd, w)
  else
    rxCrc ← arr_get (dlcData s) (expected - 1);
    calc ← mkcrc (dlcData s) (u8 (expected - 1));
    if negb (calc =? rxCrc) then
      s ← log_err ChecksumErr s;
      Ret (false, s, ecmd, w)
    else Ret (true, s, ecmd, w).

(** ** Sample traffic *)

(** A 19-byte reply whose last byte is not the checksum of the others. *)
Definition garbled : list Z := replicate 18 0 ++ [1].

(** A well-formed reply to a 16-byte read with the given payload. *)
Definition good_reply (payload : list Z) : list Z := reply_of [0; 19] payload.

(** The ECU sends five bytes and then stays silent for [n] polls. *)
Definition stalling (n : nat) : world :=
  mkWorld (map Some [0; 19; 3; 231; 50] ++ replicate n None) 0 [].

(** The session after [n] garbled transactions in a row. *)
Fixpoint after_garbled (n : nat) (s : ECUData) : outcome ECUData :=
  match n with
  | O => Ret s
  | S n' =>
      '(_, s, _, _) ← sendcmd s (row_cmd HOBD_OFF_RPM) (answering garbled);
      after_garbled n' s
  end.

(** A reply buffer and a DTC payload with one cell set. *)
Definition buffer_with (i : nat) (b : Z) : list Z := <[i := b]> (replicate DataLen 0).
Definition dtc_payload (i : nat) (b : Z) : list Z := <[i := b]> (replicate 16 0).

(** Replies to the four row reads of one [readLiveData]: raw RPM word 999
    in the first row, zeros elsewhere. *)
Definition row0_payload : list Z := [3; 231; 50; 0; 0; 0; 0; 0; 0x8A; 0; 0; 0x21; 0; 0; 0; 0].
Definition zero_payload : list Z := replicate 16 0.

Definition row1_payload : list Z :=
  [100; 100; 1; 250; 25; 51; 0; 0; 255; 100; 0; 0; 0; 0; 0; 0].

(** A link on which the ECU answers the four row reads in turn. *)
Definition live_link : world :=
  answering (good_reply row0_payload ++ good_reply row1_payload
             ++ good_reply zero_payload ++ good_reply zero_payload).

(** The same link with the reply to the given row garbled and nothing after. *)
Definition failing_link (k : nat) : world :=
  answering (concat (take k [good_reply row0_payload; good_reply row1_payload;
                             good_reply zero_payload; good_reply zero_payload])
             ++ garbled).

(** ** The snapshot, row by row *)

Definition row0_fields (s : ECUData) :=
  (rpm s, vss s, sw_aircon s, sw_brake s, sw_starter s, sw_vtec s, main_relay s, cel s).
Definition row1_fields (s : ECUData) :=
  (ect s, iat s, maps s, baro s, tps s, o2 s, volt s, alt_fr s, eld s).
Definition row2_fields (s : ECUData) :=
  (sft s, lft s, inj s, ign s, lmt s, iacv s).
Definition row3_fields (s : ECUData) := knoc s.

(** What one whole transaction leaves on the wire. *)
Definition frame_events (ecmd : EcuCmd) : list io_event :=
  Listen :: map Write (tx_frame ecmd).

(** ** The statements of the specification on the DTC scan

    For byte index [i] (0-13), a non-zero high nibble signals trouble code
    [2 i], a non-zero low nibble signals [2 i + 1]; code 23 is remapped to
    22 and 24 to 23; each signaled code is appended to the list. *)

Definition remap_spec (c : Z) : Z :=
  if c =? 23 then 22 else if c =? 24 then 23 else c.

Definition signaled_spec (payload : list Z) (i : Z) : list Z :=
  (if negb (Z.shiftr (cell payload i) 4 =? 0) then [remap_spec (2 * i)] else [])
  ++ (if negb (Z.land (cell payload i) 0xf =? 0) then [remap_spec (2 * i + 1)] else []).

Definition dtc_list_spec (payload : list Z) : list Z :=
  flat_map (signaled_spec payload) (seqZ 0 14).

(** The DTC list as the host framer reads it: [dtcErrs[0 .. dtcLen-1]]. *)
Definition dtc_list (s : ECUData) : list Z := take (Z.to_nat (dtcLen s)) (dtcErrs s).

(** ** Exhaustive checks over a range of raw values *)

Fixpoint upto (P : Z -> bool) (n : nat) (i : Z) : bool :=
  match n with
  | O => true
  | S n' => P i && upto P n' (i + 1)
  end.

(** ** The bytes of a schedule *)

(** The bytes that a schedule delivers, in order, the empty polls left out. *)
Fixpoint link_bytes (ps : list (option Z)) : list Z :=
  match ps with
  | [] => []
  | None :: ps' => link_bytes ps'
  | Some b :: ps' => b :: link_bytes ps'
  end.

(** What is left of a schedule right after its [n]-th byte. *)
Fixpoint after_bytes (n : nat) (ps : list (option Z)) : list (option Z) :=
  match n, ps with
  | O, _ => ps
  | S _, [] => []
  | S _, None :: ps' => after_bytes n ps'
  | S n', Some _ :: ps' => after_bytes n' ps'
  end.

(** ** The nibbles of a DTC reply *)

Definition high_set (d : list Z) (i : Z) : bool :=
  negb (Z.shiftr (cell d (i + 2)) 4 =? 0).

Definition low_set (d : list Z) (i : Z) : bool :=
  negb (Z.land (cell d (i + 2)) 0xf =? 0).

(** What the scan leaves in cell [i] of [dtcErrs], [old] being there before. *)
Definition stored_code (d : list Z) (i : Z) (old : Z) : Z :=
  if low_set d i then (if i =? 11 then 22 else 2 * i + 1)
  else if high_set d i then 2 * i
  else old.

(** Number of nibbles set among the [n] payload bytes from index [i] on. *)
Fixpoint nibbles_set (d : list Z) (n : nat) (i : Z) : Z :=
  match n with
  | O => 0
  | S n' => Z.b2z (high_set d i) + Z.b2z (low_set d i) + nibbles_set d n' (i + 1)
  end.

(** ** [ECUData::init] *)

Definition startup : list Z :=
  [0x68; 0x6a; 0xf5; 0xaf; 0xbf; 0xb3; 0xb2; 0xc1; 0xdb; 0xb3; 0xe9].

Definition init (w : world) : bool * world :=
  let w := emit (Write 0x68) w in
  let w := emit (Write 0x6a) w in
  let w := emit (Write 0xf5) w in
  let w := emit (Write 0xaf) w in
  let w := emit (Write 0xbf) w in
  let w := emit (Write 0xb3) w in
  let w := emit (Write 0xb2) w in
  let w := emit (Write 0xc1) w in
  let w := emit (Write 0xdb) w in
  let w := emit (Write 0xb3) w in
  let w := emit (Write 0xe9) w in
  let w := delay 300 w in
  (true, w).

(** ** The host side of [main.cpp] *)

Definition CMD_GET_LIVE : Z := 0x01.
Definition CMD_GET_DTC : Z := 0x02.
Definition CMD_RESET : Z := 0x03.

(** The host link: the command bytes waiting to be read and the bytes
    written so far. *)
Record host : Type := mkHost {
  inbox : list Z;
  outbox : list Z
}.

Definition set_outbox (out : list Z) (h : host) : host := mkHost (inbox h) out.

(** [readCmdFrame]: [None] for the result [false], which leaves [cmdOut]
    as it was. *)
Definition readCmdFrame (h : host) : option Z * host :=
  match inbox h with
  | [] => (None, h)
  | c :: rest => (Some (u8 c), mkHost rest (outbox h))
  end.

(** Conversion of a floating value to [uint16_t] and to [int16_t]: the
    fraction is dropped; a value that the type cannot hold has no defined
    conversion, and the run stops there as it does behind an array. *)
Definition to_u16 (x : Q) : outcome Z :=
  let z := FP.to_int x in
  if (0 <=? z) && (z <=? 65535) then Ret z else Fault.

Definition to_i16 (x : Q) : outcome Z :=
  let z := FP.to_int x in
  if (-32768 <=? z) && (z <=? 32767) then Ret z else Fault.

(** A local array of [n] cells before anything is stored in it: its content
    is whatever [junk] the stack holds. *)
Definition local_array (n : nat) (junk : list Z) : list Z :=
  take n (junk ++ replicate n 0).

(** [max(0.0f, e.rpm)] of Arduino's macro: [(0.0f > e.rpm) ? 0.0f : e.rpm]. *)
Definition max_0f (x : Z) : Q :=
  let r := FP.of_int32 x in
  if negb (Qle_bool (FP.lit32 0.0) r) then FP.lit32 0.0 else r.

Definition pack_live (p : list Z) (e : ECUData) : outcome (list Z) :=
  rpm16 ← to_u16 (max_0f (rpm e));
  let p := <[0%nat := u8 (Z.shiftr rpm16 8)]> p in
  let p := <[1%nat := u8 (Z.land rpm16 0xFF)]> p in
  let p := <[2%nat := vss e]> p in
  ect16 ← to_i16 (FP.mul32 (FP.of_int32 (ect e)) (FP.lit32 10.0));
  iat16 ← to_i16 (FP.mul32 (FP.of_int32 (iat e)) (FP.lit32 10.0));
  map16 ← to_i16 (FP.mul32 (FP.of_int32 (maps e)) (FP.lit32 10.0));
  tps16 ← to_i16 (FP.mul32 (FP.of_int32 (tps e)) (FP.lit32 10.0));
  let p := <[3%nat := u8 (Z.shiftr ect16 8)]> p in
  let p := <[4%nat := u8 (Z.land ect16 0xFF)]> p in
  let p := <[5%nat := u8 (Z.shiftr iat16 8)]> p in
  let p := <[6%nat := u8 (Z.land iat16 0xFF)]> p in
  let p := <[7%nat := u8 (Z.shiftr map16 8)]> p in
  let p := <[8%nat := u8 (Z.land map16 0xFF)]> p in
  let p := <[9%nat := u8 (Z.shiftr tps16 8)]> p in
  let p := <[10%nat := u8 (Z.land tps16 0xFF)]> p in
  batt ← to_u16 (FP.mul32 (volt e) (FP.lit32 100.0));
  let p := <[11%nat := u8 (Z.shiftr batt 8)]> p in
  let p := <[12%nat := u8 (Z.land batt 0xFF)]> p in
  o2mv ← to_u16 (FP.mul32 (o2 e) (FP.lit32 1000.0));
  let p := <[13%nat := u8 (Z.shiftr o2mv 8)]> p in
  let p := <[14%nat := u8 (Z.land o2mv 0xFF)]> p in
  let flags := 0 in
  let flags := u8 (Z.lor flags (if sw_aircon e then Z.shiftl 1 0 else 0)) in
  let flags := u8 (Z.lor flags (if sw_brake e then Z.shiftl 1 1 else 0)) in
  let flags := u8 (Z.lor flags (if sw_vtec e then Z.shiftl 1 2 else 0)) in
  let flags := u8 (Z.lor flags (if cel e then Z.shiftl 1 3 else 0)) in
  Ret (<[15%nat := flags]> p).

(** [for (i = 0; i < payload[0] && i < ErrLen; ++i) payload[1 + i] = dtcErrs[i];]
    The test [i < ErrLen] ends the loop within [ErrLen] turns. *)
Fixpoint copy_dtc (n : nat) (i : Z) (errs payload : list Z) : list Z :=
  match n with
  | O => payload
  | S n' =>
      if (i <? cell payload 0) && (i <? Z.of_nat ErrLen) then
        copy_dtc n' (u8 (i + 1)) errs (<[Z.to_nat (1 + i) := cell errs i]> payload)
      else payload
  end.

(** One turn of [loop()].  [junk] is what the stack holds where the local
    payload arrays are placed. *)
Definition loop (junk : list Z) (s : ECUData) (w : world) (h : host)
  : outcome (ECUData * world * host) :=
  match readCmdFrame h with
  | (None, h) => Ret (s, w, h)
  | (Some c, h) =>
      if c =? CMD_GET_LIVE then
        '(ok, s, w) ← readLiveData s w;
        if negb ok then
          out ← sendFrame (outbox h) MSG_ERR [1] 1;
          Ret (s, w, set_outbox out h)
        else
          payload ← pack_live (local_array 16 junk) s;
          out ← sendFrame (outbox h) MSG_LIVE payload 16;
          Ret (s, w, set_outbox out h)
      else if c =? CMD_GET_DTC then
        '(ok, s, w) ← scanDtc s w;
        if negb ok then
          out ← sendFrame (outbox h) MSG_ERR [2] 1;
          Ret (s, w, set_outbox out h)
        else
          let payload := local_array (1 + ErrLen) junk in
          let payload := <[0%nat := u8 (dtcLen s)]> payload in
          let payload := copy_dtc ErrLen 0 (dtcErrs s) payload in
          out ← sendFrame (outbox h) MSG_DTC payload (u8 (1 + cell payload 0));
          Ret (s, w, set_outbox out h)
      else if c =? CMD_RESET then
        '(ok, s, w) ← resetEcu s w;
        let payload := [if (ok : bool) then 1 else 0] in
        out ← sendFrame (outbox h) MSG_ACK payload 1;
        Ret (s, w, set_outbox out h)
      else
        out ← sendFrame (outbox h) MSG_ERR [0xFF] 1;
        Ret (s, w, set_outbox out h)
  end.

(** [setup()]: the serial ports are opened, then [ecu.init()], then a
    second of delay. *)
Definition setup (w : world) : world :=
  let '(_, w) := init w in
  delay 1000 w.

(** The flags byte of [pack_live]. *)
Definition live_flags (e : ECUData) : Z :=
  u8 (Z.lor (u8 (Z.lor (u8 (Z.lor (u8 (Z.lor 0
       (if sw_aircon e then Z.shiftl 1 0 else 0)))
       (if sw_brake e then Z.shiftl 1 1 else 0)))
       (if sw_vtec e then Z.shiftl 1 2 else 0)))
       (if cel e then Z.shiftl 1 3 else 0)).

(** The frame of the host protocol with the given type and payload. *)
Definition frame_of (type : Z) (payload : list Z) : list Z :=
  let body := [SOF1; SOF2; type; Z.of_nat (length payload)] ++ payload in
  body ++ [checksum body].

(** Sign extension of a 16-bit pattern. *)
Definition sext16 (z : Z) : Z := if z <? 32768 then z else z - 65536.


(** * Properties *)

(** ** Machine arithmetic *)

Lemma u8_range z : is_byte (u8 z).
Proof. unfold is_byte, u8. apply Z.mod_pos_bound. lia. Qed.

Lemma u8_small z : is_byte z -> u8 z = z.
Proof. unfold is_byte, u8. intros H. apply Z.mod_small. exact H. Qed.

Lemma u8_add_l a b : u8 (u8 a + b) = u8 (a + b).
Proof. unfold u8. apply Zplus_mod_idemp_l. Qed.

Lemma u16_small z : 0 <= z < 65536 -> u16 z = z.
Proof. unfold u16. intros H. apply Z.mod_small. exact H. Qed.

(** The checksum is the two's complement of the byte sum. *)
Lemma checksum_neg bs : checksum bs = (- byte_sum bs) mod 256.
Proof.
  unfold checksum.
  replace (255 - (byte_sum bs mod 256 - 1)) with (0 - byte_sum bs mod 256 + 1 * 256) by lia.
  rewrite Z.mod_add by lia.
  rewrite Zminus_mod_idemp_r. reflexivity.
Qed.

Lemma byte_sum_app xs ys : byte_sum (xs ++ ys) = byte_sum xs + byte_sum ys.
Proof.
  induction xs as [|x xs IH]; simpl.
  - reflexivity.
  - unfold byte_sum in *. simpl. rewrite IH. lia.
Qed.

(** ** Arrays *)

Lemma arr_get_lookup {A} (a : list A) (i : nat) (x : A) :
  a !! i = Some x -> arr_get a (Z.of_nat i) = Ret x.
Proof.
  intros H. unfold arr_get.
  destruct (0 <=? Z.of_nat i) eqn:E; [|lia].
  rewrite Nat2Z.id, H. reflexivity.
Qed.

Lemma arr_set_inside {A} (a : list A) (i : Z) (v : A) :
  0 <= i < Z.of_nat (length a) -> arr_set a i v = Ret (<[Z.to_nat i := v]> a).
Proof.
  intros H. unfold arr_set.
  destruct (0 <=? i) eqn:E1; [|lia].
  destruct (i <? Z.of_nat (length a)) eqn:E2; [|lia].
  reflexivity.
Qed.

Lemma arr_set_outside {A} (a : list A) (i : Z) (v : A) :
  Z.of_nat (length a) <= i -> arr_set a i v = Fault.
Proof.
  intros H. unfold arr_set.
  destruct (i <? Z.of_nat (length a)) eqn:E2; [lia|].
  rewrite andb_false_r. reflexivity.
Qed.

Lemma arr_set_Ret {A} (a a' : list A) (i : Z) (v : A) :
  arr_set a i v = Ret a' ->
  0 <= i < Z.of_nat (length a) /\ a' = <[Z.to_nat i := v]> a.
Proof.
  unfold arr_set. intros H.
  destruct (0 <=? i) eqn:E1; simpl in H; [|discriminate].
  destruct (i <? Z.of_nat (length a)) eqn:E2; [|discriminate].
  injection H as <-. split; [lia | reflexivity].
Qed.

(** ** The checksum codec *)

Lemma mkcrc_loop_sum (buf : list Z) (n : nat) :
  forall (i : nat) (acc : Z),
    is_byte acc ->
    (i + n <= 255)%nat ->
    (i + n <= length buf)%nat ->
    mkcrc_loop buf n (Z.of_nat i) acc
    = Ret (u8 (acc + byte_sum (take n (drop i buf)))).
Proof.
  induction n as [|n IH]; intros i acc Hacc H256 Hlen.
  - simpl. rewrite Z.add_0_r, u8_small by exact Hacc. reflexivity.
  - destruct (lookup_lt_is_Some_2 buf i ltac:(lia)) as [b Hb].
    cbn [mkcrc_loop]. rewrite (arr_get_lookup _ _ _ Hb). cbn [mbind outcome_bind].
    rewrite (u8_small (Z.of_nat i + 1)) by (unfold is_byte; lia).
    replace (Z.of_nat i + 1) with (Z.of_nat (S i)) by lia.
    rewrite IH by (try apply u8_range; lia).
    rewrite (drop_S _ _ _ Hb). cbn [take]. unfold byte_sum at 2. cbn [fold_right].
    fold (byte_sum (take n (drop (S i) buf))).
    rewrite u8_add_l. f_equal. f_equal. lia.
Qed.

Lemma mkcrc_prefix (buf : list Z) (len : Z) :
  0 <= len <= 255 ->
  len <= Z.of_nat (length buf) ->
  mkcrc buf len = Ret (checksum (take (Z.to_nat len) buf)).
Proof.
  intros Hlen Hbuf. unfold mkcrc.
  change 0 with (Z.of_nat 0) at 1.
  rewrite mkcrc_loop_sum by (unfold is_byte; lia).
  cbn [mbind outcome_bind]. rewrite drop_0, Z.add_0_l. reflexivity.
Qed.

Lemma mkcrc_beyond (buf : list Z) (n : nat) :
  forall (i : nat) (acc : Z),
    (i + n <= 255)%nat ->
    (i <= length buf < i + n)%nat ->
    returns (mkcrc_loop buf n (Z.of_nat i) acc) = false.
Proof.
  induction n as [|n IH]; intros i acc H256 Hlen.
  - lia.
  - cbn [mkcrc_loop].
    destruct (buf !! i) as [b|] eqn:Hb.
    + rewrite (arr_get_lookup _ _ _ Hb). cbn [mbind outcome_bind].
      rewrite (u8_small (Z.of_nat i + 1)) by (unfold is_byte; lia).
      replace (Z.of_nat i + 1) with (Z.of_nat (S i)) by lia.
      apply lookup_lt_Some in Hb. apply IH; lia.
    + unfold arr_get. destruct (0 <=? Z.of_nat i); [|reflexivity].
      rewrite Nat2Z.id, Hb. reflexivity.
Qed.

Lemma tx_frame_checksum (ecmd : EcuCmd) :
  tx_frame ecmd
  = [cmd ecmd; txlen ecmd; reg ecmd; rxlen ecmd;
     checksum [cmd ecmd; txlen ecmd; reg ecmd; rxlen ecmd]].
Proof.
  unfold tx_frame. do 4 f_equal.
  rewrite checksum_neg. unfold u8, byte_sum. cbn [fold_right].
  replace (255 - (cmd ecmd + txlen ecmd + reg ecmd + rxlen ecmd - 1))
    with (- (cmd ecmd + (txlen ecmd + (reg ecmd + (rxlen ecmd + 0)))) + 1 * 256) by lia.
  rewrite Z.mod_add by lia. reflexivity.
Qed.

(** ** The transaction executor *)

Lemma sendcmd_split (s : ECUData) (ecmd : EcuCmd) (w : world) :
  sendcmd s ecmd w
  = r ← recv_loop (u16 (rxlen ecmd + MSG_OFFSET)) (polls w) 0 (replicate DataLen 0);
    after_recv s ecmd w r.
Proof.
  unfold sendcmd, after_recv, transmitted.
  destruct (recv_loop _ _ _ _) as [[[i buf] ps]| |]; reflexivity.
Qed.

Lemma wire_transmitted (ecmd : EcuCmd) (w : world) :
  wire (transmitted ecmd w) = wire w ++ Listen :: map Write (tx_frame ecmd).
Proof. unfold transmitted, tx_frame. cbn. rewrite <- !app_assoc. reflexivity. Qed.

Lemma delivered_cons_None (ps : list (option Z)) :
  delivered (None :: ps) = delivered ps.
Proof. reflexivity. Qed.

Lemma delivered_cons_Some (b : Z) (ps : list (option Z)) :
  delivered (Some b :: ps) = delivered ps + 1.
Proof.
  unfold delivered. rewrite filter_cons_True by (eexists; reflexivity).
  cbn [length]. lia.
Qed.

Lemma delivered_nonneg (ps : list (option Z)) : 0 <= delivered ps.
Proof. unfold delivered. lia. Qed.

(** The loop is left only with [i = expected]: by then it has taken
    [expected - i] bytes off the link, all stored inside the buffer. *)
Lemma recv_loop_exit (expected : Z) (ps : list (option Z)) :
  forall (i : Z) (buf : list Z) i' buf' ps',
    0 <= i <= expected -> expected < 65536 ->
    recv_loop expected ps i buf = Ret (i', buf', ps') ->
    i' = expected
    /\ delivered ps = delivered ps' + (expected - i)
    /\ length buf' = length buf
    /\ (i < expected -> expected <= Z.of_nat (length buf)).
Proof.
  induction ps as [|[b|] ps IH]; intros i buf i' buf' ps' Hi He H.
  - cbn [recv_loop] in H. destruct (i <? expected) eqn:E; [discriminate|].
    injection H as <- <- <-. repeat split; lia.
  - cbn [recv_loop] in H. destruct (i <? expected) eqn:E.
    + destruct (arr_set buf i (u8 b)) as [buf1| |] eqn:Hset; try discriminate.
      cbn [mbind outcome_bind] in H.
      apply arr_set_Ret in Hset as [Hin ->].
      rewrite u16_small in H by lia.
      apply IH in H as (-> & Hd & Hl & Hb); [|lia|lia].
      rewrite length_insert in Hl, Hb.
      rewrite delivered_cons_Some. repeat split; try lia.
    + injection H as <- <- <-. repeat split; lia.
  - cbn [recv_loop] in H. destruct (i <? expected) eqn:E.
    + apply IH in H as (-> & Hd & Hl & Hb); [|lia|lia].
      rewrite delivered_cons_None. repeat split; lia.
    + injection H as <- <- <-. repeat split; lia.
Qed.

(** With fewer bytes on the link than the count asks for, the loop is never
    left, whatever the number of empty polls. *)
Lemma recv_loop_short (expected : Z) (ps : list (option Z)) :
  forall (i : Z) (buf : list Z),
    0 <= i -> expected < 65536 ->
    delivered ps < expected - i ->
    returns (recv_loop expected ps i buf) = false.
Proof.
  induction ps as [|[b|] ps IH]; intros i buf Hi He H.
  - cbn [recv_loop]. change (delivered []) with 0 in H.
    destruct (i <? expected) eqn:E; [reflexivity|lia].
  - cbn [recv_loop]. rewrite delivered_cons_Some in H.
    pose proof (delivered_nonneg ps).
    destruct (i <? expected) eqn:E; [|lia].
    destruct (arr_set buf i (u8 b)) as [buf1| |]; try reflexivity.
    cbn [mbind outcome_bind]. rewrite u16_small by lia. apply IH; lia.
  - cbn [recv_loop]. rewrite delivered_cons_None in H.
    pose proof (delivered_nonneg ps).
    destruct (i <? expected) eqn:E; [|lia].
    apply IH; lia.
Qed.

(** Empty polls ahead of the reply change nothing: the loop keeps waiting. *)
Lemma recv_loop_silence (expected : Z) (n : nat) (ps : list (option Z)) (i : Z)
    (buf : list Z) :
  i < expected ->
  recv_loop expected (replicate n None ++ ps) i buf = recv_loop expected ps i buf.
Proof.
  intros Hi. induction n as [|n IH].
  - reflexivity.
  - cbn [replicate app recv_loop]. destruct (i <? expected) eqn:E; [exact IH|lia].
Qed.

Lemma log_err_Ret (e : ErrCodes) (s s' : ECUData) :
  log_err e s = Ret s' ->
  0 <= errLen s < Z.of_nat (length (Errs s))
  /\ s' = set_errLen (errLen s + 1) (set_Errs (<[Z.to_nat (errLen s) := e]> (Errs s)) s).
Proof.
  unfold log_err. intros H.
  destruct (arr_set (Errs s) (errLen s) e) as [errs| |] eqn:Hset; try discriminate.
  apply arr_set_Ret in Hset as [Hin ->].
  cbn [mbind outcome_bind] in H. injection H as <-. split; [exact Hin|reflexivity].
Qed.


Lemma log_err_full (e : ErrCodes) (s : ECUData) :
  Z.of_nat (length (Errs s)) <= errLen s -> log_err e s = Fault.
Proof. intros H. unfold log_err. rewrite arr_set_outside by exact H. reflexivity. Qed.

(** What a returning [sendcmd] has done. *)
Lemma sendcmd_Ret (s : ECUData) (ecmd : EcuCmd) (w : world) ok s' c' w' :
  is_byte (rxlen ecmd) ->
  sendcmd s ecmd w = Ret (ok, s', c', w') ->
  exists buf ps,
    recv_loop (rxlen ecmd + 3) (polls w) 0 (replicate DataLen 0)
      = Ret (rxlen ecmd + 3, buf, ps)
    /\ c' = set_crc (cell (tx_frame ecmd) 4) ecmd
    /\ w' = set_polls ps (transmitted ecmd w)
    /\ length buf = DataLen
    /\ (if ok then s' = set_dlcData buf s
        else log_err ChecksumErr (set_dlcData buf s) = Ret s').
Proof.
  intros Hrx H. rewrite sendcmd_split in H.
  unfold MSG_OFFSET in H. rewrite u16_small in H by (unfold is_byte in Hrx; lia).
  destruct (recv_loop _ _ _ _) as [[[i buf] ps]| |] eqn:Hrecv; try discriminate.
  cbn [mbind outcome_bind] in H.
  pose proof Hrecv as Hexit.
  apply recv_loop_exit in Hexit as (-> & _ & Hlen & _);
    [|unfold is_byte in Hrx; lia..].
  exists buf, ps. split; [reflexivity|].
  unfold after_recv, MSG_OFFSET in H. cbn [rxlen set_crc] in H.
  rewrite u16_small in H by (unfold is_byte in Hrx; lia).
  rewrite Z.ltb_irrefl in H.
  destruct (arr_get _ _) as [rxCrc| |]; try discriminate.
  destruct (mkcrc _ _) as [calc| |]; try discriminate.
  cbn [mbind outcome_bind] in H.
  destruct (negb (calc =? rxCrc)).
  - destruct (log_err ChecksumErr _) as [s1| |] eqn:Hlog; try discriminate.
    cbn [mbind outcome_bind] in H. injection H as <- <- <- <-.
    rewrite length_replicate in Hlen. repeat split; try assumption.
  - injection H as <- <- <- <-.
    rewrite length_replicate in Hlen. repeat split; assumption.
Qed.

Lemma arr_get_cell (a : list Z) (i : Z) :
  0 <= i < Z.of_nat (length a) -> arr_get a i = Ret (cell a i).
Proof.
  intros H. unfold arr_get, cell.
  destruct (0 <=? i) eqn:E; [|lia].
  destruct (lookup_lt_is_Some_2 a (Z.to_nat i) ltac:(lia)) as [x Hx].
  rewrite Hx. f_equal. symmetry. apply list_lookup_total_correct. exact Hx.
Qed.

(** C3. [mkcrc] returns, for every byte sequence it can be given,
    [0xFF - ((sum of the bytes mod 256) - 1)] modulo 256; the fifth byte
    of the frame that [sendcmd] builds and transmits is that formula over
    the first four bytes, and agrees with [mkcrc] over them. *)
Theorem mkcrc_checksum_formula (bs : list Z) (s : ECUData) (ecmd : EcuCmd) (w : world) :
  (length bs <= 255)%nat ->
  mkcrc bs (Z.of_nat (length bs)) = Ret (checksum bs)
  /\ cell (tx_frame ecmd) 4 = checksum [cmd ecmd; txlen ecmd; reg ecmd; rxlen ecmd]
  /\ mkcrc (tx_frame ecmd) 4 = Ret (cell (tx_frame ecmd) 4)
  /\ (forall ok s' c' w',
        is_byte (rxlen ecmd) ->
        sendcmd s ecmd w = Ret (ok, s', c', w') ->
        wire w' = wire w ++ Listen :: map Write (tx_frame ecmd)
        /\ crc c' = checksum [cmd ecmd; txlen ecmd; reg ecmd; rxlen ecmd]).
Proof.
  intros Hlen. split; [|split; [|split]].
  - rewrite mkcrc_prefix by lia. rewrite Nat2Z.id, firstn_all. reflexivity.
  - rewrite tx_frame_checksum. reflexivity.
  - rewrite mkcrc_prefix by (cbn; lia). rewrite tx_frame_checksum. reflexivity.
  - intros ok s' c' w' Hrx H.
    apply sendcmd_Ret in H as (buf & ps & _ & -> & -> & _); [|exact Hrx].
    split.
    + apply wire_transmitted.
    + cbn [crc set_crc]. rewrite tx_frame_checksum. reflexivity.
Qed.

Lemma mkcrc_checksum_formula_witness :
  mkcrc [0xAA; 0x55; 0x83; 1] 4 = Ret 0x7D
  /\ cell (tx_frame dtc_cmd) 4 = 0x8B.
Proof.
  pose proof (mkcrc_checksum_formula [0xAA; 0x55; 0x83; 1] ecu0 dtc_cmd
                (answering (good_reply (replicate 16 0)))) as H.
  assert (Hlen : (length [0xAA; 0x55; 0x83; 1] <= 255)%nat) by (vm_compute; lia).
  destruct (H Hlen) as (H1 & H2 & _ & _).
  split; [exact H1 | exact H2].
Defined.

(** C1. The receive loop of [sendcmd] is left on the byte count alone:
    when it is left, the test [i < expected] that guards the timeout
    branch is false and exactly [rxlen + 3] bytes have been taken off the
    link; with fewer bytes on the link [sendcmd] never returns, however
    many polls find it silent; and a returning [sendcmd] has not touched
    the timeout counter and has logged nothing but a [ChecksumErr]. *)
Theorem sendcmd_never_times_out (s : ECUData) (ecmd : EcuCmd) (w : world) :
  is_byte (rxlen ecmd) ->
  let expected := rxlen ecmd + MSG_OFFSET in
  (forall ps buf i' buf' ps',
      recv_loop expected ps 0 buf = Ret (i', buf', ps') ->
      (i' <? expected) = false /\ delivered ps = delivered ps' + expected)
  /\ (delivered (polls w) < expected -> returns (sendcmd s ecmd w) = false)
  /\ (forall n,
        sendcmd s ecmd (set_polls (replicate n None ++ polls w) w) = sendcmd s ecmd w)
  /\ (forall ok s' c' w',
        sendcmd s ecmd w = Ret (ok, s', c', w') ->
        delivered (polls w) = delivered (polls w') + expected
        /\ dlctmo s' = dlctmo s
        /\ (if ok then Errs s' = Errs s /\ errLen s' = errLen s
            else Errs s' = <[Z.to_nat (errLen s) := ChecksumErr]> (Errs s)
                 /\ errLen s' = errLen s + 1)).
Proof.
  intros Hrx expected. unfold is_byte in Hrx. subst expected. unfold MSG_OFFSET.
  split; [|split; [|split]].
  - intros ps buf i' buf' ps' H.
    apply recv_loop_exit in H as (-> & Hd & _); [|lia..].
    split; [apply Z.ltb_irrefl | lia].
  - intros Hshort. rewrite sendcmd_split. unfold MSG_OFFSET.
    rewrite u16_small by lia.
    pose proof (recv_loop_short (rxlen ecmd + 3) (polls w) 0 (replicate DataLen 0)
                  ltac:(lia) ltac:(lia) ltac:(lia)) as Hspin.
    destruct (recv_loop _ _ _ _); [discriminate|reflexivity..].
  - intros n. rewrite !sendcmd_split. unfold MSG_OFFSET.
    rewrite u16_small by lia. cbn [polls set_polls].
    rewrite recv_loop_silence by lia.
    destruct (recv_loop _ _ _ _) as [[[i buf] ps]| |]; reflexivity.
  - intros ok s' c' w' H.
    apply sendcmd_Ret in H as (buf & ps & Hrecv & -> & -> & _ & Hs); [|exact Hrx].
    apply recv_loop_exit in Hrecv as (_ & Hd & _); [|lia..].
    split; [cbn [polls set_polls]; lia|].
    destruct ok.
    + subst s'. repeat split.
    + apply log_err_Ret in Hs as [_ ->]. repeat split.
Qed.

Lemma sendcmd_never_times_out_witness :
  returns (sendcmd ecu0 (row_cmd HOBD_OFF_RPM) (stalling 1000)) = false.
Proof.
  assert (Hrx : is_byte (rxlen (row_cmd HOBD_OFF_RPM))) by (vm_compute; split; [discriminate|reflexivity]).
  destruct (sendcmd_never_times_out ecu0 (row_cmd HOBD_OFF_RPM) (stalling 1000) Hrx)
    as (_ & Hshort & _).
  apply Hshort. vm_compute. reflexivity.
Defined.



(** C8 (the code does not keep it).  From the session the program starts
    with, fourteen garbled replies fill the log: [errLen] is 14.  The next
    garbled reply makes [sendcmd] store at [Errs[14]], one cell behind the
    array. *)
Theorem errlog_overflow :
  exists s14,
    after_garbled 14 ecu0 = Ret s14
    /\ errLen s14 = 14
    /\ length (Errs s14) = ErrLen
    /\ arr_set (Errs s14) (errLen s14) ChecksumErr = Fault
    /\ sendcmd s14 (row_cmd HOBD_OFF_RPM) (answering garbled) = Fault.
Proof.
  eexists. split; [vm_compute; reflexivity|].
  vm_compute. repeat split.
Qed.

(** ** The DTC scan *)

Lemma cell_insert_eq (a : list Z) (i : Z) (v : Z) :
  0 <= i < Z.of_nat (length a) -> cell (<[Z.to_nat i := v]> a) i = v.
Proof. intros H. unfold cell. apply list_lookup_total_insert_eq. lia. Qed.

(** A byte whose high nibble alone is set stores the even code as it is,
    also at index 12. *)
Lemma scan_byte_high_only (d errs : list Z) (i len : Z) :
  0 <= i < 14 ->
  Z.shiftr (cell d (i + 2)) 4 <> 0 ->
  Z.land (cell d (i + 2)) 0xf = 0 ->
  scan_byte d i (errs, len) = (<[Z.to_nat i := 2 * i]> errs, len + 1).
Proof.
  intros Hi Hhi Hlo. unfold scan_byte.
  destruct (Z.eqb_spec (Z.shiftr (cell d (i + 2)) 4) 0) as [E|_]; [contradiction|].
  rewrite Hlo. cbn [negb Z.eqb]. clear Hhi Hlo.
  rewrite u8_small by (unfold is_byte; lia).
  replace (i * 2) with (2 * i) by lia. reflexivity.
Qed.

(** A byte whose low nibble is set stores the odd code, 22 in place of 23. *)
Lemma scan_byte_low (d errs : list Z) (i len : Z) :
  0 <= i < 14 ->
  length errs = ErrLen ->
  Z.land (cell d (i + 2)) 0xf <> 0 ->
  fst (scan_byte d i (errs, len))
  = <[Z.to_nat i := if i =? 11 then 22 else 2 * i + 1]> errs.
Proof.
  intros Hi Hlen Hlo. unfold scan_byte. unfold ErrLen in Hlen.
  destruct (Z.eqb_spec (Z.land (cell d (i + 2)) 15) 0) as [E|_]; [contradiction|].
  cbn [negb].
  assert (Hstore : forall (e : list Z) (len : Z), length e = 14%nat ->
    fst (let errs0 := <[Z.to_nat i := u8 (i * 2 + 1)]> e in
         let errs1 := if cell errs0 i =? 23 then <[Z.to_nat i := 22]> errs0 else errs0 in
         let errs2 := if cell errs1 i =? 24 then <[Z.to_nat i := 23]> errs1 else errs1 in
         (errs2, len + 1))
    = <[Z.to_nat i := if i =? 11 then 22 else 2 * i + 1]> e).
  { intros e l He. cbv zeta. cbn [fst].
    rewrite u8_small by (unfold is_byte; lia).
    rewrite cell_insert_eq by lia.
    destruct (Z.eqb_spec i 11) as [->|Hne].
    - change (11 * 2 + 1 =? 23) with true. cbv iota.
      rewrite list_insert_insert_eq.
      rewrite cell_insert_eq by lia. reflexivity.
    - destruct (Z.eqb_spec (i * 2 + 1) 23) as [E|_]; [lia|].
      rewrite cell_insert_eq by lia.
      destruct (Z.eqb_spec (i * 2 + 1) 24) as [E|_]; [lia|].
      replace (i * 2) with (2 * i) by lia. reflexivity. }
  destruct (negb (Z.shiftr (cell d (i + 2)) 4 =? 0)).
  - transitivity (<[Z.to_nat i := if i =? 11 then 22 else 2 * i + 1]>
                    (<[Z.to_nat i := u8 (i * 2)]> errs)).
    + apply (Hstore _ (len + 1)). rewrite length_insert. exact Hlen.
    + apply list_insert_insert_eq.
  - apply (Hstore _ len). exact Hlen.
Qed.

(** C2 (the code does not keep it).  The reply whose payload byte 12 has
    only its high nibble set signals code 24.  The scan stores 24, in cell
    12; the rule of the specification gives 23. *)
Theorem scanDtc_code_24_kept :
  exists s w,
    scanDtc ecu0 (answering (good_reply (dtc_payload 12 0x10))) = Ret (true, s, w)
    /\ dtcErrs s = <[12%nat := 24]> (replicate ErrLen 0)
    /\ dtcLen s = 1
    /\ dtc_list_spec (dtc_payload 12 0x10) = [23].
Proof. eexists _, _. vm_compute. repeat split. Qed.

(** The half of the rule that the scan does apply: the low nibble of
    byte 11 is stored as 22. *)
Lemma scanDtc_code_23_remapped :
  exists s w,
    scanDtc ecu0 (answering (good_reply (dtc_payload 11 0x01))) = Ret (true, s, w)
    /\ dtcErrs s = <[11%nat := 22]> (replicate ErrLen 0)
    /\ dtcLen s = 1
    /\ dtc_list_spec (dtc_payload 11 0x01) = [22].
Proof. eexists _, _. vm_compute. repeat split. Qed.

(** C5 (the code does not keep it).  Each code is stored in the cell of
    its byte index, not in the next free cell.  With the high nibble of
    byte 5 set, [dtcLen] is 1 and the one-element list read back is the
    stale cell 0, not code 10; with both nibbles of byte 0 set, [dtcLen]
    is 2, code 0 has been overwritten by code 1 and the second element is
    stale. *)
Theorem scanDtc_list_not_packed :
  (exists s w,
      scanDtc ecu0 (answering (good_reply (dtc_payload 5 0x10))) = Ret (true, s, w)
      /\ dtcLen s = 1
      /\ dtc_list s = [0]
      /\ dtc_list_spec (dtc_payload 5 0x10) = [10])
  /\ (exists s w,
      scanDtc ecu0 (answering (good_reply (dtc_payload 0 0x11))) = Ret (true, s, w)
      /\ dtcLen s = 2
      /\ dtc_list s = [1; 0]
      /\ dtc_list_spec (dtc_payload 0 0x11) = [0; 1]).
Proof. split; eexists _, _; vm_compute; repeat split. Qed.

(** ** Host framing *)

(** C10 (as amended).  Every frame that [sendFrame] writes is
    [0xAA, 0x55, type, length], the [length] payload bytes, and one
    trailing byte equal to the sum modulo 256 of the checksum of the four
    header bytes and the checksum of the payload bytes; that byte is at
    the same time the checksum of header and payload taken as one
    sequence. *)
Theorem sendFrame_layout (out : list Z) (type : Z) (payload : list Z) (len : Z) :
  0 <= len <= 255 ->
  len <= Z.of_nat (length payload) ->
  let header := [SOF1; SOF2; type; len] in
  let body := take (Z.to_nat len) payload in
  sendFrame out type payload len
  = Ret (out ++ header ++ body ++ [(checksum header + checksum body) mod 256])
  /\ (checksum header + checksum body) mod 256 = checksum (header ++ body).
Proof.
  intros Hlen Hpay header body. split.
  - unfold sendFrame. fold header.
    rewrite (mkcrc_prefix header 4) by (cbn; lia). cbn [mbind outcome_bind].
    rewrite (mkcrc_prefix payload len) by lia. cbn [mbind outcome_bind].
    fold body. change (take (Z.to_nat 4) header) with header.
    assert (Hcrc : u8 (Z.land (u8 (u8 (0 + checksum header) + checksum body)) 255)
                   = (checksum header + checksum body) mod 256).
    { rewrite u8_add_l. cbn [Z.add].
      change 255 with (Z.ones 8). rewrite Z.land_ones by lia.
      unfold u8. change (2 ^ 8) with 256. rewrite !Z.mod_mod by lia. reflexivity. }
    rewrite Hcrc.
    destruct (Z.eqb_spec len 0) as [->|Hne]; cbn [negb].
    + subst body. cbn [Z.to_nat take]. rewrite <- !app_assoc. reflexivity.
    + rewrite <- !app_assoc. reflexivity.
  - rewrite !checksum_neg, byte_sum_app.
    rewrite <- Zplus_mod. f_equal. lia.
Qed.

Lemma sendFrame_layout_witness :
  sendFrame [] MSG_ERR [1] 1 = Ret [0xAA; 0x55; 0x84; 1; 1; 0x7B].
Proof.
  assert (H1 : 0 <= 1 <= 255) by lia.
  assert (H2 : 1 <= Z.of_nat (length [1])) by (cbn; lia).
  exact (proj1 (sendFrame_layout [] MSG_ERR [1] 1 H1 H2)).
Defined.

(** C10 as first stated sets the trailing byte apart from one checksum
    over header and payload together.  On the ACK frame with payload [1]
    the byte written is that very checksum. *)
Lemma sendFrame_is_one_checksum :
  sendFrame [] MSG_ACK [1] 1 = Ret ([SOF1; SOF2; MSG_ACK; 1] ++ [1] ++ [0x7C])
  /\ ~ (0x7C <> checksum ([SOF1; SOF2; MSG_ACK; 1] ++ [1])).
Proof. split; [reflexivity | intros H; apply H; reflexivity]. Qed.

(** ** Exhaustive checks *)

Lemma upto_spec (P : Z -> bool) (n : nat) :
  forall i, upto P n i = true -> forall r, i <= r < i + Z.of_nat n -> P r = true.
Proof.
  induction n as [|n IH]; intros i H r Hr.
  - lia.
  - cbn [upto] in H. apply andb_prop in H as [Hi Hrest].
    destruct (Z.eq_dec r i) as [->|Hne]; [exact Hi|].
    apply (IH (i + 1) Hrest). lia.
Qed.

Lemma rx_u16_bytes (d : list Z) (o : Z) :
  is_byte (cell d o) -> is_byte (cell d (o + 1)) ->
  rx_u16 d o = 256 * cell d o + cell d (o + 1).
Proof.
  intros Hhi Hlo. unfold rx_u16.
  assert (Hall : upto (fun hi => upto (fun lo =>
            u16 (Z.lor (Z.shiftl hi 8) lo) =? 256 * hi + lo) 256 0) 256 0 = true)
    by (vm_compute; reflexivity).
  pose proof (upto_spec _ _ _ Hall (cell d o) Hhi) as H1. cbv beta in H1.
  pose proof (upto_spec _ _ _ H1 (cell d (o + 1)) Hlo) as H2. cbv beta in H2.
  apply Z.eqb_eq in H2. exact H2.
Qed.

(** The single-precision quotient, cut to an [int], is the integer quotient
    for every 16-bit raw word. *)
Lemma rpm_obd1_quotient (r : Z) :
  0 <= r < 65536 -> rpm_obd1 r = 1875000 / (r + 1).
Proof.
  intros Hr.
  assert (Hall : upto (fun r => rpm_obd1 r =? 1875000 / (r + 1)) (Z.to_nat 65536) 0 = true)
    by (vm_compute; reflexivity).
  pose proof (upto_spec _ _ _ Hall r) as H. cbv beta in H.
  apply Z.eqb_eq, H. lia.
Qed.

(** The single-precision [v * 0.716f - 5.0f], cut to an [int], is the exact
    value of [v * 0.716 - 5] with its fraction dropped, for every byte. *)
Lemma conv_kpa_truncated (v : Z) :
  is_byte v -> FP.to_int (conv_kpa v) = FP.to_int (inject_Z v * 0.716 - 5.0)%Q.
Proof.
  intros Hv.
  assert (Hall : upto (fun v => FP.to_int (conv_kpa v)
                                =? FP.to_int (inject_Z v * 0.716 - 5.0)%Q) 256 0 = true)
    by (vm_compute; reflexivity).
  pose proof (upto_spec _ _ _ Hall v Hv) as H. cbv beta in H.
  apply Z.eqb_eq, H.
Qed.

(** ** What a transaction leaves alone *)

Lemma recv_loop_bytes (expected : Z) (ps : list (option Z)) :
  forall (i : Z) (buf : list Z) i' buf' ps',
    Forall is_byte buf ->
    recv_loop expected ps i buf = Ret (i', buf', ps') ->
    Forall is_byte buf'.
Proof.
  induction ps as [|[b|] ps IH]; intros i buf i' buf' ps' Hbuf H;
    cbn [recv_loop] in H; destruct (i <? expected).
  - discriminate.
  - injection H as <- <- <-. exact Hbuf.
  - destruct (arr_set buf i (u8 b)) as [buf1| |] eqn:Hset; try discriminate.
    apply arr_set_Ret in Hset as [_ ->]. cbn [mbind outcome_bind] in H.
    apply IH in H; [exact H|]. apply Forall_insert; [exact Hbuf | apply u8_range].
  - injection H as <- <- <-. exact Hbuf.
  - apply IH in H; assumption.
  - injection H as <- <- <-. exact Hbuf.
Qed.

Lemma sendcmd_frame (s : ECUData) (ecmd : EcuCmd) (w : world) ok s' c' w' :
  is_byte (rxlen ecmd) ->
  sendcmd s ecmd w = Ret (ok, s', c', w') ->
  row0_fields s' = row0_fields s
  /\ row1_fields s' = row1_fields s
  /\ row2_fields s' = row2_fields s
  /\ row3_fields s' = row3_fields s
  /\ maf s' = maf s
  /\ obd_sel s' = obd_sel s
  /\ wire w' = wire w ++ frame_events ecmd
  /\ Forall is_byte (dlcData s')
  /\ length (dlcData s') = DataLen
  /\ (ok = true -> s' = set_dlcData (dlcData s') s).
Proof.
  intros Hrx H.
  apply sendcmd_Ret in H as (buf & ps & Hrecv & -> & -> & Hlen & Hs); [|exact Hrx].
  apply recv_loop_bytes in Hrecv;
    [|apply Forall_replicate; unfold is_byte; lia].
  change (wire (set_polls ps (transmitted ecmd w))) with (wire (transmitted ecmd w)).
  rewrite wire_transmitted. fold (frame_events ecmd).
  destruct ok.
  - subst s'. repeat split; assumption.
  - apply log_err_Ret in Hs as [_ ->]. repeat split; try assumption. discriminate.
Qed.

Lemma row_cmd_byte (r : Z) : is_byte (rxlen (row_cmd r)).
Proof. unfold is_byte. cbn. lia. Qed.

(** Each row decoder writes the members of its own row and no other. *)
Lemma decode_row0_frame (s : ECUData) :
  row1_fields (decode_row0 s) = row1_fields s
  /\ row2_fields (decode_row0 s) = row2_fields s
  /\ row3_fields (decode_row0 s) = row3_fields s
  /\ maf (decode_row0 s) = maf s.
Proof.
  unfold decode_row0. destruct (obd_sel s =? 1);
    match goal with |- context [rpm ?x <? 0] => destruct (rpm x <? 0) end;
    repeat split.
Qed.

Lemma decode_row1_frame (s : ECUData) :
  row0_fields (decode_row1 s) = row0_fields s
  /\ row2_fields (decode_row1 s) = row2_fields s
  /\ row3_fields (decode_row1 s) = row3_fields s
  /\ maf (decode_row1 s) = maf s.
Proof. repeat split. Qed.

Lemma decode_row2_frame (s : ECUData) :
  row0_fields (decode_row2 s) = row0_fields s
  /\ row1_fields (decode_row2 s) = row1_fields s
  /\ row3_fields (decode_row2 s) = row3_fields s
  /\ maf (decode_row2 s) = maf s.
Proof. repeat split. Qed.

Lemma decode_row3_frame (s : ECUData) :
  row0_fields (decode_row3 s) = row0_fields s
  /\ row1_fields (decode_row3 s) = row1_fields s
  /\ row2_fields (decode_row3 s) = row2_fields s
  /\ maf (decode_row3 s) = maf s.
Proof. repeat split. Qed.

Lemma derive_maf_frame (s s' : ECUData) :
  derive_maf s = Ret s' ->
  row0_fields s' = row0_fields s
  /\ row1_fields s' = row1_fields s
  /\ row2_fields s' = row2_fields s
  /\ row3_fields s' = row3_fields s.
Proof.
  unfold derive_maf. destruct (iat s + 273 =? 0); [discriminate|].
  intros H. injection H as <-. repeat split.
Qed.

(** ** The register decoder *)

Lemma cell_byte (d : list Z) (i : Z) :
  Forall is_byte d -> 0 <= i < Z.of_nat (length d) -> is_byte (cell d i).
Proof.
  intros Hd Hi. unfold cell. apply Forall_lookup_total_1; [exact Hd | lia].
Qed.

Ltac transaction ok s c w H :=
  match goal with
  | |- context [sendcmd ?s0 ?c0 ?w0] =>
      destruct (sendcmd s0 c0 w0) as [[[[ok s] c] w]| |] eqn:H;
      cbn [mbind outcome_bind]; try discriminate;
      destruct ok; cbn [negb]
  end.

(** Once a row has been decoded, the rest of [readLiveData] leaves its
    members as decoded. *)
Lemma readLiveData_row0_kept (s : ECUData) (w : world) s0 c0 w0 ok s' w' :
  sendcmd s (row_cmd HOBD_OFF_RPM) w = Ret (true, s0, c0, w0) ->
  readLiveData s w = Ret (ok, s', w') ->
  row0_fields s' = row0_fields (decode_row0 s0).
Proof.
  intros Hsend. unfold readLiveData. rewrite Hsend.
  cbn [mbind outcome_bind negb].
  transaction ok1 s1 c1 w1 Hs1.
  2:{ intros H. injection H as <- <- <-.
      apply sendcmd_frame in Hs1 as (H1 & _); [|apply row_cmd_byte]. exact H1. }
  apply sendcmd_frame in Hs1 as (H1 & _); [|apply row_cmd_byte].
  transaction ok2 s2 c2 w2 Hs2.
  2:{ intros H. injection H as <- <- <-.
      apply sendcmd_frame in Hs2 as (H2 & _); [|apply row_cmd_byte].
      destruct (decode_row1_frame s1) as (H1' & _). congruence. }
  apply sendcmd_frame in Hs2 as (H2 & _); [|apply row_cmd_byte].
  destruct (decode_row1_frame s1) as (H1' & _). rewrite H1', H1 in H2.
  transaction ok3 s3 c3 w3 Hs3.
  2:{ intros H. injection H as <- <- <-.
      apply sendcmd_frame in Hs3 as (H3 & _); [|apply row_cmd_byte].
      destruct (decode_row2_frame s2) as (H2' & _). congruence. }
  apply sendcmd_frame in Hs3 as (H3 & _); [|apply row_cmd_byte].
  destruct (decode_row2_frame s2) as (H2' & _). rewrite H2', H2 in H3.
  destruct (derive_maf (decode_row3 s3)) as [s4| |] eqn:Hmaf;
    cbn [mbind outcome_bind]; try discriminate.
  intros H. injection H as <- <- <-.
  apply derive_maf_frame in Hmaf as (H4 & _).
  destruct (decode_row3_frame s3) as (H3' & _). congruence.
Qed.

Lemma readLiveData_row1_kept (s : ECUData) (w : world) s0 c0 w0 s1 c1 w1 ok s' w' :
  sendcmd s (row_cmd HOBD_OFF_RPM) w = Ret (true, s0, c0, w0) ->
  sendcmd (decode_row0 s0) (row_cmd HOBD_OFF_ECT) (delay 1 w0) = Ret (true, s1, c1, w1) ->
  readLiveData s w = Ret (ok, s', w') ->
  row1_fields s' = row1_fields (decode_row1 s1).
Proof.
  intros Hsend0 Hsend1. unfold readLiveData. rewrite Hsend0.
  cbn [mbind outcome_bind negb]. rewrite Hsend1. cbn [mbind outcome_bind negb].
  transaction ok2 s2 c2 w2 Hs2.
  2:{ intros H. injection H as <- <- <-.
      apply sendcmd_frame in Hs2 as (_ & H2 & _); [|apply row_cmd_byte]. exact H2. }
  apply sendcmd_frame in Hs2 as (_ & H2 & _); [|apply row_cmd_byte].
  transaction ok3 s3 c3 w3 Hs3.
  2:{ intros H. injection H as <- <- <-.
      apply sendcmd_frame in Hs3 as (_ & H3 & _); [|apply row_cmd_byte].
      destruct (decode_row2_frame s2) as (_ & H2' & _). congruence. }
  apply sendcmd_frame in Hs3 as (_ & H3 & _); [|apply row_cmd_byte].
  destruct (decode_row2_frame s2) as (_ & H2' & _). rewrite H2', H2 in H3.
  destruct (derive_maf (decode_row3 s3)) as [s4| |] eqn:Hmaf;
    cbn [mbind outcome_bind]; try discriminate.
  intros H. injection H as <- <- <-.
  apply derive_maf_frame in Hmaf as (_ & H4 & _).
  destruct (decode_row3_frame s3) as (_ & H3' & _). congruence.
Qed.

(** The derived mass-airflow value is always zero: [80 / 100] is an
    integer division. *)
Lemma derive_maf_zero (s s' : ECUData) : derive_maf s = Ret s' -> maf s' = 0.
Proof.
  unfold derive_maf. destruct (iat s + 273 =? 0); [discriminate|].
  intros H. injection H as <-. cbn [maf set_maf].
  change (Z.quot 80 100) with 0. rewrite Z.mul_0_r. reflexivity.
Qed.

(** C6 (as amended).  The decoding of row 0x00 reads the big-endian word
    [r] at payload offset 0.  With [obd_sel = 1] it stores
    [1875000 / (r + 1)] as the RPM, which the clamp at zero leaves as it
    is; raw word 0 gives 1875000 and raw word 999 gives 1875.  With any
    other [obd_sel] nothing is computed from [r]: the RPM is the value it
    had before the call, or 0 where that value was negative.  In both
    cases the value stays whatever the later rows of the same
    [readLiveData] do. *)
Theorem readLiveData_rpm (s : ECUData) (w : world) (s0 : ECUData) (c0 : EcuCmd)
    (w0 : world) :
  sendcmd s (row_cmd HOBD_OFF_RPM) w = Ret (true, s0, c0, w0) ->
  let r := rx_u16 (dlcData s0) (RPL_OFFSET + HOBD_OFF_RPM) in
  r = 256 * cell (dlcData s0) 2 + cell (dlcData s0) 3
  /\ (obd_sel s = 1 ->
      rpm (decode_row0 s0) = Z.max 0 (1875000 / (r + 1))
      /\ rpm (decode_row0 s0) = 1875000 / (r + 1)
      /\ (r = 0 -> rpm (decode_row0 s0) = 1875000)
      /\ (r = 999 -> rpm (decode_row0 s0) = 1875)
      /\ (forall ok s' w',
            readLiveData s w = Ret (ok, s', w') -> rpm s' = 1875000 / (r + 1)))
  /\ (obd_sel s <> 1 ->
      rpm (decode_row0 s0) = Z.max 0 (rpm s)
      /\ (0 <= rpm s -> rpm (decode_row0 s0) = rpm s)
      /\ (forall ok s' w',
            readLiveData s w = Ret (ok, s', w') -> rpm s' = Z.max 0 (rpm s))).
Proof.
  intros Hsend r.
  pose proof (sendcmd_frame _ _ _ _ _ _ _ (row_cmd_byte _) Hsend)
    as (Hrow0 & _ & _ & _ & _ & Hsel0 & _ & Hbytes & Hlen & _).
  unfold DataLen in Hlen.
  pose proof (cell_byte _ 2 Hbytes ltac:(lia)) as Hb2.
  pose proof (cell_byte _ 3 Hbytes ltac:(lia)) as Hb3.
  assert (Hr : r = 256 * cell (dlcData s0) 2 + cell (dlcData s0) 3)
    by (apply rx_u16_bytes; assumption).
  assert (Hrange : 0 <= r < 65536) by (unfold is_byte in Hb2, Hb3; lia).
  assert (Hq : 0 <= 1875000 / (r + 1)) by (apply Z.div_pos; lia).
  assert (Hold : rpm s0 = rpm s)
    by (unfold row0_fields in Hrow0; injection Hrow0 as -> _; reflexivity).
  assert (Hkept : forall ok s' w',
            readLiveData s w = Ret (ok, s', w') -> rpm s' = rpm (decode_row0 s0)).
  { intros ok s' w' Hrun.
    pose proof (readLiveData_row0_kept _ _ _ _ _ _ _ _ Hsend Hrun) as K.
    injection K as K _. exact K. }
  split; [exact Hr|]. split.
  - intros Hsel.
    assert (Hrpm : rpm (decode_row0 s0) = 1875000 / (r + 1)).
    { unfold decode_row0. rewrite Hsel0, Hsel. cbn [Z.eqb Pos.eqb].
      fold r. rewrite rpm_obd1_quotient by exact Hrange.
      cbn [rpm set_rpm]. destruct (1875000 / (r + 1) <? 0) eqn:E; [lia|].
      reflexivity. }
    split; [rewrite Hrpm; lia|]. split; [exact Hrpm|].
    split; [intros E; rewrite Hrpm, E; reflexivity|].
    split; [intros E; rewrite Hrpm, E; reflexivity|].
    intros ok s' w' Hrun. rewrite <- Hrpm. exact (Hkept ok s' w' Hrun).
  - intros Hsel.
    assert (Hrpm : rpm (decode_row0 s0) = Z.max 0 (rpm s)).
    { unfold decode_row0. rewrite Hsel0.
      destruct (Z.eqb_spec (obd_sel s) 1) as [E|_]; [contradiction|].
      rewrite <- Hold. destruct (rpm s0 <? 0) eqn:E.
      - transitivity 0; [reflexivity | lia].
      - transitivity (rpm s0); [reflexivity | lia]. }
    split; [exact Hrpm|]. split; [intros Hpos; rewrite Hrpm; lia|].
    intros ok s' w' Hrun. rewrite <- Hrpm. exact (Hkept ok s' w' Hrun).
Qed.

Lemma readLiveData_rpm_witness :
  (exists s' w', readLiveData ecu0 live_link = Ret (true, s', w') /\ rpm s' = 1875)
  /\ (exists s' w',
        readLiveData (set_rpm 4321 (set_obd_sel 2 ecu0)) live_link = Ret (true, s', w')
        /\ rpm s' = 4321).
Proof.
  split.
  - match eval vm_compute in (sendcmd ecu0 (row_cmd HOBD_OFF_RPM) live_link) with
    | Ret (true, ?s0, ?c0, ?w0) =>
        assert (Hsend : sendcmd ecu0 (row_cmd HOBD_OFF_RPM) live_link = Ret (true, s0, c0, w0))
          by (vm_compute; reflexivity);
        destruct (readLiveData_rpm ecu0 live_link s0 c0 w0 Hsend)
          as (_ & Hone & _);
        destruct (Hone eq_refl) as (_ & _ & _ & _ & Hrun)
    end.
    match eval vm_compute in (readLiveData ecu0 live_link) with
    | Ret (true, ?s1, ?w1) =>
        exists s1, w1; split; [vm_compute; reflexivity|];
        apply (Hrun true s1 w1); vm_compute; reflexivity
    end.
  - pose (e := set_rpm 4321 (set_obd_sel 2 ecu0)).
    match eval vm_compute in (sendcmd e (row_cmd HOBD_OFF_RPM) live_link) with
    | Ret (true, ?s0, ?c0, ?w0) =>
        assert (Hsend : sendcmd e (row_cmd HOBD_OFF_RPM) live_link = Ret (true, s0, c0, w0))
          by (vm_compute; reflexivity);
        destruct (readLiveData_rpm e live_link s0 c0 w0 Hsend)
          as (_ & _ & Hother);
        assert (Hsel : obd_sel e <> 1) by (vm_compute; discriminate);
        destruct (Hother Hsel) as (_ & _ & Hrun)
    end.
    match eval vm_compute in (readLiveData e live_link) with
    | Ret (true, ?s1, ?w1) =>
        exists s1, w1; split; [vm_compute; reflexivity|];
        apply (Hrun true s1 w1); vm_compute; reflexivity
    end.
Defined.

(** C6 as first stated has no condition on [obd_sel].  With [obd_sel = 2]
    the same replies, whose raw word is 999, leave the RPM at its old
    value: 0 in a fresh session, and 4321 where a 4321 was there before. *)
Lemma readLiveData_rpm_obd2 :
  rx_u16 (good_reply row0_payload) (RPL_OFFSET + HOBD_OFF_RPM) = 999
  /\ (exists s' w',
        readLiveData (set_obd_sel 2 ecu0) live_link = Ret (true, s', w')
        /\ rpm s' = 0
        /\ rpm s' <> 1875000 / (999 + 1))
  /\ (exists s' w',
        readLiveData (set_rpm 4321 (set_obd_sel 2 ecu0)) live_link = Ret (true, s', w')
        /\ rpm s' = 4321
        /\ rpm s' <> 1875000 / (999 + 1)).
Proof.
  split; [reflexivity|]. split.
  - eexists _, _. split; [vm_compute; reflexivity|].
    split; [reflexivity|]. vm_compute. discriminate.
  - eexists _, _. split; [vm_compute; reflexivity|].
    split; [reflexivity|]. vm_compute. discriminate.
Qed.

(** C7 (as amended).  For every reply to the read of row 0x10, the
    throttle position stored is [(raw - 24) / 2] in integer arithmetic,
    and the manifold and barometric pressures stored are
    [raw * 0.716 - 5.0] with the fraction dropped, the members being of
    type [int]; raw 24 gives TPS 0 and raw 0 gives MAP -5.  The values stay
    whatever the later rows of the same [readLiveData] do. *)
Theorem readLiveData_tps_map (s : ECUData) (w : world) s0 c0 w0 s1 c1 w1 :
  sendcmd s (row_cmd HOBD_OFF_RPM) w = Ret (true, s0, c0, w0) ->
  sendcmd (decode_row0 s0) (row_cmd HOBD_OFF_ECT) (delay 1 w0) = Ret (true, s1, c1, w1) ->
  let map_raw := cell (dlcData s1) (RPL_OFFSET + HOBD_OFF_MAP - HOBD_OFF_ECT) in
  let baro_raw := cell (dlcData s1) (RPL_OFFSET + HOBD_OFF_MAP + 1 - HOBD_OFF_ECT) in
  let tps_raw := cell (dlcData s1) (RPL_OFFSET + HOBD_OFF_TPS - HOBD_OFF_ECT) in
  let kpa raw := FP.to_int (inject_Z raw * 0.716 - 5.0)%Q in
  (is_byte map_raw /\ is_byte baro_raw /\ is_byte tps_raw)
  /\ tps (decode_row1 s1) = Z.quot (tps_raw - 24) 2
  /\ maps (decode_row1 s1) = kpa map_raw
  /\ baro (decode_row1 s1) = kpa baro_raw
  /\ (tps_raw = 24 -> tps (decode_row1 s1) = 0)
  /\ (map_raw = 0 -> maps (decode_row1 s1) = -5)
  /\ (forall ok s' w',
        readLiveData s w = Ret (ok, s', w') ->
        tps s' = Z.quot (tps_raw - 24) 2 /\ maps s' = kpa map_raw /\ baro s' = kpa baro_raw).
Proof.
  intros Hsend0 Hsend1 map_raw baro_raw tps_raw kpa.
  pose proof (sendcmd_frame _ _ _ _ _ _ _ (row_cmd_byte _) Hsend1)
    as (_ & _ & _ & _ & _ & _ & _ & Hbytes & Hlen & _).
  unfold DataLen in Hlen.
  assert (Hm : is_byte map_raw)
    by (apply cell_byte; [exact Hbytes | rewrite Hlen; vm_compute; intuition discriminate]).
  assert (Hb : is_byte baro_raw)
    by (apply cell_byte; [exact Hbytes | rewrite Hlen; vm_compute; intuition discriminate]).
  assert (Ht : is_byte tps_raw)
    by (apply cell_byte; [exact Hbytes | rewrite Hlen; vm_compute; intuition discriminate]).
  assert (Htps : tps (decode_row1 s1) = Z.quot (tps_raw - 24) 2) by reflexivity.
  assert (Hmaps : maps (decode_row1 s1) = kpa map_raw)
    by (apply (conv_kpa_truncated map_raw Hm)).
  assert (Hbaro : baro (decode_row1 s1) = kpa baro_raw)
    by (apply (conv_kpa_truncated baro_raw Hb)).
  split; [exact (conj Hm (conj Hb Ht))|].
  split; [exact Htps|]. split; [exact Hmaps|]. split; [exact Hbaro|].
  split; [intros E; rewrite Htps, E; reflexivity|].
  split; [intros E; rewrite Hmaps, E; reflexivity|].
  intros ok s' w' Hrun.
  pose proof (readLiveData_row1_kept _ _ _ _ _ _ _ _ _ _ _ Hsend0 Hsend1 Hrun) as Hkept.
  generalize dependent (decode_row1 s1). intros t Htps Hmaps Hbaro Hkept.
  unfold row1_fields in Hkept.
  injection Hkept as _ _ Hk1 Hk2 Hk3 _ _ _ _.
  rewrite Hk1, Hk2, Hk3. exact (conj Htps (conj Hmaps Hbaro)).
Qed.

Lemma readLiveData_tps_map_witness :
  exists s' w',
    readLiveData ecu0 live_link = Ret (true, s', w')
    /\ tps s' = 0 /\ maps s' = -4 /\ baro s' = 174.
Proof.
  match eval vm_compute in (sendcmd ecu0 (row_cmd HOBD_OFF_RPM) live_link) with
  | Ret (true, ?s0, ?c0, ?w0) =>
      assert (Hsend0 : sendcmd ecu0 (row_cmd HOBD_OFF_RPM) live_link = Ret (true, s0, c0, w0))
        by (vm_compute; reflexivity);
      match eval vm_compute in
            (sendcmd (decode_row0 s0) (row_cmd HOBD_OFF_ECT) (delay 1 w0)) with
      | Ret (true, ?s1, ?c1, ?w1) =>
          assert (Hsend1 : sendcmd (decode_row0 s0) (row_cmd HOBD_OFF_ECT) (delay 1 w0)
                           = Ret (true, s1, c1, w1)) by (vm_compute; reflexivity);
          destruct (readLiveData_tps_map ecu0 live_link s0 c0 w0 s1 c1 w1 Hsend0 Hsend1)
            as (_ & _ & _ & _ & _ & _ & Hrun)
      end
  end.
  match eval vm_compute in (readLiveData ecu0 live_link) with
  | Ret (true, ?s2, ?w2) =>
      exists s2, w2; split; [vm_compute; reflexivity|];
      apply (Hrun true s2 w2); vm_compute; reflexivity
  end.
Defined.

(** C7 as first stated has the pressure stored equal to
    [raw * 0.716 - 5.0].  With raw 1 the member holds -4, which is not
    -4.284. *)
Lemma readLiveData_map_truncated :
  exists s' w',
    readLiveData ecu0 live_link = Ret (true, s', w')
    /\ cell (good_reply row1_payload) (RPL_OFFSET + HOBD_OFF_MAP - HOBD_OFF_ECT) = 1
    /\ maps s' = -4
    /\ ~ (inject_Z (maps s') == inject_Z 1 * 0.716 - 5.0)%Q.
Proof.
  eexists _, _. split; [vm_compute; reflexivity|].
  split; [reflexivity|]. split; [reflexivity|].
  intros H. vm_compute in H. discriminate.
Qed.

(** C9.  When the transaction of row [k] fails, [readLiveData] returns
    failure at once: the wire shows the frames of the rows up to [k] and
    nothing after them; the members of row [k], of the later rows and
    [maf] hold what they held before the call, the members of the rows
    before [k] hold what was decoded from the replies. *)
Theorem readLiveData_partial_failure (s : ECUData) (w : world) :
  (forall s1 c1 w1,
      sendcmd s (row_cmd 0x00) w = Ret (false, s1, c1, w1) ->
      readLiveData s w = Ret (false, s1, w1)
      /\ wire w1 = wire w ++ frame_events (row_cmd 0x00)
      /\ row0_fields s1 = row0_fields s
      /\ row1_fields s1 = row1_fields s
      /\ row2_fields s1 = row2_fields s
      /\ row3_fields s1 = row3_fields s
      /\ maf s1 = maf s)
  /\ (forall s1 c1 w1 s2 c2 w2,
      sendcmd s (row_cmd 0x00) w = Ret (true, s1, c1, w1) ->
      sendcmd (decode_row0 s1) (row_cmd 0x10) (delay 1 w1) = Ret (false, s2, c2, w2) ->
      readLiveData s w = Ret (false, s2, w2)
      /\ wire w2 = wire w ++ frame_events (row_cmd 0x00)
                   ++ Delay 1 :: frame_events (row_cmd 0x10)
      /\ s1 = set_dlcData (dlcData s1) s
      /\ row0_fields s2 = row0_fields (decode_row0 s1)
      /\ row1_fields s2 = row1_fields s
      /\ row2_fields s2 = row2_fields s
      /\ row3_fields s2 = row3_fields s
      /\ maf s2 = maf s)
  /\ (forall s1 c1 w1 s2 c2 w2 s3 c3 w3,
      sendcmd s (row_cmd 0x00) w = Ret (true, s1, c1, w1) ->
      sendcmd (decode_row0 s1) (row_cmd 0x10) (delay 1 w1) = Ret (true, s2, c2, w2) ->
      sendcmd (decode_row1 s2) (row_cmd 0x20) (delay 1 w2) = Ret (false, s3, c3, w3) ->
      readLiveData s w = Ret (false, s3, w3)
      /\ wire w3 = wire w ++ frame_events (row_cmd 0x00)
                   ++ Delay 1 :: frame_events (row_cmd 0x10)
                   ++ Delay 1 :: frame_events (row_cmd 0x20)
      /\ s1 = set_dlcData (dlcData s1) s
      /\ s2 = set_dlcData (dlcData s2) (decode_row0 s1)
      /\ row0_fields s3 = row0_fields (decode_row0 s1)
      /\ row1_fields s3 = row1_fields (decode_row1 s2)
      /\ row2_fields s3 = row2_fields s
      /\ row3_fields s3 = row3_fields s
      /\ maf s3 = maf s)
  /\ (forall s1 c1 w1 s2 c2 w2 s3 c3 w3 s4 c4 w4,
      sendcmd s (row_cmd 0x00) w = Ret (true, s1, c1, w1) ->
      sendcmd (decode_row0 s1) (row_cmd 0x10) (delay 1 w1) = Ret (true, s2, c2, w2) ->
      sendcmd (decode_row1 s2) (row_cmd 0x20) (delay 1 w2) = Ret (true, s3, c3, w3) ->
      sendcmd (decode_row2 s3) (row_cmd 0x30) (delay 1 w3) = Ret (false, s4, c4, w4) ->
      readLiveData s w = Ret (false, s4, w4)
      /\ wire w4 = wire w ++ frame_events (row_cmd 0x00)
                   ++ Delay 1 :: frame_events (row_cmd 0x10)
                   ++ Delay 1 :: frame_events (row_cmd 0x20)
                   ++ Delay 1 :: frame_events (row_cmd 0x30)
      /\ s1 = set_dlcData (dlcData s1) s
      /\ s2 = set_dlcData (dlcData s2) (decode_row0 s1)
      /\ s3 = set_dlcData (dlcData s3) (decode_row1 s2)
      /\ row0_fields s4 = row0_fields (decode_row0 s1)
      /\ row1_fields s4 = row1_fields (decode_row1 s2)
      /\ row2_fields s4 = row2_fields (decode_row2 s3)
      /\ row3_fields s4 = row3_fields s
      /\ maf s4 = maf s).
Proof.
  split; [|split; [|split]].
  - intros s1 c1 w1 H1.
    pose proof (sendcmd_frame _ _ _ _ _ _ _ (row_cmd_byte _) H1)
      as (F0 & F1 & F2 & F3 & Fm & _ & Fw & _).
    split; [|repeat split; assumption].
    unfold readLiveData. change HOBD_OFF_RPM with 0. rewrite H1. reflexivity.
  - intros s1 c1 w1 s2 c2 w2 H1 H2.
    pose proof (sendcmd_frame _ _ _ _ _ _ _ (row_cmd_byte _) H1)
      as (_ & F1 & F2 & F3 & Fm & _ & Fw & _ & _ & Fs).
    pose proof (sendcmd_frame _ _ _ _ _ _ _ (row_cmd_byte _) H2)
      as (G0 & G1 & G2 & G3 & Gm & _ & Gw & _).
    destruct (decode_row0_frame s1) as (D1 & D2 & D3 & Dm).
    split; [|split; [|split; [|repeat split]]].
    + unfold readLiveData. change HOBD_OFF_RPM with 0. rewrite H1.
      cbn [mbind outcome_bind negb]. change HOBD_OFF_ECT with 16. rewrite H2.
      reflexivity.
    + unfold delay, emit in Gw. cbn [wire] in Gw. rewrite Gw, Fw.
      rewrite <- !app_assoc. reflexivity.
    + apply Fs. reflexivity.
    + exact G0.
    + congruence.
    + congruence.
    + congruence.
    + congruence.
  - intros s1 c1 w1 s2 c2 w2 s3 c3 w3 H1 H2 H3.
    pose proof (sendcmd_frame _ _ _ _ _ _ _ (row_cmd_byte _) H1)
      as (_ & _ & F2 & F3 & Fm & _ & Fw & _ & _ & Fs).
    pose proof (sendcmd_frame _ _ _ _ _ _ _ (row_cmd_byte _) H2)
      as (G0 & _ & G2 & G3 & Gm & _ & Gw & _ & _ & Gs).
    pose proof (sendcmd_frame _ _ _ _ _ _ _ (row_cmd_byte _) H3)
      as (K0 & K1 & K2 & K3 & Km & _ & Kw & _).
    destruct (decode_row0_frame s1) as (_ & D2 & D3 & Dm).
    destruct (decode_row1_frame s2) as (E0 & E2 & E3 & Em).
    split; [|split; [|split; [|split; [|repeat split]]]].
    + unfold readLiveData. change HOBD_OFF_RPM with 0. rewrite H1.
      cbn [mbind outcome_bind negb]. change HOBD_OFF_ECT with 16. rewrite H2.
      cbn [mbind outcome_bind negb]. rewrite H3. reflexivity.
    + unfold delay, emit in Gw, Kw. cbn [wire] in Gw, Kw. rewrite Kw, Gw, Fw.
      rewrite <- !app_assoc. reflexivity.
    + apply Fs. reflexivity.
    + apply Gs. reflexivity.
    + congruence.
    + exact K1.
    + congruence.
    + congruence.
    + congruence.
  - intros s1 c1 w1 s2 c2 w2 s3 c3 w3 s4 c4 w4 H1 H2 H3 H4.
    pose proof (sendcmd_frame _ _ _ _ _ _ _ (row_cmd_byte _) H1)
      as (_ & _ & _ & F3 & Fm & _ & Fw & _ & _ & Fs).
    pose proof (sendcmd_frame _ _ _ _ _ _ _ (row_cmd_byte _) H2)
      as (G0 & _ & _ & G3 & Gm & _ & Gw & _ & _ & Gs).
    pose proof (sendcmd_frame _ _ _ _ _ _ _ (row_cmd_byte _) H3)
      as (K0 & K1 & _ & K3 & Km & _ & Kw & _ & _ & Ks).
    pose proof (sendcmd_frame _ _ _ _ _ _ _ (row_cmd_byte _) H4)
      as (L0 & L1 & L2 & L3 & Lm & _ & Lw & _).
    destruct (decode_row0_frame s1) as (_ & _ & D3 & Dm).
    destruct (decode_row1_frame s2) as (E0 & _ & E3 & Em).
    destruct (decode_row2_frame s3) as (J0 & J1 & J3 & Jm).
    split; [|split; [|split; [|split; [|split; [|repeat split]]]]].
    + unfold readLiveData. change HOBD_OFF_RPM with 0. rewrite H1.
      cbn [mbind outcome_bind negb]. change HOBD_OFF_ECT with 16. rewrite H2.
      cbn [mbind outcome_bind negb]. rewrite H3.
      cbn [mbind outcome_bind negb]. rewrite H4. reflexivity.
    + unfold delay, emit in Gw, Kw, Lw. cbn [wire] in Gw, Kw, Lw.
      rewrite Lw, Kw, Gw, Fw.
      rewrite <- !app_assoc. reflexivity.
    + apply Fs. reflexivity.
    + apply Gs. reflexivity.
    + apply Ks. reflexivity.
    + congruence.
    + congruence.
    + exact L2.
    + congruence.
    + congruence.
Qed.

Lemma readLiveData_partial_failure_witness :
  exists s' w',
    readLiveData ecu0 (failing_link 1) = Ret (false, s', w')
    /\ row0_fields s' = (1875, 50, true, true, false, true, true, true)
    /\ row1_fields s' = row1_fields ecu0.
Proof.
  match eval vm_compute in (sendcmd ecu0 (row_cmd 0x00) (failing_link 1)) with
  | Ret (true, ?s1, ?c1, ?w1) =>
      assert (H1 : sendcmd ecu0 (row_cmd 0x00) (failing_link 1) = Ret (true, s1, c1, w1))
        by (vm_compute; reflexivity);
      match eval vm_compute in
            (sendcmd (decode_row0 s1) (row_cmd 0x10) (delay 1 w1)) with
      | Ret (false, ?s2, ?c2, ?w2) =>
          assert (H2 : sendcmd (decode_row0 s1) (row_cmd 0x10) (delay 1 w1)
                       = Ret (false, s2, c2, w2)) by (vm_compute; reflexivity);
          destruct (readLiveData_partial_failure ecu0 (failing_link 1))
            as (_ & Hrow1 & _);
          destruct (Hrow1 s1 c1 w1 s2 c2 w2 H1 H2) as (Hrun & _ & _ & _ & Hold & _);
          exists s2, w2; split; [exact Hrun|]; split; [vm_compute; reflexivity | exact Hold]
      end
  end.
Defined.

(** * Further properties of the code *)

(** ** What the receive loop stores *)

Lemma delivered_link_bytes (ps : list (option Z)) :
  delivered ps = Z.of_nat (length (link_bytes ps)).
Proof.
  induction ps as [|[b|] ps IH].
  - reflexivity.
  - rewrite delivered_cons_Some, IH. cbn [link_bytes length]. lia.
  - rewrite delivered_cons_None, IH. reflexivity.
Qed.

Lemma take_succ_insert (l : list Z) (i : nat) (x : Z) :
  (i < length l)%nat -> take (S i) (<[i := x]> l) = take i l ++ [x].
Proof.
  intros Hi.
  rewrite (take_S_r _ _ x) by (apply list_lookup_insert_eq; exact Hi).
  rewrite take_insert_ge by lia. reflexivity.
Qed.

(** With [k] more bytes to take and as many on the link, the loop returns
    with these bytes stored from cell [i] on, one after the other, and with
    the rest of the buffer as it was. *)
Lemma recv_loop_fill (ps : list (option Z)) :
  forall (k i : nat) (buf : list Z),
    (i + k <= length buf)%nat ->
    Z.of_nat (i + k) < 65536 ->
    (k <= length (link_bytes ps))%nat ->
    recv_loop (Z.of_nat (i + k)) ps (Z.of_nat i) buf
    = Ret (Z.of_nat (i + k),
           take i buf ++ map u8 (take k (link_bytes ps)) ++ drop (i + k) buf,
           after_bytes k ps).
Proof.
  induction ps as [|[b|] ps IH]; intros k i buf Hbuf H16 Hk.
  - cbn [link_bytes length] in Hk. assert (k = 0)%nat as -> by lia.
    cbn [recv_loop]. rewrite Nat.add_0_r, Z.ltb_irrefl.
    rewrite take_0. cbn [map app after_bytes]. rewrite take_drop. reflexivity.
  - destruct k as [|k].
    + cbn [recv_loop]. rewrite Nat.add_0_r, Z.ltb_irrefl.
      rewrite take_0. cbn [map app after_bytes]. rewrite take_drop. reflexivity.
    + cbn [recv_loop link_bytes length] in *.
      destruct (Z.of_nat i <? Z.of_nat (i + S k)) eqn:E; [|lia].
      rewrite arr_set_inside by lia. cbn [mbind outcome_bind].
      rewrite u16_small by lia. rewrite Nat2Z.id.
      replace (Z.of_nat i + 1) with (Z.of_nat (S i)) by lia.
      replace (i + S k)%nat with (S i + k)%nat by lia.
      rewrite IH by (rewrite ?length_insert; lia).
      rewrite take_succ_insert by lia.
      rewrite drop_insert_lt by lia.
      cbn [take map after_bytes]. rewrite <- app_assoc. reflexivity.
  - destruct k as [|k].
    + cbn [recv_loop]. rewrite Nat.add_0_r, Z.ltb_irrefl.
      rewrite take_0. cbn [map app after_bytes]. rewrite take_drop. reflexivity.
    + cbn [recv_loop link_bytes after_bytes] in *.
      destruct (Z.of_nat i <? Z.of_nat (i + S k)) eqn:E; [|lia].
      apply IH; assumption.
Qed.

(** X1.  A returning [sendcmd] leaves in [dlcData] the first [rxlen + 3]
    bytes that the link delivered, in order, followed by zeros up to the 20
    cells: nothing of an earlier reply survives.  The link is left right
    after the last byte taken; the DTC list is not touched. *)
Theorem sendcmd_buffer (s : ECUData) (ecmd : EcuCmd) (w : world) ok s' c' w' :
  is_byte (rxlen ecmd) ->
  sendcmd s ecmd w = Ret (ok, s', c', w') ->
  let n := Z.to_nat (rxlen ecmd + MSG_OFFSET) in
  (n <= DataLen)%nat
  /\ (n <= length (link_bytes (polls w)))%nat
  /\ dlcData s' = map u8 (take n (link_bytes (polls w))) ++ replicate (DataLen - n) 0
  /\ polls w' = after_bytes n (polls w)
  /\ dtcErrs s' = dtcErrs s
  /\ dtcLen s' = dtcLen s.
Proof.
  intros Hrx H n. subst n. unfold MSG_OFFSET.
  apply sendcmd_Ret in H as (buf & ps & Hrecv & -> & -> & Hlen & Hs); [|exact Hrx].
  unfold is_byte in Hrx.
  pose proof Hrecv as Hexit.
  apply recv_loop_exit in Hexit as (_ & Hd & _ & Hfit); [|lia..].
  rewrite length_replicate in Hfit. specialize (Hfit ltac:(lia)).
  rewrite !delivered_link_bytes in Hd.
  assert (Hn : (Z.to_nat (rxlen ecmd + 3) <= DataLen)%nat) by lia.
  assert (Hk : (Z.to_nat (rxlen ecmd + 3) <= length (link_bytes (polls w)))%nat) by lia.
  pose proof (recv_loop_fill (polls w) (Z.to_nat (rxlen ecmd + 3)) 0 (replicate DataLen 0)) as Hfill.
  cbn [Nat.add] in Hfill. change (Z.of_nat 0) with 0 in Hfill.
  rewrite Z2Nat.id, take_0, drop_replicate in Hfill by lia. cbn [app] in Hfill.
  rewrite Hfill in Hrecv by (rewrite ?length_replicate; lia).
  injection Hrecv as <- <-.
  split; [exact Hn|]. split; [exact Hk|].
  assert (Hdata : dlcData s'
                  = map u8 (take (Z.to_nat (rxlen ecmd + 3)) (link_bytes (polls w)))
                    ++ replicate (DataLen - Z.to_nat (rxlen ecmd + 3)) 0).
  { destruct ok.
    - subst s'. reflexivity.
    - apply log_err_Ret in Hs as [_ ->]. reflexivity. }
  split; [exact Hdata|]. split; [reflexivity|].
  destruct ok.
  - subst s'. split; reflexivity.
  - apply log_err_Ret in Hs as [_ ->]. split; reflexivity.
Qed.

Lemma sendcmd_buffer_witness :
  exists s' c' w',
    sendcmd ecu0 (row_cmd HOBD_OFF_RPM) (answering (garbled ++ [7; 8]))
      = Ret (false, s', c', w')
    /\ dlcData s' = garbled ++ [0]
    /\ polls w' = [Some 7; Some 8].
Proof.
  match eval vm_compute in
        (sendcmd ecu0 (row_cmd HOBD_OFF_RPM) (answering (garbled ++ [7; 8]))) with
  | Ret (false, ?s1, ?c1, ?w1) =>
      assert (H : sendcmd ecu0 (row_cmd HOBD_OFF_RPM) (answering (garbled ++ [7; 8]))
                  = Ret (false, s1, c1, w1)) by (vm_compute; reflexivity);
      destruct (sendcmd_buffer _ _ _ _ _ _ _ (row_cmd_byte _) H)
        as (_ & _ & Hdata & Hpolls & _);
      exists s1, c1, w1; split; [exact H|]; split; [exact Hdata | exact Hpolls]
  end.
Defined.

(** X2.  A reply that carries its own checksum is accepted, however many
    empty polls come before and between its bytes: [sendcmd] returns true
    with the reply in [dlcData], the log and the timeout counter as they
    were.  The same bytes with any other last byte are never accepted. *)
Theorem sendcmd_accepts_checksummed (s : ECUData) (ecmd : EcuCmd) (w : world)
    (body : list Z) (last : Z) :
  is_byte (rxlen ecmd) ->
  rxlen ecmd + MSG_OFFSET <= Z.of_nat DataLen ->
  let n := Z.to_nat (rxlen ecmd + MSG_OFFSET) in
  Forall is_byte body -> is_byte last ->
  length body = Z.to_nat (rxlen ecmd + 2) ->
  take n (link_bytes (polls w)) = body ++ [last] ->
  let s1 := set_dlcData (body ++ [last] ++ replicate (DataLen - n) 0) s in
  let c1 := set_crc (cell (tx_frame ecmd) 4) ecmd in
  let w1 := set_polls (after_bytes n (polls w)) (transmitted ecmd w) in
  (last = checksum body -> sendcmd s ecmd w = Ret (true, s1, c1, w1))
  /\ (last <> checksum body ->
      sendcmd s ecmd w = s2 ← log_err ChecksumErr s1; Ret (false, s2, c1, w1)).
Proof.
  intros Hrx Hfit n Hbody Hlast Hblen Htake s1 c1 w1.
  unfold is_byte in Hrx. unfold MSG_OFFSET, DataLen in *.
  assert (Hlen : (length body + 1 = n)%nat) by (subst n; lia).
  assert (Hk : (n <= length (link_bytes (polls w)))%nat).
  { apply (f_equal length) in Htake. rewrite length_take, length_app in Htake.
    cbn [length] in Htake. subst n. lia. }
  assert (Hsend :
    sendcmd s ecmd w
    = if negb (checksum body =? last)
      then s2 ← log_err ChecksumErr s1; Ret (false, s2, c1, w1)
      else Ret (true, s1, c1, w1)).
  { rewrite sendcmd_split. unfold MSG_OFFSET. rewrite u16_small by lia.
    pose proof (recv_loop_fill (polls w) n 0 (replicate DataLen 0)) as Hfill.
    cbn [Nat.add] in Hfill. change (Z.of_nat 0) with 0 in Hfill.
    subst n. rewrite Z2Nat.id, take_0, drop_replicate in Hfill by lia.
    cbn [app] in Hfill.
    rewrite Hfill by (rewrite ?length_replicate; unfold DataLen; lia).
    cbn [mbind outcome_bind].
    rewrite Htake. rewrite map_app. cbn [map].
    rewrite (u8_small last) by exact Hlast.
    assert (Hmap : map u8 body = body).
    { clear -Hbody. induction Hbody as [|x l Hx _ IH]; [reflexivity|].
      cbn [map]. rewrite u8_small by exact Hx. rewrite IH. reflexivity. }
    rewrite Hmap. unfold after_recv, MSG_OFFSET.
    rewrite u16_small by lia. rewrite Z.ltb_irrefl.
    cbn [dlcData set_dlcData].
    set (buf := (body ++ [last]) ++ replicate (DataLen - Z.to_nat (rxlen ecmd + 3)) 0).
    assert (Hbuflen : length buf = 20%nat).
    { subst buf. rewrite !length_app, length_replicate. cbn [length].
      unfold DataLen. lia. }
    assert (Hlastcell : cell buf (rxlen ecmd + 3 - 1) = last).
    { subst buf. unfold cell. rewrite <- app_assoc.
      rewrite lookup_total_app_r by lia.
      replace (Z.to_nat (rxlen ecmd + 3 - 1) - length body)%nat with 0%nat by lia.
      reflexivity. }
    assert (Hprefix : take (Z.to_nat (rxlen ecmd + 3 - 1)) buf = body).
    { subst buf. rewrite <- app_assoc.
      rewrite take_app_length' by lia. reflexivity. }
    rewrite arr_get_cell by lia. cbn [mbind outcome_bind].
    rewrite (u8_small (rxlen ecmd + 3 - 1)) by (unfold is_byte; lia).
    rewrite mkcrc_prefix by lia. cbn [mbind outcome_bind].
    rewrite Hlastcell, Hprefix.
    subst s1 c1 w1 buf. rewrite <- app_assoc. reflexivity. }
  rewrite Hsend. split.
  - intros ->. rewrite Z.eqb_refl. reflexivity.
  - intros Hne. destruct (Z.eqb_spec (checksum body) last) as [E|_]; [congruence|].
    reflexivity.
Qed.

Lemma sendcmd_accepts_checksummed_witness :
  exists s' c' w',
    sendcmd ecu0 reset_cmd (mkWorld [None; Some 0; None; None; Some 3; Some 0xFD; None] 0 [])
    = Ret (true, s', c', w')
    /\ polls w' = [None].
Proof.
  assert (Hrx : is_byte (rxlen reset_cmd)) by (vm_compute; split; [discriminate|reflexivity]).
  assert (Hfit : rxlen reset_cmd + MSG_OFFSET <= Z.of_nat DataLen) by (vm_compute; discriminate).
  assert (Hbody : Forall is_byte [0; 3])
    by (repeat constructor; vm_compute; intuition discriminate).
  assert (Hlast : is_byte 0xFD) by (vm_compute; intuition discriminate).
  destruct (sendcmd_accepts_checksummed ecu0 reset_cmd
              (mkWorld [None; Some 0; None; None; Some 3; Some 0xFD; None] 0 [])
              [0; 3] 0xFD Hrx Hfit Hbody Hlast eq_refl eq_refl) as (Hok & _).
  eexists _, _, _. split; [apply Hok; reflexivity | reflexivity].
Defined.

(** ** What the checksum sees and what it does not *)

Lemma byte_sum_cons (x : Z) (xs : list Z) : byte_sum (x :: xs) = x + byte_sum xs.
Proof. reflexivity. Qed.

Lemma byte_sum_insert (bs : list Z) (i : nat) (b b' : Z) :
  bs !! i = Some b -> byte_sum (<[i := b']> bs) = byte_sum bs - b + b'.
Proof.
  revert i. induction bs as [|x bs IH]; intros [|i] H; try discriminate.
  - cbn in H. injection H as ->. cbn [list_insert insert]. rewrite !byte_sum_cons. lia.
  - cbn in H. change (<[S i := b']> (x :: bs)) with (x :: <[i := b']> bs).
    rewrite !byte_sum_cons, (IH i H). lia.
Qed.

Lemma byte_sum_perm (bs bs' : list Z) : bs ≡ₚ bs' -> byte_sum bs = byte_sum bs'.
Proof.
  induction 1 as [|x l l' _ IH|x y l|l l' l'' _ IH1 _ IH2].
  - reflexivity.
  - rewrite !byte_sum_cons, IH. reflexivity.
  - rewrite !byte_sum_cons. lia.
  - congruence.
Qed.

Lemma mkcrc_whole (bs : list Z) :
  (length bs <= 255)%nat -> mkcrc bs (Z.of_nat (length bs)) = Ret (checksum bs).
Proof.
  intros H. rewrite mkcrc_prefix by lia. rewrite Nat2Z.id, firstn_all. reflexivity.
Qed.

(** X3.  [mkcrc] tells any two sequences apart that differ in one byte:
    no single corrupted byte of a frame goes unnoticed. *)
Theorem mkcrc_detects_one_byte (bs : list Z) (i : nat) (b b' : Z) :
  (length bs <= 255)%nat ->
  bs !! i = Some b ->
  is_byte b -> is_byte b' -> b <> b' ->
  mkcrc (<[i := b']> bs) (Z.of_nat (length bs)) <> mkcrc bs (Z.of_nat (length bs)).
Proof.
  intros Hlen Hi Hb Hb' Hne Heq.
  rewrite (mkcrc_whole bs Hlen) in Heq.
  rewrite <- (length_insert bs i b') in Heq at 1.
  rewrite mkcrc_whole in Heq by (rewrite length_insert; exact Hlen).
  injection Heq as Heq. rewrite !checksum_neg in Heq.
  rewrite (byte_sum_insert _ _ _ _ Hi) in Heq.
  assert (Hz : (b' - b) mod 256 = 0).
  { replace (b' - b) with (- byte_sum bs - - (byte_sum bs - b + b')) by lia.
    rewrite Zminus_mod, Heq, Z.sub_diag. reflexivity. }
  apply Z.mod_divide in Hz; [|lia]. destruct Hz as [k Hk].
  unfold is_byte in Hb, Hb'. lia.
Qed.

Lemma mkcrc_detects_one_byte_witness :
  mkcrc [0; 19; 3; 232] 4 <> mkcrc [0; 19; 3; 231] 4.
Proof.
  apply (mkcrc_detects_one_byte [0; 19; 3; 231] 3 231 232).
  - cbn. lia.
  - reflexivity.
  - vm_compute. intuition discriminate.
  - vm_compute. intuition discriminate.
  - discriminate.
Defined.

(** X4.  [mkcrc] depends on the multiset of the bytes only: two frames
    with the same bytes in another order have the same checksum, so a
    reordering is never detected. *)
Theorem mkcrc_order_blind (bs bs' : list Z) :
  (length bs <= 255)%nat ->
  bs ≡ₚ bs' ->
  mkcrc bs (Z.of_nat (length bs)) = mkcrc bs' (Z.of_nat (length bs')).
Proof.
  intros Hlen Hperm.
  pose proof (Permutation_length Hperm) as Hl.
  rewrite !mkcrc_whole by lia.
  rewrite !checksum_neg, (byte_sum_perm _ _ Hperm). reflexivity.
Qed.

Lemma mkcrc_order_blind_witness :
  mkcrc [3; 231; 50] 3 = mkcrc [231; 3; 50] 3.
Proof.
  apply (mkcrc_order_blind [3; 231; 50] [231; 3; 50]).
  - cbn. lia.
  - apply perm_swap.
Defined.

(** X5.  The value of [mkcrc] is a byte that closes the byte sum: the
    bytes it was computed over and the checksum add up to zero modulo 256.
    Over no bytes at all it is 0. *)
Theorem mkcrc_closes_sum (buf : list Z) (len : Z) :
  0 <= len <= 255 ->
  len <= Z.of_nat (length buf) ->
  exists c,
    mkcrc buf len = Ret c
    /\ is_byte c
    /\ (byte_sum (take (Z.to_nat len) buf) + c) mod 256 = 0
    /\ (len = 0 -> c = 0).
Proof.
  intros Hlen Hbuf. exists (checksum (take (Z.to_nat len) buf)).
  split; [apply mkcrc_prefix; assumption|].
  split; [rewrite checksum_neg; apply Z.mod_pos_bound; lia|].
  split.
  - rewrite checksum_neg, Zplus_mod_idemp_r.
    replace (byte_sum (take (Z.to_nat len) buf) + - byte_sum (take (Z.to_nat len) buf))
      with 0 by lia.
    reflexivity.
  - intros ->. reflexivity.
Qed.

Lemma mkcrc_closes_sum_witness :
  exists c, mkcrc [0x20; 0x05; 0x40; 0x10] 4 = Ret c /\ (0x20 + 0x05 + 0x40 + 0x10 + c) mod 256 = 0.
Proof.
  assert (H1 : 0 <= 4 <= 255) by lia.
  assert (H2 : 4 <= Z.of_nat (length [0x20; 0x05; 0x40; 0x10])) by (cbn; lia).
  destruct (mkcrc_closes_sum [0x20; 0x05; 0x40; 0x10] 4 H1 H2) as (c & Hc & _ & _ & _).
  exists c. split; [exact Hc|].
  vm_compute in Hc. injection Hc as <-. reflexivity.
Defined.

(** ** The DTC scan, cell by cell *)

Lemma cell_insert_ne (a : list Z) (i j : Z) (v : Z) :
  0 <= i -> 0 <= j -> i <> j -> cell (<[Z.to_nat i := v]> a) j = cell a j.
Proof.
  intros Hi Hj Hne. unfold cell. apply list_lookup_total_insert_ne. lia.
Qed.

Lemma cell_insert_id (a : list Z) (i : Z) :
  0 <= i < Z.of_nat (length a) -> <[Z.to_nat i := cell a i]> a = a.
Proof.
  intros Hi. apply list_insert_id. unfold cell.
  apply list_lookup_lookup_total_lt. lia.
Qed.

Lemma scan_byte_count (d errs : list Z) (i len : Z) :
  snd (scan_byte d i (errs, len))
  = len + (Z.b2z (high_set d i) + Z.b2z (low_set d i)).
Proof.
  unfold scan_byte, high_set, low_set.
  destruct (negb (Z.shiftr (cell d (i + 2)) 4 =? 0));
    destruct (negb (Z.land (cell d (i + 2)) 15 =? 0));
    cbv zeta; cbn [snd Z.b2z]; lia.
Qed.

Lemma scan_byte_cell (d errs : list Z) (i len : Z) :
  0 <= i < 14 ->
  length errs = ErrLen ->
  scan_byte d i (errs, len)
  = (<[Z.to_nat i := stored_code d i (cell errs i)]> errs,
     len + (Z.b2z (high_set d i) + Z.b2z (low_set d i))).
Proof.
  intros Hi Hlen.
  rewrite <- scan_byte_count with (errs := errs).
  rewrite (surjective_pairing (scan_byte d i (errs, len))) at 1. f_equal.
  unfold stored_code.
  destruct (low_set d i) eqn:Hlo.
  - apply scan_byte_low; [exact Hi | exact Hlen|].
    unfold low_set in Hlo. destruct (Z.eqb_spec (Z.land (cell d (i + 2)) 15) 0); [discriminate|].
    assumption.
  - unfold low_set in Hlo.
    destruct (Z.eqb_spec (Z.land (cell d (i + 2)) 15) 0) as [Hz|]; [|discriminate].
    destruct (high_set d i) eqn:Hhi.
    + unfold high_set in Hhi.
      destruct (Z.eqb_spec (Z.shiftr (cell d (i + 2)) 4) 0) as [|Hnz]; [discriminate|].
      rewrite (scan_byte_high_only d errs i len Hi Hnz Hz). reflexivity.
    + unfold high_set in Hhi.
      destruct (Z.eqb_spec (Z.shiftr (cell d (i + 2)) 4) 0) as [Hz'|]; [|discriminate].
      unfold scan_byte. rewrite Hz, Hz'. cbn [negb Z.eqb fst].
      symmetry. apply cell_insert_id. unfold ErrLen in Hlen. lia.
Qed.

Lemma nibbles_set_bounds (d : list Z) (n : nat) :
  forall i, 0 <= nibbles_set d n i <= 2 * Z.of_nat n.
Proof.
  induction n as [|n IH]; intros i.
  - cbn. lia.
  - cbn [nibbles_set]. specialize (IH (i + 1)).
    destruct (high_set d i), (low_set d i); cbn [Z.b2z]; lia.
Qed.

Lemma scan_loop_cells (d : list Z) (n : nat) :
  forall (i : Z) (errs : list Z) (len : Z),
    0 <= i -> i + Z.of_nat n <= 14 ->
    length errs = ErrLen ->
    length (fst (scan_loop d n i (errs, len))) = ErrLen
    /\ snd (scan_loop d n i (errs, len)) = len + nibbles_set d n i
    /\ forall j, 0 <= j < 14 ->
         cell (fst (scan_loop d n i (errs, len))) j
         = if (i <=? j) && (j <? i + Z.of_nat n)
           then stored_code d j (cell errs j) else cell errs j.
Proof.
  induction n as [|n IH]; intros i errs len Hi Hn Hlen.
  - cbn [scan_loop fst snd nibbles_set]. split; [exact Hlen|]. split; [lia|].
    intros j Hj. destruct (i <=? j) eqn:E1; destruct (j <? i + Z.of_nat 0) eqn:E2;
      try reflexivity. lia.
  - cbn [scan_loop nibbles_set]. rewrite scan_byte_cell by (try assumption; lia).
    specialize (IH (i + 1) (<[Z.to_nat i := stored_code d i (cell errs i)]> errs)
                  (len + (Z.b2z (high_set d i) + Z.b2z (low_set d i)))
                  ltac:(lia) ltac:(lia) ltac:(rewrite length_insert; exact Hlen)).
    destruct IH as (IHlen & IHcount & IHcell).
    split; [exact IHlen|]. split; [rewrite IHcount; lia|].
    intros j Hj. rewrite (IHcell j Hj). unfold ErrLen in Hlen.
    destruct (Z.eq_dec j i) as [->|Hne].
    + rewrite cell_insert_eq by lia.
      destruct (i + 1 <=? i) eqn:E1; [lia|]. cbn [andb].
      destruct (i <=? i) eqn:E2; [|lia].
      destruct (i <? i + Z.of_nat (S n)) eqn:E3; [|lia]. reflexivity.
    + rewrite cell_insert_ne by lia.
      destruct (i + 1 <=? j) eqn:E1; destruct (j <? i + 1 + Z.of_nat n) eqn:E2;
        destruct (i <=? j) eqn:E3; destruct (j <? i + Z.of_nat (S n)) eqn:E4;
        cbn [andb]; try reflexivity; lia.
Qed.

Lemma sendcmd_keeps_dtc (s : ECUData) (ecmd : EcuCmd) (w : world) ok s' c' w' :
  is_byte (rxlen ecmd) ->
  sendcmd s ecmd w = Ret (ok, s', c', w') ->
  dtcErrs s' = dtcErrs s /\ dtcLen s' = dtcLen s.
Proof.
  intros Hrx H.
  apply sendcmd_Ret in H as (buf & ps & _ & _ & _ & _ & Hs); [|exact Hrx].
  destruct ok.
  - subst s'. split; reflexivity.
  - apply log_err_Ret in Hs as [_ ->]. split; reflexivity.
Qed.

Lemma dtc_cmd_byte : is_byte (rxlen dtc_cmd).
Proof. unfold is_byte. cbn. lia. Qed.

(** X6.  When its transaction succeeds, [scanDtc] succeeds, whatever the
    payload, also with no nibble set.  [dtcLen] is then the number of
    nibbles set in the 14 payload bytes, between 0 and 28, so it can
    exceed the 14 cells of [dtcErrs]; cell [i] of [dtcErrs] holds the odd
    code of byte [i] if its low nibble is set (22 for byte 11), else the
    even code if its high nibble is set, else what it held before the
    scan; no cell outside the array is written. *)
Theorem scanDtc_cells (s : ECUData) (w : world) s1 c1 w1 :
  length (dtcErrs s) = ErrLen ->
  sendcmd (set_dtcLen 0 s) dtc_cmd w = Ret (true, s1, c1, w1) ->
  exists errs,
    scanDtc s w
    = Ret (true, set_dtcLen (nibbles_set (dlcData s1) 14 0) (set_dtcErrs errs s1), w1)
    /\ length errs = ErrLen
    /\ 0 <= nibbles_set (dlcData s1) 14 0 <= 28
    /\ forall i, 0 <= i < 14 ->
         cell errs i = stored_code (dlcData s1) i (cell (dtcErrs s) i).
Proof.
  intros Hlen Hsend.
  destruct (sendcmd_keeps_dtc _ _ _ _ _ _ _ dtc_cmd_byte Hsend) as [Herrs Hcount].
  cbn [dtcErrs dtcLen set_dtcLen] in Herrs, Hcount.
  destruct (scan_loop_cells (dlcData s1) 14 0 (dtcErrs s1) (dtcLen s1)
              ltac:(lia) ltac:(lia) ltac:(rewrite Herrs; exact Hlen))
    as (Hl & Hc & Hcells).
  exists (fst (scan_loop (dlcData s1) 14 0 (dtcErrs s1, dtcLen s1))).
  split; [|split; [exact Hl|split]].
  - unfold scanDtc. rewrite Hsend. cbn [mbind outcome_bind negb].
    rewrite (surjective_pairing (scan_loop _ _ _ _)).
    rewrite Hc, Hcount, Z.add_0_l. reflexivity.
  - apply (nibbles_set_bounds (dlcData s1) 14 0).
  - intros i Hi. rewrite (Hcells i Hi), Herrs.
    destruct (0 <=? i) eqn:E1; [|lia]. destruct (i <? 0 + Z.of_nat 14) eqn:E2; [|lia].
    reflexivity.
Qed.

Lemma scanDtc_cells_witness :
  exists s' w',
    scanDtc ecu0 (answering (good_reply (replicate 14 0xFF ++ [0; 0]))) = Ret (true, s', w')
    /\ dtcLen s' = 28
    /\ length (dtcErrs s') = ErrLen.
Proof.
  match eval vm_compute in
        (sendcmd (set_dtcLen 0 ecu0) dtc_cmd
           (answering (good_reply (replicate 14 0xFF ++ [0; 0])))) with
  | Ret (true, ?s1, ?c1, ?w1) =>
      assert (H : sendcmd (set_dtcLen 0 ecu0) dtc_cmd
                    (answering (good_reply (replicate 14 0xFF ++ [0; 0])))
                  = Ret (true, s1, c1, w1)) by (vm_compute; reflexivity);
      destruct (scanDtc_cells ecu0 _ s1 c1 w1 eq_refl H) as (errs & Hrun & Hl & _ & _);
      eexists _, _; split; [exact Hrun|]; split; [vm_compute; reflexivity | exact Hl]
  end.
Defined.

(** X7.  When its transaction fails, [scanDtc] fails and leaves an empty
    list behind: [dtcLen] is 0 (it is cleared before the transaction) and
    the cells of [dtcErrs] are those of the scan before. *)
Theorem scanDtc_failure (s : ECUData) (w : world) s1 c1 w1 :
  sendcmd (set_dtcLen 0 s) dtc_cmd w = Ret (false, s1, c1, w1) ->
  scanDtc s w = Ret (false, s1, w1)
  /\ dtcLen s1 = 0
  /\ dtcErrs s1 = dtcErrs s
  /\ dtc_list s1 = [].
Proof.
  intros Hsend.
  destruct (sendcmd_keeps_dtc _ _ _ _ _ _ _ dtc_cmd_byte Hsend) as [Herrs Hcount].
  cbn [dtcErrs dtcLen set_dtcLen] in Herrs, Hcount.
  split; [|split; [exact Hcount|split; [exact Herrs|]]].
  - unfold scanDtc. rewrite Hsend. reflexivity.
  - unfold dtc_list. rewrite Hcount. reflexivity.
Qed.

Lemma scanDtc_failure_witness :
  exists s' w',
    scanDtc (set_dtcLen 3 ecu0) (answering garbled) = Ret (false, s', w')
    /\ dtcLen s' = 0.
Proof.
  match eval vm_compute in
        (sendcmd (set_dtcLen 0 (set_dtcLen 3 ecu0)) dtc_cmd (answering garbled)) with
  | Ret (false, ?s1, ?c1, ?w1) =>
      assert (H : sendcmd (set_dtcLen 0 (set_dtcLen 3 ecu0)) dtc_cmd (answering garbled)
                  = Ret (false, s1, c1, w1)) by (vm_compute; reflexivity);
      destruct (scanDtc_failure (set_dtcLen 3 ecu0) _ s1 c1 w1 H) as (Hrun & Hz & _);
      exists s1, w1; split; [exact Hrun | exact Hz]
  end.
Defined.

(** ** A whole read of the live data *)

Lemma row0_fields_inv (s s' : ECUData) :
  row0_fields s' = row0_fields s ->
  rpm s' = rpm s /\ vss s' = vss s /\ sw_aircon s' = sw_aircon s
  /\ sw_brake s' = sw_brake s /\ sw_starter s' = sw_starter s
  /\ sw_vtec s' = sw_vtec s /\ main_relay s' = main_relay s /\ cel s' = cel s.
Proof. unfold row0_fields. intros H. injection H as -> -> -> -> -> -> -> ->. repeat split. Qed.

Lemma row1_fields_inv (s s' : ECUData) :
  row1_fields s' = row1_fields s ->
  ect s' = ect s /\ iat s' = iat s /\ maps s' = maps s /\ baro s' = baro s
  /\ tps s' = tps s /\ o2 s' = o2 s /\ volt s' = volt s
  /\ alt_fr s' = alt_fr s /\ eld s' = eld s.
Proof. unfold row1_fields. intros H. injection H as -> -> -> -> -> -> -> -> ->. repeat split. Qed.

Lemma row2_fields_inv (s s' : ECUData) :
  row2_fields s' = row2_fields s ->
  sft s' = sft s /\ lft s' = lft s /\ inj s' = inj s /\ ign s' = ign s
  /\ lmt s' = lmt s /\ iacv s' = iacv s.
Proof. unfold row2_fields. intros H. injection H as -> -> -> -> -> ->. repeat split. Qed.

(** The polynomial of [cnvt_tmp], cut to an [int], stays between -143 and
    55 over the bytes. *)
Lemma cnvt_tmp_range (b : Z) :
  is_byte b -> -143 <= FP.to_int (cnvt_tmp (FP.of_int32 b)) <= 55.
Proof.
  intros Hb.
  assert (Hall : upto (fun b => let t := FP.to_int (cnvt_tmp (FP.of_int32 b)) in
                                (-143 <=? t) && (t <=? 55)) 256 0 = true)
    by (vm_compute; reflexivity).
  pose proof (upto_spec _ _ _ Hall b Hb) as H. cbv beta zeta in H.
  apply andb_prop in H as [H1 H2]. lia.
Qed.

Lemma conv_kpa_range (b : Z) :
  is_byte b -> -5 <= FP.to_int (conv_kpa b) <= 177.
Proof.
  intros Hb.
  assert (Hall : upto (fun b => let t := FP.to_int (conv_kpa b) in
                                (-5 <=? t) && (t <=? 177)) 256 0 = true)
    by (vm_compute; reflexivity).
  pose proof (upto_spec _ _ _ Hall b Hb) as H. cbv beta zeta in H.
  apply andb_prop in H as [H1 H2]. lia.
Qed.

Lemma derive_maf_defined (s : ECUData) :
  iat s + 273 <> 0 -> derive_maf s = Ret (set_maf 0 s).
Proof.
  intros H. unfold derive_maf.
  destruct (Z.eqb_spec (iat s + 273) 0) as [E|_]; [contradiction|].
  change (Z.quot 80 100) with 0. rewrite Z.mul_0_r. reflexivity.
Qed.

(** The success path of [readLiveData], transaction by transaction. *)
Lemma readLiveData_true_inv (s : ECUData) (w : world) s' w' :
  readLiveData s w = Ret (true, s', w') ->
  exists s1 c1 w1 s2 c2 w2 s3 c3 w3 s4 c4,
    sendcmd s (row_cmd HOBD_OFF_RPM) w = Ret (true, s1, c1, w1)
    /\ sendcmd (decode_row0 s1) (row_cmd HOBD_OFF_ECT) (delay 1 w1) = Ret (true, s2, c2, w2)
    /\ sendcmd (decode_row1 s2) (row_cmd 0x20) (delay 1 w2) = Ret (true, s3, c3, w3)
    /\ sendcmd (decode_row2 s3) (row_cmd 0x30) (delay 1 w3) = Ret (true, s4, c4, w')
    /\ derive_maf (decode_row3 s4) = Ret s'.
Proof.
  unfold readLiveData.
  transaction ok1 s1 c1 w1 H1; [|discriminate].
  transaction ok2 s2 c2 w2 H2; [|discriminate].
  transaction ok3 s3 c3 w3 H3; [|discriminate].
  transaction ok4 s4 c4 w4 H4; [|discriminate].
  destruct (derive_maf (decode_row3 s4)) as [s5| |] eqn:Hmaf;
    cbn [mbind outcome_bind]; try discriminate.
  intros H. injection H as <- <-.
  exists s1, c1, w1, s2, c2, w2, s3, c3, w3, s4, c4. repeat split; assumption.
Qed.

Lemma reply_cell_byte (s : ECUData) (ecmd : EcuCmd) (w : world) ok s' c' w' (i : Z) :
  is_byte (rxlen ecmd) ->
  sendcmd s ecmd w = Ret (ok, s', c', w') ->
  0 <= i < 20 ->
  is_byte (cell (dlcData s') i).
Proof.
  intros Hrx H Hi.
  apply sendcmd_frame in H as (_ & _ & _ & _ & _ & _ & _ & Hb & Hl & _); [|exact Hrx].
  apply cell_byte; [exact Hb|]. rewrite Hl. unfold DataLen. lia.
Qed.

(** X8.  When the four transactions succeed, [readLiveData] returns true:
    the division by [iat + 273] is always defined, because the decoded
    intake temperature lies between -143 and 55; and the derived [maf] is
    0 on every input, since its factor [80 / 100] is an integer quotient. *)
Theorem readLiveData_success (s : ECUData) (w : world)
    s1 c1 w1 s2 c2 w2 s3 c3 w3 s4 c4 w4 :
  sendcmd s (row_cmd HOBD_OFF_RPM) w = Ret (true, s1, c1, w1) ->
  sendcmd (decode_row0 s1) (row_cmd HOBD_OFF_ECT) (delay 1 w1) = Ret (true, s2, c2, w2) ->
  sendcmd (decode_row1 s2) (row_cmd 0x20) (delay 1 w2) = Ret (true, s3, c3, w3) ->
  sendcmd (decode_row2 s3) (row_cmd 0x30) (delay 1 w3) = Ret (true, s4, c4, w4) ->
  readLiveData s w = Ret (true, set_maf 0 (decode_row3 s4), w4)
  /\ -143 <= iat (decode_row3 s4) <= 55
  /\ wire w4 = wire w ++ frame_events (row_cmd HOBD_OFF_RPM)
               ++ Delay 1 :: frame_events (row_cmd HOBD_OFF_ECT)
               ++ Delay 1 :: frame_events (row_cmd 0x20)
               ++ Delay 1 :: frame_events (row_cmd 0x30).
Proof.
  intros H1 H2 H3 H4.
  pose proof (reply_cell_byte _ _ _ _ _ _ _ 3 (row_cmd_byte _) H2 ltac:(lia)) as Hb.
  pose proof (sendcmd_frame _ _ _ _ _ _ _ (row_cmd_byte _) H1)
    as (_ & _ & _ & _ & _ & _ & Fw & _).
  pose proof (sendcmd_frame _ _ _ _ _ _ _ (row_cmd_byte _) H2)
    as (_ & _ & _ & _ & _ & _ & Gw & _).
  pose proof (sendcmd_frame _ _ _ _ _ _ _ (row_cmd_byte _) H3)
    as (_ & K1 & _ & _ & _ & _ & Kw & _).
  pose proof (sendcmd_frame _ _ _ _ _ _ _ (row_cmd_byte _) H4)
    as (_ & L1 & _ & _ & _ & _ & Lw & _).
  destruct (decode_row2_frame s3) as (_ & J1 & _).
  assert (Hiat : iat (decode_row3 s4) = iat (decode_row1 s2)).
  { change (iat (decode_row3 s4)) with (iat s4).
    apply row1_fields_inv in L1 as (_ & -> & _).
    apply row1_fields_inv in J1 as (_ & -> & _).
    apply row1_fields_inv in K1 as (_ & -> & _). reflexivity. }
  assert (Hrange : -143 <= iat (decode_row3 s4) <= 55).
  { rewrite Hiat. apply (cnvt_tmp_range _ Hb). }
  split; [|split; [exact Hrange|]].
  - unfold readLiveData. rewrite H1. cbn [mbind outcome_bind negb].
    rewrite H2. cbn [mbind outcome_bind negb].
    rewrite H3. cbn [mbind outcome_bind negb].
    rewrite H4. cbn [mbind outcome_bind negb].
    rewrite derive_maf_defined by lia. reflexivity.
  - unfold delay, emit in Gw, Kw, Lw. cbn [wire] in Gw, Kw, Lw.
    rewrite Lw, Kw, Gw, Fw. rewrite <- !app_assoc. reflexivity.
Qed.

Lemma readLiveData_success_witness :
  exists s' w',
    readLiveData ecu0 live_link = Ret (true, s', w') /\ maf s' = 0 /\ iat s' = -55.
Proof.
  match eval vm_compute in (sendcmd ecu0 (row_cmd HOBD_OFF_RPM) live_link) with
  | Ret (true, ?s1, ?c1, ?w1) =>
    assert (H1 : sendcmd ecu0 (row_cmd HOBD_OFF_RPM) live_link = Ret (true, s1, c1, w1))
      by (vm_compute; reflexivity);
    match eval vm_compute in
          (sendcmd (decode_row0 s1) (row_cmd HOBD_OFF_ECT) (delay 1 w1)) with
    | Ret (true, ?s2, ?c2, ?w2) =>
      assert (H2 : sendcmd (decode_row0 s1) (row_cmd HOBD_OFF_ECT) (delay 1 w1)
                   = Ret (true, s2, c2, w2)) by (vm_compute; reflexivity);
      match eval vm_compute in
            (sendcmd (decode_row1 s2) (row_cmd 0x20) (delay 1 w2)) with
      | Ret (true, ?s3, ?c3, ?w3) =>
        assert (H3 : sendcmd (decode_row1 s2) (row_cmd 0x20) (delay 1 w2)
                     = Ret (true, s3, c3, w3)) by (vm_compute; reflexivity);
        match eval vm_compute in
              (sendcmd (decode_row2 s3) (row_cmd 0x30) (delay 1 w3)) with
        | Ret (true, ?s4, ?c4, ?w4) =>
          assert (H4 : sendcmd (decode_row2 s3) (row_cmd 0x30) (delay 1 w3)
                       = Ret (true, s4, c4, w4)) by (vm_compute; reflexivity);
          destruct (readLiveData_success ecu0 live_link _ _ _ _ _ _ _ _ _ _ _ _
                      H1 H2 H3 H4) as (Hrun & _ & _);
          eexists _, _; split; [exact Hrun|]; split; vm_compute; reflexivity
        end
      end
    end
  end.
Defined.

(** ** The ranges of the decoded values *)

Lemma byte_formula_range (f : Z -> Z) (lo hi : Z) :
  upto (fun b => (lo <=? f b) && (f b <=? hi)) 256 0 = true ->
  forall b, is_byte b -> lo <= f b <= hi.
Proof.
  intros Hall b Hb.
  pose proof (upto_spec _ _ _ Hall b Hb) as H. cbv beta in H.
  apply andb_prop in H as [H1 H2]. lia.
Qed.

Lemma decode_row0_rpm (s : ECUData) :
  rpm (decode_row0 s)
  = Z.max 0 (if obd_sel s =? 1
             then rpm_obd1 (rx_u16 (dlcData s) (RPL_OFFSET + HOBD_OFF_RPM))
             else rpm s).
Proof.
  unfold decode_row0. destruct (obd_sel s =? 1).
  - set (x := rpm_obd1 _). change (rpm (set_rpm x s)) with x.
    destruct (x <? 0) eqn:E.
    + transitivity 0; [reflexivity | lia].
    + transitivity x; [reflexivity | lia].
  - destruct (rpm s <? 0) eqn:E.
    + transitivity 0; [reflexivity | lia].
    + transitivity (rpm s); [reflexivity | lia].
Qed.

(** X9.  After a successful [readLiveData] every decoded member lies in a
    fixed range, whatever bytes the ECU sent: the RPM is never negative
    (between 28 and 1875000 when [obd_sel = 1]), the temperatures lie
    between -143 and 55, the pressures between -5 and 177, the throttle
    position between -12 and 115, the fuel trims between -100 and 99, the
    ignition and limiter values between -6 and 57, the idle valve duty
    between 0 and 100, the knock value between 0 and 5, and [maf] is 0. *)
Theorem readLiveData_ranges (s : ECUData) (w : world) s' w' :
  readLiveData s w = Ret (true, s', w') ->
  0 <= rpm s'
  /\ (obd_sel s = 1 -> 28 <= rpm s' <= 1875000)
  /\ is_byte (vss s')
  /\ -143 <= ect s' <= 55 /\ -143 <= iat s' <= 55
  /\ -5 <= maps s' <= 177 /\ -5 <= baro s' <= 177
  /\ -12 <= tps s' <= 115
  /\ -100 <= sft s' <= 99 /\ -100 <= lft s' <= 99
  /\ -6 <= ign s' <= 57 /\ -6 <= lmt s' <= 57
  /\ 0 <= iacv s' <= 100
  /\ 0 <= knoc s' <= 5
  /\ maf s' = 0.
Proof.
  intros Hrun.
  destruct (readLiveData_true_inv _ _ _ _ Hrun)
    as (s1 & c1 & w1 & s2 & c2 & w2 & s3 & c3 & w3 & s4 & c4 & H1 & H2 & H3 & H4 & Hmaf).
  pose proof (readLiveData_row0_kept _ _ _ _ _ _ _ _ H1 Hrun) as K0.
  pose proof (readLiveData_row1_kept _ _ _ _ _ _ _ _ _ _ _ H1 H2 Hrun) as K1.
  apply row0_fields_inv in K0 as (Erpm & Evss & _).
  apply row1_fields_inv in K1 as (Eect & Eiat & Emaps & Ebaro & Etps & _).
  destruct (derive_maf_frame _ _ Hmaf) as (_ & _ & M2 & M3).
  pose proof (sendcmd_frame _ _ _ _ _ _ _ (row_cmd_byte _) H4) as (_ & _ & L2 & _).
  pose proof (sendcmd_frame _ _ _ _ _ _ _ (row_cmd_byte _) H1)
    as (_ & _ & _ & _ & _ & Hsel & _).
  assert (K2 : row2_fields s' = row2_fields (decode_row2 s3)).
  { rewrite M2. destruct (decode_row3_frame s4) as (_ & _ & -> & _). exact L2. }
  apply row2_fields_inv in K2 as (Esft & Elft & _ & Eign & Elmt & Eiacv).
  assert (Eknoc : knoc s' = Z.quot (cell (dlcData s4) 14) 51)
    by (unfold row3_fields in M3; rewrite M3; reflexivity).
  assert (B1 : forall i, 0 <= i < 20 -> is_byte (cell (dlcData s1) i))
    by (intros i Hi; exact (reply_cell_byte _ _ _ _ _ _ _ i (row_cmd_byte _) H1 Hi)).
  assert (B2 : forall i, 0 <= i < 20 -> is_byte (cell (dlcData s2) i))
    by (intros i Hi; exact (reply_cell_byte _ _ _ _ _ _ _ i (row_cmd_byte _) H2 Hi)).
  assert (B3 : forall i, 0 <= i < 20 -> is_byte (cell (dlcData s3) i))
    by (intros i Hi; exact (reply_cell_byte _ _ _ _ _ _ _ i (row_cmd_byte _) H3 Hi)).
  assert (B4 : forall i, 0 <= i < 20 -> is_byte (cell (dlcData s4) i))
    by (intros i Hi; exact (reply_cell_byte _ _ _ _ _ _ _ i (row_cmd_byte _) H4 Hi)).
  rewrite Erpm, Evss, Eect, Eiat, Emaps, Ebaro, Etps, Esft, Elft, Eign, Elmt, Eiacv, Eknoc.
  rewrite (derive_maf_zero _ _ Hmaf).
  rewrite decode_row0_rpm, Hsel.
  assert (Hraw : 0 <= rx_u16 (dlcData s1) (RPL_OFFSET + HOBD_OFF_RPM) < 65536).
  { rewrite rx_u16_bytes by (apply B1; vm_compute; intuition discriminate).
    pose proof (B1 (RPL_OFFSET + HOBD_OFF_RPM) ltac:(vm_compute; intuition discriminate)) as Ha.
    pose proof (B1 (RPL_OFFSET + HOBD_OFF_RPM + 1) ltac:(vm_compute; intuition discriminate)) as Hb.
    unfold is_byte in Ha, Hb. lia. }
  split; [lia|]. split.
  { intros ->. cbn [Z.eqb Pos.eqb]. rewrite rpm_obd1_quotient by exact Hraw.
    assert (28 <= 1875000 / (rx_u16 (dlcData s1) (RPL_OFFSET + HOBD_OFF_RPM) + 1))
      by (apply Z.div_le_lower_bound; lia).
    assert (1875000 / (rx_u16 (dlcData s1) (RPL_OFFSET + HOBD_OFF_RPM) + 1) <= 1875000)
      by (apply Z.div_le_upper_bound; lia).
    lia. }
  split; [apply (B1 4); lia|].
  split; [apply cnvt_tmp_range, (B2 2); lia|].
  split; [apply cnvt_tmp_range, (B2 3); lia|].
  split; [apply conv_kpa_range, (B2 4); lia|].
  split; [apply conv_kpa_range, (B2 5); lia|].
  split.
  { apply (byte_formula_range (fun b => Z.quot (b - 24) 2) (-12) 115);
      [vm_compute; reflexivity | apply (B2 6); lia]. }
  split.
  { apply (byte_formula_range
             (fun raw => FP.to_int (FP.mul32 (FP.sub32 (FP.div32 (FP.of_int32 raw)
                            (FP.lit32 128.0)) (FP.lit32 1.0)) (FP.lit32 100.0))) (-100) 99);
      [vm_compute; reflexivity | apply (B3 2); lia]. }
  split.
  { apply (byte_formula_range
             (fun raw => FP.to_int (FP.mul32 (FP.sub32 (FP.div32 (FP.of_int32 raw)
                            (FP.lit32 128.0)) (FP.lit32 1.0)) (FP.lit32 100.0))) (-100) 99);
      [vm_compute; reflexivity | apply (B3 3); lia]. }
  split.
  { apply (byte_formula_range
             (fun raw => FP.to_int (FP.div32 (FP.sub32 (FP.of_int32 raw) (FP.of_int32 24))
                                      (FP.of_int32 4))) (-6) 57);
      [vm_compute; reflexivity | apply (B3 8); lia]. }
  split.
  { apply (byte_formula_range
             (fun raw => FP.to_int (FP.div32 (FP.sub32 (FP.of_int32 raw) (FP.of_int32 24))
                                      (FP.of_int32 4))) (-6) 57);
      [vm_compute; reflexivity | apply (B3 9); lia]. }
  split.
  { apply (byte_formula_range
             (fun raw => FP.to_int (FP.div32 (FP.of_int32 raw) (FP.lit32 2.55))) 0 100);
      [vm_compute; reflexivity | apply (B3 10); lia]. }
  split; [|reflexivity].
  apply (byte_formula_range (fun b => Z.quot b 51) 0 5);
    [vm_compute; reflexivity | apply (B4 14); lia].
Qed.

Lemma readLiveData_ranges_witness :
  exists s' w',
    readLiveData ecu0 live_link = Ret (true, s', w') /\ 28 <= rpm s' <= 1875000.
Proof.
  match eval vm_compute in (readLiveData ecu0 live_link) with
  | Ret (true, ?s1, ?w1) =>
      assert (H : readLiveData ecu0 live_link = Ret (true, s1, w1))
        by (vm_compute; reflexivity);
      destruct (readLiveData_ranges _ _ _ _ H) as (_ & Hrpm & _);
      exists s1, w1; split; [exact H | exact (Hrpm eq_refl)]
  end.
Defined.

(** ** Single precision on integers *)

Lemma rne_1 (x : Z) : FP.rne x 1 = x.
Proof.
  unfold FP.rne. rewrite Z.div_1_r, Z.mod_1_r. reflexivity.
Qed.

Lemma Qred_scaled (a p : Z) : 0 < p -> Qred (Qmake (a * p) (Z.to_pos p)) = inject_Z a.
Proof.
  intros Hp.
  transitivity (Qred (inject_Z a)).
  - apply Qred_complete. unfold Qeq, inject_Z. cbn [Qnum Qden].
    rewrite Z2Pos.id by exact Hp. lia.
  - apply Qcanon.Qred_identity. cbn [Qnum Qden inject_Z]. apply Z.gcd_1_r.
Qed.

Lemma ilog2_int (a : Z) : 0 < a -> FP.ilog2 a 1 = Z.log2 a.
Proof.
  intros Ha. unfold FP.ilog2. change (Z.log2 1) with 0. rewrite Z.sub_0_r.
  pose proof (Z.log2_nonneg a) as Hn.
  destruct (0 <=? Z.log2 a) eqn:E; [|lia].
  pose proof (Z.log2_spec a Ha) as [Hlo _].
  destruct (1 * 2 ^ Z.log2 a <=? a) eqn:E2; [reflexivity|lia].
Qed.

Lemma round_nat_exact (a : Z) :
  0 < a < 16777216 ->
  (let e := Z.max (FP.ilog2 a 1 - (FP.prec FP.binary32 - 1)) (FP.emin FP.binary32) in
   let m := if 0 <=? e then FP.rne a (1 * 2 ^ e) else FP.rne (a * 2 ^ (- e)) 1 in
   if 0 <=? e then inject_Z (m * 2 ^ e)
   else Qred (Qmake m (Z.to_pos (2 ^ (- e))))) = inject_Z a.
Proof.
  intros Ha. rewrite ilog2_int by lia. cbn [FP.prec FP.emin FP.binary32].
  assert (HL : 0 <= Z.log2 a < 24).
  { split; [apply Z.log2_nonneg|]. apply Z.log2_lt_pow2; [lia|]. change (2 ^ 24) with 16777216. lia. }
  cbv zeta.
  replace (Z.max (Z.log2 a - (24 - 1)) (-149)) with (Z.log2 a - 23) by lia.
  destruct (0 <=? Z.log2 a - 23) eqn:E.
  - assert (Z.log2 a - 23 = 0) as -> by lia.
    change (2 ^ 0) with 1. rewrite rne_1, Z.mul_1_r. reflexivity.
  - rewrite rne_1. apply Qred_scaled. apply Z.pow_pos_nonneg; lia.
Qed.

Lemma round_int_exact (z : Z) :
  -16777216 < z < 16777216 -> FP.round FP.binary32 (inject_Z z) = inject_Z z.
Proof.
  intros Hz. unfold FP.round. cbn [Qnum Qden inject_Z].
  destruct (Z.eqb_spec z 0) as [->|Hne]; [reflexivity|].
  change (Z.pos 1) with 1.
  pose proof (round_nat_exact (Z.abs z) ltac:(lia)) as Hr.
  cbv zeta in Hr |- *. rewrite Hr.
  destruct (z <? 0) eqn:E.
  - unfold Qopp, inject_Z. cbn [Qnum Qden]. f_equal. lia.
  - f_equal. lia.
Qed.

Lemma of_int32_exact (z : Z) :
  -16777216 < z < 16777216 -> FP.of_int32 z = inject_Z z.
Proof. apply round_int_exact. Qed.

Lemma to_int_inject (z : Z) : FP.to_int (inject_Z z) = z.
Proof. unfold FP.to_int, inject_Z. cbn [Qnum Qden]. apply Z.quot_1_r. Qed.

(** The ten-fold of an [int] member, as [pack_live] computes it. *)
Lemma times_ten_exact (x : Z) :
  -3276 <= x <= 3276 ->
  to_i16 (FP.mul32 (FP.of_int32 x) (FP.lit32 10.0)) = Ret (10 * x).
Proof.
  intros Hx. rewrite of_int32_exact by lia.
  change (FP.lit32 10.0) with (inject_Z 10).
  unfold FP.mul32.
  change (inject_Z x * inject_Z 10)%Q with (inject_Z (x * 10)).
  rewrite round_int_exact by lia.
  unfold to_i16. rewrite to_int_inject.
  destruct (-32768 <=? x * 10) eqn:E1; [|lia].
  destruct (x * 10 <=? 32767) eqn:E2; [|lia].
  cbn [andb]. f_equal. lia.
Qed.

Lemma max_0f_exact (x : Z) :
  -16777216 < x < 16777216 -> max_0f x = inject_Z (Z.max 0 x).
Proof.
  intros Hx. unfold max_0f. rewrite of_int32_exact by exact Hx.
  change (FP.lit32 0.0) with (inject_Z 0).
  unfold Qle_bool, inject_Z. cbn [Qnum Qden].
  destruct (0 * 1 <=? x * 1) eqn:E; cbn [negb]; f_equal; lia.
Qed.

(** ** The live payload *)

Lemma split_u16 (x : Z) :
  0 <= x <= 65535 ->
  is_byte (u8 (Z.shiftr x 8)) /\ is_byte (u8 (Z.land x 0xFF))
  /\ 256 * u8 (Z.shiftr x 8) + u8 (Z.land x 0xFF) = x.
Proof.
  intros Hx. rewrite Z.shiftr_div_pow2 by lia.
  change 255 with (Z.ones 8). rewrite Z.land_ones by lia.
  change (2 ^ 8) with 256. unfold u8, is_byte. rewrite Z.mod_mod by lia.
  repeat split; try (apply Z.mod_pos_bound; lia).
  rewrite (Z.mod_small (x / 256)).
  - pose proof (Z.div_mod x 256 ltac:(lia)). lia.
  - split; [apply Z.div_pos; lia | apply Z.div_lt_upper_bound; lia].
Qed.

Lemma split_i16 (x : Z) :
  -32768 <= x <= 32767 ->
  is_byte (u8 (Z.shiftr x 8)) /\ is_byte (u8 (Z.land x 0xFF))
  /\ sext16 (256 * u8 (Z.shiftr x 8) + u8 (Z.land x 0xFF)) = x.
Proof.
  intros Hx. rewrite Z.shiftr_div_pow2 by lia.
  change 255 with (Z.ones 8). rewrite Z.land_ones by lia.
  change (2 ^ 8) with 256. unfold u8, is_byte, sext16. rewrite Z.mod_mod by lia.
  repeat split; try (apply Z.mod_pos_bound; lia).
  pose proof (Z.div_mod x 256 ltac:(lia)) as Hdm.
  pose proof (Z.mod_pos_bound x 256 ltac:(lia)) as Hm.
  destruct (Z_lt_le_dec x 0) as [Hneg|Hpos].
  - assert (Hq : -128 <= x / 256 < 0)
      by (split; [apply Z.div_le_lower_bound; lia | apply Z.div_lt_upper_bound; lia]).
    replace ((x / 256) mod 256) with (x / 256 + 256)
      by (symmetry; rewrite <- (Z.mod_add _ 1) by lia;
          apply Z.mod_small; lia).
    destruct (256 * (x / 256 + 256) + x mod 256 <? 32768) eqn:E; lia.
  - assert (Hq : 0 <= x / 256 < 128)
      by (split; [apply Z.div_pos; lia | apply Z.div_lt_upper_bound; lia]).
    rewrite (Z.mod_small (x / 256)) by lia.
    destruct (256 * (x / 256) + x mod 256 <? 32768) eqn:E; lia.
Qed.

Lemma to_u16_Ret (x : Q) (z : Z) : to_u16 x = Ret z -> 0 <= z <= 65535.
Proof.
  unfold to_u16. intros H.
  destruct ((0 <=? FP.to_int x) && (FP.to_int x <=? 65535)) eqn:E; [|discriminate].
  injection H as <-. apply andb_prop in E as [E1 E2]. lia.
Qed.

Lemma to_u16_rpm (x : Z) :
  -16777216 < x < 16777216 ->
  to_u16 (max_0f x) = if x <=? 65535 then Ret (Z.max 0 x) else Fault.
Proof.
  intros Hx. rewrite max_0f_exact by lia. unfold to_u16. rewrite to_int_inject.
  destruct (0 <=? Z.max 0 x) eqn:E1; [|lia].
  destruct (Z.max 0 x <=? 65535) eqn:E2; destruct (x <=? 65535) eqn:E3;
    try reflexivity; lia.
Qed.

(** The sixteen bytes that [pack_live] stores, cell by cell. *)
Lemma pack_live_bytes (q : list Z) (e : ECUData) (batt o2mv : Z) :
  length q = 16%nat ->
  -16777216 < rpm e <= 65535 ->
  -3276 <= ect e <= 3276 -> -3276 <= iat e <= 3276 ->
  -3276 <= maps e <= 3276 -> -3276 <= tps e <= 3276 ->
  to_u16 (FP.mul32 (volt e) (FP.lit32 100.0)) = Ret batt ->
  to_u16 (FP.mul32 (o2 e) (FP.lit32 1000.0)) = Ret o2mv ->
  pack_live q e
  = Ret [u8 (Z.shiftr (Z.max 0 (rpm e)) 8); u8 (Z.land (Z.max 0 (rpm e)) 0xFF); vss e;
         u8 (Z.shiftr (10 * ect e) 8); u8 (Z.land (10 * ect e) 0xFF);
         u8 (Z.shiftr (10 * iat e) 8); u8 (Z.land (10 * iat e) 0xFF);
         u8 (Z.shiftr (10 * maps e) 8); u8 (Z.land (10 * maps e) 0xFF);
         u8 (Z.shiftr (10 * tps e) 8); u8 (Z.land (10 * tps e) 0xFF);
         u8 (Z.shiftr batt 8); u8 (Z.land batt 0xFF);
         u8 (Z.shiftr o2mv 8); u8 (Z.land o2mv 0xFF); live_flags e].
Proof.
  intros Hq Hrpm Hect Hiat Hmaps Htps Hbatt Ho2. unfold pack_live.
  rewrite to_u16_rpm by lia.
  destruct (rpm e <=? 65535) eqn:E; [|lia].
  rewrite !times_ten_exact, Hbatt, Ho2 by assumption.
  cbn [mbind outcome_bind]. fold (live_flags e).
  do 17 (destruct q as [|? q]; try discriminate). reflexivity.
Qed.

(** X10.  For a snapshot inside the ranges of the wire format (RPM up to
    65535, temperatures, pressure and throttle up to 3276 in size, voltage
    and O2 values whose scaled value fits 16 bits), [pack_live] fills all
    16 cells with bytes, whatever they held before, and every packed
    member can be read back: RPM and the scaled voltages as big-endian
    words, the ten-fold temperatures, pressure and throttle as big-endian
    two's complement words, the speed as it is, and the A/C, brake, VTEC
    and CEL flags as bits 0 to 3 of the last byte, whose other bits are 0;
    a negative RPM is packed as 0. *)
Theorem pack_live_round_trip (p : list Z) (e : ECUData) (batt o2mv : Z) :
  length p = 16%nat ->
  -16777216 < rpm e <= 65535 ->
  is_byte (vss e) ->
  -3276 <= ect e <= 3276 -> -3276 <= iat e <= 3276 ->
  -3276 <= maps e <= 3276 -> -3276 <= tps e <= 3276 ->
  to_u16 (FP.mul32 (volt e) (FP.lit32 100.0)) = Ret batt ->
  to_u16 (FP.mul32 (o2 e) (FP.lit32 1000.0)) = Ret o2mv ->
  exists out,
    pack_live p e = Ret out
    /\ (forall p', length p' = 16%nat -> pack_live p' e = Ret out)
    /\ length out = 16%nat
    /\ Forall is_byte out
    /\ 256 * cell out 0 + cell out 1 = Z.max 0 (rpm e)
    /\ cell out 2 = vss e
    /\ sext16 (256 * cell out 3 + cell out 4) = 10 * ect e
    /\ sext16 (256 * cell out 5 + cell out 6) = 10 * iat e
    /\ sext16 (256 * cell out 7 + cell out 8) = 10 * maps e
    /\ sext16 (256 * cell out 9 + cell out 10) = 10 * tps e
    /\ 256 * cell out 11 + cell out 12 = batt
    /\ 256 * cell out 13 + cell out 14 = o2mv
    /\ Z.testbit (cell out 15) 0 = sw_aircon e
    /\ Z.testbit (cell out 15) 1 = sw_brake e
    /\ Z.testbit (cell out 15) 2 = sw_vtec e
    /\ Z.testbit (cell out 15) 3 = cel e
    /\ 0 <= cell out 15 < 16.
Proof.
  intros Hp Hrpm Hvss Hect Hiat Hmaps Htps Hbatt Ho2.
  pose proof (to_u16_Ret _ _ Hbatt) as Hbr.
  pose proof (to_u16_Ret _ _ Ho2) as Hor.
  assert (Hpack : forall q, length q = 16%nat -> pack_live q e = Ret _)
    by (intros q Hq; exact (pack_live_bytes q e batt o2mv Hq Hrpm Hect Hiat Hmaps Htps Hbatt Ho2)).
  eexists. split; [apply Hpack; exact Hp|]. split; [exact Hpack|].
  split; [reflexivity|].
  destruct (split_u16 (Z.max 0 (rpm e)) ltac:(lia)) as (R1 & R2 & R3).
  destruct (split_i16 (10 * ect e) ltac:(lia)) as (E1 & E2 & E3).
  destruct (split_i16 (10 * iat e) ltac:(lia)) as (I1 & I2 & I3).
  destruct (split_i16 (10 * maps e) ltac:(lia)) as (M1 & M2 & M3).
  destruct (split_i16 (10 * tps e) ltac:(lia)) as (T1 & T2 & T3).
  destruct (split_u16 batt Hbr) as (B1 & B2 & B3).
  destruct (split_u16 o2mv Hor) as (O1 & O2 & O3).
  assert (Hflags : is_byte (live_flags e)) by apply u8_range.
  split; [repeat (apply List.Forall_cons; [assumption|]); apply List.Forall_nil|].
  unfold cell. cbn [Z.to_nat Pos.to_nat Pos.iter_op Nat.add lookup_total list_lookup_total].
  split; [exact R3|]. split; [reflexivity|].
  split; [exact E3|]. split; [exact I3|]. split; [exact M3|]. split; [exact T3|].
  split; [exact B3|]. split; [exact O3|].
  unfold live_flags. destruct (sw_aircon e), (sw_brake e), (sw_vtec e), (cel e);
    vm_compute; intuition discriminate.
Qed.

Lemma pack_live_round_trip_witness :
  exists out,
    pack_live (replicate 16 0xEE) (set_tps (-12) (set_ect 55 (set_rpm 1875 ecu0))) = Ret out
    /\ 256 * cell out 0 + cell out 1 = 1875
    /\ sext16 (256 * cell out 9 + cell out 10) = -120.
Proof.
  assert (H1 : -16777216 < 1875 <= 65535) by lia.
  assert (H2 : is_byte 0) by (unfold is_byte; lia).
  assert (H3 : -3276 <= 55 <= 3276) by lia.
  assert (H4 : -3276 <= 0 <= 3276) by lia.
  assert (H5 : -3276 <= -12 <= 3276) by lia.
  destruct (pack_live_round_trip (replicate 16 0xEE)
              (set_tps (-12) (set_ect 55 (set_rpm 1875 ecu0))) 0 0
              eq_refl H1 H2 H3 H4 H4 H5 eq_refl eq_refl)
    as (out & Hpack & _ & _ & _ & Hrpm & _ & _ & _ & _ & Htps & _).
  exists out. split; [exact Hpack|]. split; [exact Hrpm | exact Htps].
Defined.

(** ** Frames on the host link *)

Lemma mkcrc_overread (buf : list Z) (n : nat) :
  forall (i : nat) (acc : Z),
    (i + n <= 255)%nat ->
    (i <= length buf < i + n)%nat ->
    mkcrc_loop buf n (Z.of_nat i) acc = Fault.
Proof.
  induction n as [|n IH]; intros i acc H255 Hlen.
  - lia.
  - cbn [mkcrc_loop].
    destruct (buf !! i) as [b|] eqn:Hb.
    + rewrite (arr_get_lookup _ _ _ Hb). cbn [mbind outcome_bind].
      rewrite (u8_small (Z.of_nat i + 1)) by (unfold is_byte; lia).
      replace (Z.of_nat i + 1) with (Z.of_nat (S i)) by lia.
      apply lookup_lt_Some in Hb. apply IH; lia.
    + unfold arr_get. destruct (0 <=? Z.of_nat i); [|reflexivity].
      rewrite Nat2Z.id, Hb. reflexivity.
Qed.

Lemma sendFrame_inside (out : list Z) (type : Z) (payload : list Z) (len : Z) :
  0 <= len <= 255 ->
  len <= Z.of_nat (length payload) ->
  sendFrame out type payload len
  = Ret (out ++ frame_of type (take (Z.to_nat len) payload)).
Proof.
  intros Hlen Hpay. unfold sendFrame, frame_of.
  rewrite (mkcrc_prefix [SOF1; SOF2; type; len] 4) by (cbn; lia).
  cbn [mbind outcome_bind].
  rewrite (mkcrc_prefix payload len) by lia. cbn [mbind outcome_bind].
  change (take (Z.to_nat 4) [SOF1; SOF2; type; len]) with [SOF1; SOF2; type; len].
  rewrite length_take, Nat.min_l by lia. rewrite Z2Nat.id by lia.
  assert (Hcrc : u8 (Z.land (u8 (u8 (0 + checksum [SOF1; SOF2; type; len])
                                 + checksum (take (Z.to_nat len) payload))) 255)
                 = checksum ([SOF1; SOF2; type; len] ++ take (Z.to_nat len) payload)).
  { rewrite u8_add_l, Z.add_0_l.
    change 255 with (Z.ones 8). rewrite Z.land_ones by lia.
    unfold u8. change (2 ^ 8) with 256. rewrite !Z.mod_mod by lia.
    rewrite !checksum_neg, byte_sum_app. rewrite <- Zplus_mod. f_equal. lia. }
  rewrite Hcrc.
  destruct (Z.eqb_spec len 0) as [->|Hne]; cbn [negb].
  - cbn [Z.to_nat take app]. rewrite <- !app_assoc. reflexivity.
  - rewrite <- !app_assoc. reflexivity.
Qed.

Lemma sendFrame_overread (out : list Z) (type : Z) (payload : list Z) (len : Z) :
  Z.of_nat (length payload) < len <= 255 ->
  sendFrame out type payload len = Fault.
Proof.
  intros Hlen. unfold sendFrame.
  rewrite (mkcrc_prefix [SOF1; SOF2; type; len] 4) by (cbn; lia).
  cbn [mbind outcome_bind]. unfold mkcrc.
  change (mkcrc_loop payload (Z.to_nat len) 0 0)
    with (mkcrc_loop payload (Z.to_nat len) (Z.of_nat 0) 0).
  rewrite mkcrc_overread by lia. reflexivity.
Qed.

Lemma frame_of_sum (type : Z) (payload : list Z) :
  byte_sum (frame_of type payload) mod 256 = 0.
Proof.
  unfold frame_of. cbv zeta. rewrite byte_sum_app.
  unfold byte_sum at 2. cbn [fold_right]. rewrite Z.add_0_r.
  rewrite checksum_neg, Zplus_mod_idemp_r.
  replace (_ + - _) with 0 by lia. reflexivity.
Qed.

(** ** Packing what was read *)

(** What the members packed by [pack_live] hold after a successful read. *)
Lemma readLiveData_packed_members (s : ECUData) (w : world) s' w' :
  obd_sel s = 1 ->
  readLiveData s w = Ret (true, s', w') ->
  28 <= rpm s' <= 1875000
  /\ is_byte (vss s')
  /\ -143 <= ect s' <= 55 /\ -143 <= iat s' <= 55
  /\ -5 <= maps s' <= 177 /\ -12 <= tps s' <= 115
  /\ exists b, is_byte b
       /\ volt s' = FP.div32 (FP.of_int32 b) (FP.lit32 10.45)
       /\ o2 s' = FP.div32 (FP.of_int32 b) (FP.lit32 51.3).
Proof.
  intros Hsel Hrun.
  destruct (readLiveData_true_inv _ _ _ _ Hrun)
    as (s1 & c1 & w1 & s2 & c2 & w2 & s3 & c3 & w3 & s4 & c4 & H1 & H2 & _).
  pose proof (readLiveData_row0_kept _ _ _ _ _ _ _ _ H1 Hrun) as K0.
  pose proof (readLiveData_row1_kept _ _ _ _ _ _ _ _ _ _ _ H1 H2 Hrun) as K1.
  apply row0_fields_inv in K0 as (Erpm & Evss & _).
  apply row1_fields_inv in K1 as (Eect & Eiat & Emaps & _ & Etps & Eo2 & Evolt & _).
  pose proof (sendcmd_frame _ _ _ _ _ _ _ (row_cmd_byte _) H1)
    as (_ & _ & _ & _ & _ & Hsel1 & _).
  assert (B1 : forall i, 0 <= i < 20 -> is_byte (cell (dlcData s1) i))
    by (intros i Hi; exact (reply_cell_byte _ _ _ _ _ _ _ i (row_cmd_byte _) H1 Hi)).
  assert (B2 : forall i, 0 <= i < 20 -> is_byte (cell (dlcData s2) i))
    by (intros i Hi; exact (reply_cell_byte _ _ _ _ _ _ _ i (row_cmd_byte _) H2 Hi)).
  rewrite Erpm, Evss, Eect, Eiat, Emaps, Etps, Eo2, Evolt.
  rewrite decode_row0_rpm, Hsel1, Hsel. cbn [Z.eqb Pos.eqb].
  assert (Hraw : 0 <= rx_u16 (dlcData s1) (RPL_OFFSET + HOBD_OFF_RPM) < 65536).
  { rewrite rx_u16_bytes by (apply B1; vm_compute; intuition discriminate).
    pose proof (B1 (RPL_OFFSET + HOBD_OFF_RPM) ltac:(vm_compute; intuition discriminate)) as Ha.
    pose proof (B1 (RPL_OFFSET + HOBD_OFF_RPM + 1) ltac:(vm_compute; intuition discriminate)) as Hb.
    unfold is_byte in Ha, Hb. lia. }
  rewrite rpm_obd1_quotient by exact Hraw.
  split.
  { assert (28 <= 1875000 / (rx_u16 (dlcData s1) (RPL_OFFSET + HOBD_OFF_RPM) + 1))
      by (apply Z.div_le_lower_bound; lia).
    assert (1875000 / (rx_u16 (dlcData s1) (RPL_OFFSET + HOBD_OFF_RPM) + 1) <= 1875000)
      by (apply Z.div_le_upper_bound; lia).
    lia. }
  split; [apply (B1 4); lia|].
  split; [apply cnvt_tmp_range, (B2 2); lia|].
  split; [apply cnvt_tmp_range, (B2 3); lia|].
  split; [apply conv_kpa_range, (B2 4); lia|].
  split.
  { apply (byte_formula_range (fun b => Z.quot (b - 24) 2) (-12) 115);
      [vm_compute; reflexivity | apply (B2 6); lia]. }
  exists (cell (dlcData s2) 7). split; [apply (B2 7); lia|]. split; reflexivity.
Qed.

Lemma returns_Ret {A} (m : outcome A) : returns m = true -> exists a, m = Ret a.
Proof. destruct m as [a| |]; [eauto | discriminate..]. Qed.

Lemma scaled_voltages_fit (b : Z) :
  is_byte b ->
  exists batt o2mv,
    to_u16 (FP.mul32 (FP.div32 (FP.of_int32 b) (FP.lit32 10.45)) (FP.lit32 100.0)) = Ret batt
    /\ to_u16 (FP.mul32 (FP.div32 (FP.of_int32 b) (FP.lit32 51.3)) (FP.lit32 1000.0)) = Ret o2mv.
Proof.
  intros Hb.
  assert (Hall : upto (fun b =>
      returns (to_u16 (FP.mul32 (FP.div32 (FP.of_int32 b) (FP.lit32 10.45)) (FP.lit32 100.0)))
      && returns (to_u16 (FP.mul32 (FP.div32 (FP.of_int32 b) (FP.lit32 51.3)) (FP.lit32 1000.0))))
      256 0 = true) by (vm_compute; reflexivity).
  pose proof (upto_spec _ _ _ Hall b Hb) as H. cbv beta in H.
  apply andb_prop in H as [H1 H2].
  apply returns_Ret in H1 as [x Hx]. apply returns_Ret in H2 as [y Hy].
  exists x, y. split; assumption.
Qed.

(** X11.  What [readLiveData] decodes (with [obd_sel = 1]) always fits the
    live payload, except the RPM: [pack_live] returns its 16 bytes exactly
    when the RPM is at most 65535; above that the conversion to
    [uint16_t] has no defined result. *)
Theorem pack_live_after_read (s : ECUData) (w : world) s' w' (p : list Z) :
  obd_sel s = 1 ->
  readLiveData s w = Ret (true, s', w') ->
  length p = 16%nat ->
  (rpm s' <= 65535 ->
   exists out,
     pack_live p s' = Ret out /\ length out = 16%nat /\ Forall is_byte out
     /\ 256 * cell out 0 + cell out 1 = rpm s')
  /\ (65535 < rpm s' -> pack_live p s' = Fault).
Proof.
  intros Hsel Hrun Hp.
  destruct (readLiveData_packed_members _ _ _ _ Hsel Hrun)
    as (Hrpm & Hvss & Hect & Hiat & Hmaps & Htps & b & Hb & Hvolt & Ho2).
  destruct (scaled_voltages_fit b Hb) as (batt & o2mv & Hbatt & Ho2mv).
  rewrite <- Hvolt in Hbatt. rewrite <- Ho2 in Ho2mv.
  split.
  - intros Hfit.
    pose proof (pack_live_bytes p s' batt o2mv Hp ltac:(lia)
                  ltac:(lia) ltac:(lia) ltac:(lia) ltac:(lia) Hbatt Ho2mv) as Hpack.
    pose proof (to_u16_Ret _ _ Hbatt) as Hbr.
    pose proof (to_u16_Ret _ _ Ho2mv) as Hor.
    destruct (split_u16 (Z.max 0 (rpm s')) ltac:(lia)) as (R1 & R2 & R3).
    destruct (split_i16 (10 * ect s') ltac:(lia)) as (E1 & E2 & _).
    destruct (split_i16 (10 * iat s') ltac:(lia)) as (I1 & I2 & _).
    destruct (split_i16 (10 * maps s') ltac:(lia)) as (M1 & M2 & _).
    destruct (split_i16 (10 * tps s') ltac:(lia)) as (T1 & T2 & _).
    destruct (split_u16 batt Hbr) as (B1 & B2 & _).
    destruct (split_u16 o2mv Hor) as (O1 & O2 & _).
    assert (Hflags : is_byte (live_flags s')) by apply u8_range.
    eexists. split; [exact Hpack|]. split; [reflexivity|].
    split; [repeat (apply List.Forall_cons; [assumption|]); apply List.Forall_nil|].
    transitivity (Z.max 0 (rpm s')); [exact R3 | lia].
  - intros Hbig. unfold pack_live. rewrite to_u16_rpm by lia.
    destruct (rpm s' <=? 65535) eqn:E; [lia|]. reflexivity.
Qed.

Lemma pack_live_after_read_witness :
  exists s' w' out,
    readLiveData ecu0 live_link = Ret (true, s', w')
    /\ pack_live (replicate 16 0xEE) s' = Ret out
    /\ 256 * cell out 0 + cell out 1 = 1875.
Proof.
  match eval vm_compute in (readLiveData ecu0 live_link) with
  | Ret (true, ?s1, ?w1) =>
      assert (H : readLiveData ecu0 live_link = Ret (true, s1, w1))
        by (vm_compute; reflexivity);
      destruct (pack_live_after_read ecu0 live_link s1 w1 (replicate 16 0xEE)
                  eq_refl H eq_refl) as (Hfit & _);
      destruct (Hfit ltac:(vm_compute; discriminate)) as (out & Hpack & _ & _ & Hword);
      exists s1, w1, out; split; [exact H|]; split; [exact Hpack | exact Hword]
  end.
Defined.

(** ** The dispatcher *)

Lemma sendFrame_Ret_inv (out : list Z) (type : Z) (payload : list Z) (len : Z) out' :
  0 <= len <= 255 ->
  sendFrame out type payload len = Ret out' ->
  len <= Z.of_nat (length payload)
  /\ out' = out ++ frame_of type (take (Z.to_nat len) payload).
Proof.
  intros Hlen H.
  destruct (Z_le_gt_dec len (Z.of_nat (length payload))) as [Hin|Hover].
  - rewrite sendFrame_inside in H by assumption. injection H as <-. split; [exact Hin|reflexivity].
  - rewrite sendFrame_overread in H by lia. discriminate.
Qed.

Lemma sendFrame_one (out : list Z) (type b : Z) :
  sendFrame out type [b] 1 = Ret (out ++ frame_of type [b]).
Proof. rewrite sendFrame_inside by (cbn; lia). reflexivity. Qed.

Lemma copy_dtc_length (errs : list Z) (k : nat) :
  forall (i : Z) (payload : list Z),
    length (copy_dtc k i errs payload) = length payload.
Proof.
  induction k as [|k IH]; intros i payload; [reflexivity|].
  cbn [copy_dtc]. destruct ((i <? cell payload 0) && (i <? Z.of_nat ErrLen)); [|reflexivity].
  rewrite IH, length_insert. reflexivity.
Qed.

Lemma copy_dtc_cell0 (errs : list Z) (k : nat) :
  forall (i : Z) (payload : list Z),
    0 <= i < 256 ->
    cell (copy_dtc k i errs payload) 0 = cell payload 0.
Proof.
  induction k as [|k IH]; intros i payload Hi; [reflexivity|].
  cbn [copy_dtc].
  destruct ((i <? cell payload 0) && (i <? Z.of_nat ErrLen)) eqn:E; [|reflexivity].
  apply andb_prop in E as [_ E]. unfold ErrLen in E.
  rewrite IH by (rewrite u8_small by (unfold is_byte; lia); lia).
  apply cell_insert_ne; lia.
Qed.

(** With at most 14 codes counted, the bytes that are sent are the count
    and as many leading cells of [dtcErrs]. *)
Lemma copy_dtc_sent (errs arr : list Z) (n : Z) :
  length errs = 14%nat -> length arr = 15%nat -> 0 <= n <= 14 ->
  take (Z.to_nat (1 + n)) (copy_dtc ErrLen 0 errs (<[0%nat := n]> arr))
  = n :: take (Z.to_nat n) errs.
Proof.
  intros He Ha Hn.
  do 15 (destruct errs as [|? errs]; try discriminate).
  do 16 (destruct arr as [|? arr]; try discriminate).
  assert (Hk : (Z.to_nat n <= 14)%nat) by lia.
  rewrite <- (Z2Nat.id n) by lia.
  generalize dependent (Z.to_nat n). clear Hn. intros k Hk.
  do 15 (destruct k as [|k]; [reflexivity|]). lia.
Qed.

Lemma length_local_array (n : nat) (junk : list Z) : length (local_array n junk) = n.
Proof.
  unfold local_array. rewrite length_take, length_app, length_replicate. lia.
Qed.

Lemma scanDtc_true_inv (s : ECUData) (w : world) s' w' :
  length (dtcErrs s) = ErrLen ->
  scanDtc s w = Ret (true, s', w') ->
  length (dtcErrs s') = ErrLen /\ 0 <= dtcLen s' <= 28.
Proof.
  intros Hlen. unfold scanDtc.
  destruct (sendcmd (set_dtcLen 0 s) dtc_cmd w) as [[[[ok s1] c1] w1]| |] eqn:Hsend;
    cbn [mbind outcome_bind]; try discriminate.
  destruct ok; cbn [negb]; [|discriminate].
  destruct (sendcmd_keeps_dtc _ _ _ _ _ _ _ dtc_cmd_byte Hsend) as [Herrs Hcount].
  cbn [dtcErrs dtcLen set_dtcLen] in Herrs, Hcount.
  destruct (scan_loop_cells (dlcData s1) 14 0 (dtcErrs s1) (dtcLen s1)
              ltac:(lia) ltac:(lia) ltac:(rewrite Herrs; exact Hlen))
    as (Hl & Hc & _).
  assert (Hb : 0 <= snd (scan_loop (dlcData s1) 14 0 (dtcErrs s1, dtcLen s1)) <= 28)
    by (rewrite Hc, Hcount; pose proof (nibbles_set_bounds (dlcData s1) 14 0); lia).
  rewrite (surjective_pairing (scan_loop _ _ _ _)).
  intros H. injection H as <- <-. split; [exact Hl | exact Hb].
Qed.

(** X12.  With no command waiting, a turn of [loop] changes nothing.  A
    command byte other than 1, 2 and 3 is answered with the ERROR frame of
    code 0xFF and nothing else: the session and the ECU link are as
    before. *)
Theorem loop_unknown_command (junk : list Z) (s : ECUData) (w : world)
    (c : Z) (rest out : list Z) :
  is_byte c -> c <> CMD_GET_LIVE -> c <> CMD_GET_DTC -> c <> CMD_RESET ->
  loop junk s w (mkHost [] out) = Ret (s, w, mkHost [] out)
  /\ loop junk s w (mkHost (c :: rest) out)
     = Ret (s, w, mkHost rest (out ++ [0xAA; 0x55; 0x84; 1; 0xFF; 0x7D])).
Proof.
  intros Hc H1 H2 H3. split; [reflexivity|].
  unfold loop, readCmdFrame. cbn [inbox outbox]. rewrite u8_small by exact Hc.
  destruct (Z.eqb_spec c CMD_GET_LIVE) as [E|_]; [contradiction|].
  destruct (Z.eqb_spec c CMD_GET_DTC) as [E|_]; [contradiction|].
  destruct (Z.eqb_spec c CMD_RESET) as [E|_]; [contradiction|].
  rewrite sendFrame_one. reflexivity.
Qed.

Lemma loop_unknown_command_witness :
  loop [] ecu0 live_link (mkHost [0x7F; 0x01] [])
  = Ret (ecu0, live_link, mkHost [0x01] [0xAA; 0x55; 0x84; 1; 0xFF; 0x7D]).
Proof.
  assert (Hc : is_byte 0x7F) by (vm_compute; intuition discriminate).
  assert (H1 : 0x7F <> CMD_GET_LIVE) by discriminate.
  assert (H2 : 0x7F <> CMD_GET_DTC) by discriminate.
  assert (H3 : 0x7F <> CMD_RESET) by discriminate.
  exact (proj2 (loop_unknown_command [] ecu0 live_link 0x7F [0x01] [] Hc H1 H2 H3)).
Defined.

(** X13.  A reset command is always answered with an ACK frame, never with
    an ERROR frame: its payload is 1 when the reset transaction succeeded
    and 0 when it failed.  The reset leaves the snapshot and the DTC list
    as they were. *)
Theorem loop_reset (junk : list Z) (s : ECUData) (w : world) (rest out : list Z)
    ok s' w' :
  resetEcu s w = Ret (ok, s', w') ->
  loop junk s w (mkHost (CMD_RESET :: rest) out)
  = Ret (s', w', mkHost rest (out ++ [0xAA; 0x55; 0x83; 1;
                                      if ok then 1 else 0;
                                      if ok then 0x7C else 0x7D]))
  /\ row0_fields s' = row0_fields s /\ row1_fields s' = row1_fields s
  /\ row2_fields s' = row2_fields s /\ row3_fields s' = row3_fields s
  /\ maf s' = maf s /\ dtcErrs s' = dtcErrs s /\ dtcLen s' = dtcLen s
  /\ wire w' = wire w ++ Listen :: map Write [0x21; 0x04; 0x01; 0x00; 0xDA].
Proof.
  intros Hreset. split.
  - unfold loop, readCmdFrame. cbn [inbox outbox].
    change (u8 CMD_RESET =? CMD_GET_LIVE) with false.
    change (u8 CMD_RESET =? CMD_GET_DTC) with false.
    change (u8 CMD_RESET =? CMD_RESET) with true. cbv iota.
    rewrite Hreset. cbn [mbind outcome_bind].
    rewrite sendFrame_one. destruct ok; reflexivity.
  - unfold resetEcu in Hreset.
    destruct (sendcmd s reset_cmd w) as [[[[ok1 s1] c1] w1]| |] eqn:Hsend;
      cbn [mbind outcome_bind] in Hreset; try discriminate.
    assert (Hrx : is_byte (rxlen reset_cmd)) by (unfold is_byte; cbn; lia).
    pose proof (sendcmd_frame _ _ _ _ _ _ _ Hrx Hsend)
      as (F0 & F1 & F2 & F3 & Fm & _ & Fw & _).
    destruct (sendcmd_keeps_dtc _ _ _ _ _ _ _ Hrx Hsend) as [Fe Fl].
    assert (s' = s1 /\ w' = w1) as [-> ->]
      by (destruct ok1; cbn [negb] in Hreset; injection Hreset as _ <- <-; split; reflexivity).
    repeat split; assumption.
Qed.

Lemma loop_reset_witness :
  exists s' w',
    loop [] ecu0 (answering [0; 3; 0xFD]) (mkHost [CMD_RESET] [])
    = Ret (s', w', mkHost [] [0xAA; 0x55; 0x83; 1; 1; 0x7C]).
Proof.
  match eval vm_compute in (resetEcu ecu0 (answering [0; 3; 0xFD])) with
  | Ret (true, ?s1, ?w1) =>
      assert (H : resetEcu ecu0 (answering [0; 3; 0xFD]) = Ret (true, s1, w1))
        by (vm_compute; reflexivity);
      exists s1, w1;
      exact (proj1 (loop_reset [] ecu0 (answering [0; 3; 0xFD]) [] [] true s1 w1 H))
  end.
Defined.

(** X14.  A DTC command whose scan fails is answered with the ERROR frame
    of code 2.  After a successful scan that counted at most 14 nibbles
    the answer is a DTC frame carrying the count and as many leading
    cells of [dtcErrs], whatever the stack held; after a scan that counted
    more, the frame length exceeds the 15-byte payload array and the
    checksum loop reads behind it. *)
Theorem loop_get_dtc (junk : list Z) (s : ECUData) (w : world) (rest out : list Z)
    ok s' w' :
  length (dtcErrs s) = ErrLen ->
  scanDtc s w = Ret (ok, s', w') ->
  loop junk s w (mkHost (CMD_GET_DTC :: rest) out)
  = if negb ok then Ret (s', w', mkHost rest (out ++ frame_of MSG_ERR [2]))
    else if dtcLen s' <=? 14
         then Ret (s', w', mkHost rest (out ++ frame_of MSG_DTC (dtcLen s' :: dtc_list s')))
         else Fault.
Proof.
  intros Hlen Hscan.
  unfold loop, readCmdFrame. cbn [inbox outbox].
  change (u8 CMD_GET_DTC =? CMD_GET_LIVE) with false.
  change (u8 CMD_GET_DTC =? CMD_GET_DTC) with true. cbv iota.
  rewrite Hscan. cbn [mbind outcome_bind].
  destruct ok; cbn [negb].
  2:{ rewrite sendFrame_one. reflexivity. }
  destruct (scanDtc_true_inv _ _ _ _ Hlen Hscan) as [Hl Hc].
  unfold ErrLen in Hl.
  set (arr := local_array (1 + ErrLen) junk).
  assert (Harr : length arr = 15%nat) by apply length_local_array.
  rewrite (u8_small (dtcLen s')) by (unfold is_byte; lia).
  assert (Hcell : cell (copy_dtc ErrLen 0 (dtcErrs s') (<[0%nat := dtcLen s']> arr)) 0
                  = dtcLen s').
  { rewrite copy_dtc_cell0 by lia. unfold cell. cbn [Z.to_nat].
    apply list_lookup_total_insert_eq. lia. }
  rewrite Hcell. rewrite (u8_small (1 + dtcLen s')) by (unfold is_byte; lia).
  destruct (dtcLen s' <=? 14) eqn:E.
  - rewrite sendFrame_inside
      by (rewrite ?copy_dtc_length, ?length_insert, ?Harr; lia).
    rewrite copy_dtc_sent by (try assumption; lia). reflexivity.
  - rewrite sendFrame_overread
      by (rewrite copy_dtc_length, length_insert, Harr; lia).
    reflexivity.
Qed.

Lemma loop_get_dtc_witness :
  exists s' w',
    loop [9; 9; 9] ecu0 (answering (good_reply (dtc_payload 5 0x10))) (mkHost [CMD_GET_DTC] [])
    = Ret (s', w', mkHost [] [0xAA; 0x55; 0x82; 2; 1; 0; 0x7C]).
Proof.
  match eval vm_compute in (scanDtc ecu0 (answering (good_reply (dtc_payload 5 0x10)))) with
  | Ret (true, ?s1, ?w1) =>
      assert (H : scanDtc ecu0 (answering (good_reply (dtc_payload 5 0x10)))
                  = Ret (true, s1, w1)) by (vm_compute; reflexivity);
      exists s1, w1;
      exact (loop_get_dtc [9; 9; 9] ecu0 _ [] [] true s1 w1 eq_refl H)
  end.
Defined.

Lemma pack_live_read (s : ECUData) (w : world) s' w' :
  obd_sel s = 1 ->
  readLiveData s w = Ret (true, s', w') ->
  (rpm s' <= 65535 ->
   exists out, length out = 16%nat
     /\ forall p, length p = 16%nat -> pack_live p s' = Ret out)
  /\ (65535 < rpm s' -> forall p, pack_live p s' = Fault).
Proof.
  intros Hsel Hrun.
  destruct (readLiveData_packed_members _ _ _ _ Hsel Hrun)
    as (Hrpm & Hvss & Hect & Hiat & Hmaps & Htps & b & Hb & Hvolt & Ho2).
  destruct (scaled_voltages_fit b Hb) as (batt & o2mv & Hbatt & Ho2mv).
  rewrite <- Hvolt in Hbatt. rewrite <- Ho2 in Ho2mv.
  split.
  - intros Hfit. eexists. split; [|intros p Hp;
      exact (pack_live_bytes p s' batt o2mv Hp ltac:(lia)
               ltac:(lia) ltac:(lia) ltac:(lia) ltac:(lia) Hbatt Ho2mv)].
    reflexivity.
  - intros Hbig p. unfold pack_live. rewrite to_u16_rpm by lia.
    destruct (rpm s' <=? 65535) eqn:E; [lia|]. reflexivity.
Qed.

(** X15.  A live-data command whose read fails is answered with the ERROR
    frame of code 1.  After a successful read (with [obd_sel = 1]) whose
    RPM is at most 65535 the answer is a LIVE frame with the 16 bytes of
    [pack_live], whatever the stack held.  After a successful read whose
    RPM is larger, the value that [pack_live] converts to [uint16_t] is
    that RPM itself, which the type cannot hold: C++ leaves the conversion
    undefined, and nothing is stated about what such a turn writes. *)
Theorem loop_get_live (junk : list Z) (s : ECUData) (w : world) (rest out : list Z)
    ok s' w' :
  obd_sel s = 1 ->
  readLiveData s w = Ret (ok, s', w') ->
  let run := loop junk s w (mkHost (CMD_GET_LIVE :: rest) out) in
  (ok = false -> run = Ret (s', w', mkHost rest (out ++ frame_of MSG_ERR [1])))
  /\ (ok = true -> rpm s' <= 65535 ->
      exists payload,
        length payload = 16%nat
        /\ (forall p, length p = 16%nat -> pack_live p s' = Ret payload)
        /\ run = Ret (s', w', mkHost rest (out ++ frame_of MSG_LIVE payload)))
  /\ (ok = true -> 65535 < rpm s' ->
      FP.to_int (max_0f (rpm s')) = rpm s' /\ rpm s' <= 1875000).
Proof.
  intros Hsel Hrun run.
  assert (Hloop : run =
    if negb ok then
      out1 ← sendFrame out MSG_ERR [1] 1; Ret (s', w', mkHost rest out1)
    else
      payload ← pack_live (local_array 16 junk) s';
      out1 ← sendFrame out MSG_LIVE payload 16; Ret (s', w', mkHost rest out1)).
  { subst run. unfold loop, readCmdFrame. cbn [inbox outbox].
    change (u8 CMD_GET_LIVE =? CMD_GET_LIVE) with true. cbv iota.
    rewrite Hrun. cbn [mbind outcome_bind]. destruct ok; reflexivity. }
  split; [|split].
  - rewrite Hloop. intros ->. cbn [negb]. rewrite sendFrame_one. reflexivity.
  - rewrite Hloop. intros -> Hfit. cbn [negb].
    destruct (pack_live_read _ _ _ _ Hsel Hrun) as (Hpack & _).
    destruct (Hpack Hfit) as (payload & Hlen & Hall).
    exists payload. split; [exact Hlen|]. split; [exact Hall|].
    rewrite (Hall _ (length_local_array 16 junk)). cbn [mbind outcome_bind].
    rewrite sendFrame_inside by lia. cbn [mbind outcome_bind].
    rewrite firstn_all2 by lia. reflexivity.
  - intros -> Hbig.
    destruct (readLiveData_packed_members _ _ _ _ Hsel Hrun) as (Hrpm & _).
    split; [|lia].
    rewrite max_0f_exact by lia. rewrite to_int_inject. lia.
Qed.

Lemma loop_get_live_witness :
  (exists s' w',
     loop [] ecu0 (failing_link 2) (mkHost [CMD_GET_LIVE] [])
     = Ret (s', w', mkHost [] [0xAA; 0x55; 0x84; 1; 1; 0x7B])
     /\ rpm s' = 1875)
  /\ (exists s' w' payload,
        loop [7; 7] ecu0 live_link (mkHost [CMD_GET_LIVE] [])
        = Ret (s', w', mkHost [] (frame_of MSG_LIVE payload))
        /\ take 3 payload = [0x07; 0x53; cell row0_payload 2]
        /\ rpm s' = 1875).
Proof.
  split.
  - match eval vm_compute in (readLiveData ecu0 (failing_link 2)) with
    | Ret (false, ?s1, ?w1) =>
        assert (H : readLiveData ecu0 (failing_link 2) = Ret (false, s1, w1))
          by (vm_compute; reflexivity);
        destruct (loop_get_live [] ecu0 (failing_link 2) [] [] false s1 w1 eq_refl H)
          as (Herr & _);
        exists s1, w1; split; [exact (Herr eq_refl) | reflexivity]
    end.
  - match eval vm_compute in (readLiveData ecu0 live_link) with
    | Ret (true, ?s1, ?w1) =>
        assert (H : readLiveData ecu0 live_link = Ret (true, s1, w1))
          by (vm_compute; reflexivity);
        assert (Hfit : rpm s1 <= 65535) by (vm_compute; discriminate);
        destruct (loop_get_live [7; 7] ecu0 live_link [] [] true s1 w1 eq_refl H)
          as (_ & Hlive & _);
        destruct (Hlive eq_refl Hfit) as (payload & Hlen & Hpack & Hloop);
        exists s1, w1, payload; split; [exact Hloop|]; split; [|reflexivity];
        assert (Hp : Ret payload = pack_live (replicate 16 0) s1)
          by (symmetry; apply Hpack; reflexivity);
        vm_compute in Hp; injection Hp as ->; reflexivity
    end.
Defined.

(** What [pack_live] returns, when all its conversions are defined, has
    16 cells and begins with the two bytes of the converted RPM. *)
Lemma pack_live_Ret_inv (p : list Z) (e : ECUData) (out : list Z) :
  length p = 16%nat ->
  pack_live p e = Ret out ->
  length out = 16%nat
  /\ exists rpm16,
       to_u16 (max_0f (rpm e)) = Ret rpm16
       /\ take 2 out = [u8 (Z.shiftr rpm16 8); u8 (Z.land rpm16 0xFF)].
Proof.
  intros Hp. unfold pack_live.
  destruct (to_u16 (max_0f (rpm e))) as [r| |];
    cbn [mbind outcome_bind]; try (intros H; discriminate H).
  do 4 (destruct (to_i16 _) as [?| |];
        cbn [mbind outcome_bind]; try (intros H; discriminate H)).
  do 2 (destruct (to_u16 _) as [?| |];
        cbn [mbind outcome_bind]; try (intros H; discriminate H)).
  intros H. injection H as <-.
  split; [rewrite !length_insert; exact Hp|].
  exists r. split; [reflexivity|].
  do 17 (destruct p as [|? p]; try discriminate Hp). reflexivity.
Qed.

(** The DTC answer of [loop], where writing it stays inside the payload
    array. *)
Lemma dtc_answer_sent (junk : list Z) (s : ECUData) (out out1 : list Z) :
  length (dtcErrs s) = ErrLen -> 0 <= dtcLen s <= 28 ->
  let payload := copy_dtc ErrLen 0 (dtcErrs s)
                   (<[0%nat := u8 (dtcLen s)]> (local_array (1 + ErrLen) junk)) in
  sendFrame out MSG_DTC payload (u8 (1 + cell payload 0)) = Ret out1 ->
  dtcLen s <= 14 /\ out1 = out ++ frame_of MSG_DTC (dtcLen s :: dtc_list s).
Proof.
  intros Hl Hc payload. unfold ErrLen in Hl.
  set (arr := local_array (1 + ErrLen) junk) in *.
  assert (Harr : length arr = 15%nat) by apply length_local_array.
  assert (Hcell : cell payload 0 = dtcLen s).
  { subst payload. rewrite (u8_small (dtcLen s)) by (unfold is_byte; lia).
    rewrite copy_dtc_cell0 by lia. unfold cell. cbn [Z.to_nat].
    apply list_lookup_total_insert_eq. lia. }
  rewrite Hcell. rewrite (u8_small (1 + dtcLen s)) by (unfold is_byte; lia).
  intros Hsf. apply sendFrame_Ret_inv in Hsf as [Hle ->]; [|lia].
  assert (Hp : length payload = 15%nat)
    by (subst payload; rewrite copy_dtc_length, length_insert; exact Harr).
  rewrite Hp in Hle. split; [lia|].
  subst payload. rewrite (u8_small (dtcLen s)) by (unfold is_byte; lia).
  rewrite copy_dtc_sent by (try assumption; lia). reflexivity.
Qed.

(** X16.  One command, one response, for every turn that stays within
    defined behaviour.  A turn of [loop] that found a command byte and ran
    to its end, neither reading behind the 15-byte DTC payload array (a
    scan that counted more than 14 nibbles) nor converting to [uint16_t]
    an RPM that the type cannot hold, has taken exactly that byte off the
    host link and appended exactly one frame to it, of type 0x81, 0x82,
    0x83 or 0x84, with start bytes, type, payload length, at most 16
    payload bytes and a last byte that closes the byte sum of the frame to
    zero modulo 256.  A DTC frame of such a turn carries a count of at
    most 14 and as many leading cells of [dtcErrs]; a LIVE frame carries
    what [pack_live] returned, and its first two bytes are the RPM as
    converted to [uint16_t], a value of at most 65535, high byte first.
    The session is taken with the 14 cells of [dtcErrs]. *)
Theorem loop_one_frame (junk : list Z) (s : ECUData) (w : world) (c : Z)
    (rest out : list Z) s' w' h' :
  length (dtcErrs s) = ErrLen ->
  loop junk s w (mkHost (c :: rest) out) = Ret (s', w', h') ->
  exists type payload,
    h' = mkHost rest (out ++ frame_of type payload)
    /\ (type = MSG_LIVE \/ type = MSG_DTC \/ type = MSG_ACK \/ type = MSG_ERR)
    /\ frame_of type payload
       = [0xAA; 0x55; type; Z.of_nat (length payload)] ++ payload
         ++ [checksum ([0xAA; 0x55; type; Z.of_nat (length payload)] ++ payload)]
    /\ (length payload <= 16)%nat
    /\ byte_sum (frame_of type payload) mod 256 = 0
    /\ (type = MSG_DTC ->
        dtcLen s' <= 14 /\ payload = dtcLen s' :: dtc_list s')
    /\ (type = MSG_LIVE ->
        pack_live (local_array 16 junk) s' = Ret payload
        /\ exists rpm16,
             to_u16 (max_0f (rpm s')) = Ret rpm16 /\ 0 <= rpm16 <= 65535
             /\ take 2 payload = [u8 (Z.shiftr rpm16 8); u8 (Z.land rpm16 0xFF)]).
Proof.
  intros Hdtc Hloop.
  assert (Hframe : exists type payload,
    h' = mkHost rest (out ++ frame_of type payload)
    /\ (type = MSG_LIVE \/ type = MSG_DTC \/ type = MSG_ACK \/ type = MSG_ERR)
    /\ (length payload <= 16)%nat
    /\ (type = MSG_DTC ->
        dtcLen s' <= 14 /\ payload = dtcLen s' :: dtc_list s')
    /\ (type = MSG_LIVE ->
        pack_live (local_array 16 junk) s' = Ret payload
        /\ exists rpm16,
             to_u16 (max_0f (rpm s')) = Ret rpm16 /\ 0 <= rpm16 <= 65535
             /\ take 2 payload = [u8 (Z.shiftr rpm16 8); u8 (Z.land rpm16 0xFF)])).
  { unfold loop, readCmdFrame in Hloop. cbn [inbox outbox] in Hloop.
    destruct (u8 c =? CMD_GET_LIVE).
    - destruct (readLiveData s w) as [[[ok s1] w1]| |];
        cbn [mbind outcome_bind] in Hloop; try discriminate.
      destruct ok; cbn [negb] in Hloop.
      + destruct (pack_live (local_array 16 junk) s1) as [payload| |] eqn:Hpack;
          cbn [mbind outcome_bind] in Hloop; try discriminate.
        destruct (sendFrame out MSG_LIVE payload 16) as [out1| |] eqn:Hsf;
          cbn [mbind outcome_bind] in Hloop; try discriminate.
        apply sendFrame_Ret_inv in Hsf as [Hle ->]; [|lia].
        injection Hloop as <- <- <-.
        destruct (pack_live_Ret_inv _ _ _ (length_local_array 16 junk) Hpack)
          as (Hlen & rpm16 & Hconv & Hword).
        rewrite firstn_all2 by lia.
        exists MSG_LIVE, payload.
        split; [reflexivity|]. split; [auto|]. split; [lia|].
        split; [discriminate|]. intros _. split; [exact Hpack|].
        exists rpm16. split; [exact Hconv|].
        split; [exact (to_u16_Ret _ _ Hconv) | exact Hword].
      + rewrite sendFrame_one in Hloop. injection Hloop as <- <- <-.
        exists MSG_ERR, [1]. split; [reflexivity|]. split; [auto|].
        split; [cbn; lia|]. split; discriminate.
    - destruct (u8 c =? CMD_GET_DTC).
      + destruct (scanDtc s w) as [[[ok s1] w1]| |] eqn:Hscan;
          cbn [mbind outcome_bind] in Hloop; try discriminate.
        destruct ok; cbn [negb] in Hloop.
        * destruct (scanDtc_true_inv _ _ _ _ Hdtc Hscan) as [Hl Hc].
          match type of Hloop with
          | context [sendFrame out MSG_DTC ?p ?l] =>
              destruct (sendFrame out MSG_DTC p l) as [out1| |] eqn:Hsf;
              cbn [mbind outcome_bind] in Hloop; try discriminate
          end.
          apply (dtc_answer_sent junk s1 out out1 Hl Hc) in Hsf as [Hle ->].
          injection Hloop as <- <- <-.
          exists MSG_DTC, (dtcLen s1 :: dtc_list s1).
          split; [reflexivity|]. split; [auto|].
          split.
          { unfold dtc_list. cbn [length]. rewrite length_take. lia. }
          split; [intros _; split; [exact Hle | reflexivity] | discriminate].
        * rewrite sendFrame_one in Hloop. injection Hloop as <- <- <-.
          exists MSG_ERR, [2]. split; [reflexivity|]. split; [auto|].
          split; [cbn; lia|]. split; discriminate.
      + destruct (u8 c =? CMD_RESET).
        * destruct (resetEcu s w) as [[[ok s1] w1]| |];
            cbn [mbind outcome_bind] in Hloop; try discriminate.
          rewrite sendFrame_one in Hloop. injection Hloop as <- <- <-.
          exists MSG_ACK, [if ok then 1 else 0].
          split; [reflexivity|]. split; [auto|].
          split; [cbn; lia|]. split; discriminate.
        * rewrite sendFrame_one in Hloop. injection Hloop as <- <- <-.
          exists MSG_ERR, [255]. split; [reflexivity|]. split; [auto|].
          split; [cbn; lia|]. split; discriminate. }
  destruct Hframe as (type & payload & Hh & Htype & Hlen & Hd & Hl).
  exists type, payload. split; [exact Hh|]. split; [exact Htype|].
  split; [unfold frame_of; rewrite <- app_assoc; reflexivity|].
  split; [exact Hlen|]. split; [apply frame_of_sum|].
  split; [exact Hd | exact Hl].
Qed.

Lemma loop_one_frame_witness :
  (exists s' w' type payload,
     loop [9; 9; 9] ecu0 (answering (good_reply (dtc_payload 5 0x10)))
       (mkHost [CMD_GET_DTC; 0x01] [])
     = Ret (s', w', mkHost [0x01] (frame_of type payload))
     /\ byte_sum (frame_of type payload) mod 256 = 0)
  /\ (exists s' w' type payload,
        loop [7; 7] ecu0 live_link (mkHost [CMD_GET_LIVE] [])
        = Ret (s', w', mkHost [] (frame_of type payload))
        /\ (length payload <= 16)%nat).
Proof.
  split.
  - match eval vm_compute in
        (loop [9; 9; 9] ecu0 (answering (good_reply (dtc_payload 5 0x10)))
           (mkHost [CMD_GET_DTC; 0x01] [])) with
    | Ret (?s1, ?w1, ?h1) =>
        assert (H : loop [9; 9; 9] ecu0 (answering (good_reply (dtc_payload 5 0x10)))
                      (mkHost [CMD_GET_DTC; 0x01] []) = Ret (s1, w1, h1))
          by (vm_compute; reflexivity);
        destruct (loop_one_frame [9; 9; 9] ecu0
                    (answering (good_reply (dtc_payload 5 0x10)))
                    CMD_GET_DTC [0x01] [] s1 w1 h1 eq_refl H)
          as (type & payload & Hh & _ & _ & _ & Hsum & _);
        exists s1, w1, type, payload; split; [|exact Hsum];
        rewrite H; exact (f_equal (fun h => Ret (s1, w1, h)) Hh)
    end.
  - match eval vm_compute in
        (loop [7; 7] ecu0 live_link (mkHost [CMD_GET_LIVE] [])) with
    | Ret (?s1, ?w1, ?h1) =>
        assert (H : loop [7; 7] ecu0 live_link (mkHost [CMD_GET_LIVE] [])
                    = Ret (s1, w1, h1))
          by (vm_compute; reflexivity);
        destruct (loop_one_frame [7; 7] ecu0 live_link
                    CMD_GET_LIVE [] [] s1 w1 h1 eq_refl H)
          as (type & payload & Hh & _ & _ & Hlen & _);
        exists s1, w1, type, payload; split; [|exact Hlen];
        rewrite H; exact (f_equal (fun h => Ret (s1, w1, h)) Hh)
    end.
Defined.

(** ** Start-up *)

(** [init] writes the bytes of the table [startup], in order, and waits. *)
Lemma init_sends_startup (w : world) :
  init w = (true, mkWorld (polls w) (clock w) (wire w ++ map Write startup ++ [Delay 300])).
Proof.
  unfold init, delay, emit, startup. cbn [polls clock wire map].
  rewrite <- !app_assoc. reflexivity.
Qed.
